(** * Hotel booking lifecycle and invoice engine

    A shallow embedding of [app/services/room_service.py] and
    [app/services/booking_service.py] together with the SQLModel tables
    of [app/models/models.py] and the request schemas of
    [app/schemas/schemas.py].

    Conventions of the embedding.
    - A table is the list of its rows in insertion order; a primary key
      is looked up with the first match, an update rewrites the row that
      carries the key, a delete removes it.
    - A [datetime] is the number of microseconds since the epoch.
    - Python's [float] arithmetic is kept abstract in the class [Number]:
      the engine is a function of the operations it uses, so what is
      proved of it holds for every arithmetic.  Two instances are given,
      exact rationals and IEEE 754 binary64.
    - The SQLAlchemy session is a pair of databases: what the session
      sees and what has been committed.  An exception leaves the
      committed database as the result of the request. *)

From Stdlib Require Import ZArith QArith List String Bool Lia DecimalString.
From Stdlib Require Floats Uint63.
Import ListNotations.
Local Open Scope string_scope.
Local Open Scope list_scope.
Local Open Scope Z_scope.

Set Implicit Arguments.

(** ** Numbers *)

(** The arithmetic of the monetary columns.  [of_Z] is the coercion of a
    Python [int]; [truthy] is [bool(x)], false exactly at zero. *)
Class Number (num : Type) : Type := {
  of_Z : Z -> num;
  fadd : num -> num -> num;
  fsub : num -> num -> num;
  fmul : num -> num -> num;
  fdiv : num -> num -> num;
  truthy : num -> bool
}.

(** Exact rational arithmetic, the reading under which the prose of the
    specification states its numeric facts. *)
#[export] Instance Q_Number : Number Q := {
  of_Z := inject_Z;
  fadd := Qplus;
  fsub := Qminus;
  fmul := Qmult;
  fdiv := Qdiv;
  truthy := fun x => negb (Qeq_bool x 0)
}.

(** IEEE 754 binary64, the arithmetic of a Python [float].  The
    integers the engine converts are 0, 1, 100 and a number of days, all
    far inside the range in which the conversion is exact. *)
Definition float_of_Z (z : Z) : PrimFloat.float :=
  if z <? 0
  then PrimFloat.opp (PrimFloat.of_uint63 (Uint63.of_Z (- z)))
  else PrimFloat.of_uint63 (Uint63.of_Z z).

#[export] Instance Float_Number : Number PrimFloat.float := {
  of_Z := float_of_Z;
  fadd := PrimFloat.add;
  fsub := PrimFloat.sub;
  fmul := PrimFloat.mul;
  fdiv := PrimFloat.div;
  truthy := fun x => negb (PrimFloat.eqb x (float_of_Z 0))
}.

(** The sign test [x < 0] of a monetary value. *)
Class Signed (num : Type) : Type := {
  negative : num -> bool
}.

#[export] Instance Q_Signed : Signed Q := {
  negative := fun x => negb (Qle_bool 0 x)
}.

#[export] Instance Float_Signed : Signed PrimFloat.float := {
  negative := fun x => PrimFloat.ltb x (float_of_Z 0)
}.

(** What the signs of the totals rest on: zero is not negative, and
    neither are the sum and the product of two values that are not
    negative, nor the hundredth of one.  Both arithmetics have these
    properties; in binary64 a NaN is not negative either. *)
Definition sign_laws (num : Type) `{Number num} `{Signed num} : Prop :=
  negative (of_Z 0) = false /\
  (forall a b : num,
     negative a = false -> negative b = false ->
     negative (fadd a b) = false) /\
  (forall a b : num,
     negative a = false -> negative b = false ->
     negative (fmul a b) = false) /\
  (forall a : num,
     negative a = false -> negative (fdiv a (of_Z 100)) = false).

Arguments sign_laws num {_ _}.

(** The sign of a binary64 value, read off its specification. *)
Definition sf_negative (x : SpecFloat.spec_float) : bool :=
  match x with
  | SpecFloat.S754_finite true _ _ | SpecFloat.S754_infinity true => true
  | _ => false
  end.

(** ** Python idioms *)

(** [x or d] on an [Optional[float]]: [None] and zero are both falsy. *)
Definition float_or {num} `{Number num} (x : option num) (d : num) : num :=
  match x with
  | Some v => if truthy v then v else d
  | None => d
  end.

(** [not x] on an [Optional[float]]. *)
Definition float_falsy {num} `{Number num} (x : option num) : bool :=
  match x with
  | Some v => negb (truthy v)
  | None => true
  end.

(** [n or d] on an [int]. *)
Definition int_or (n d : Z) : Z := if n =? 0 then d else n.

(** [bool(x)] on an [Optional[datetime]] or an optional row. *)
Definition is_set {A} (x : option A) : bool :=
  match x with Some _ => true | None => false end.

(** [(a - b).days]: a [timedelta] is normalised with a floor. *)
Definition microseconds_per_day : Z := 86400000000.

Definition timedelta_days (a b : Z) : Z := (a - b) / microseconds_per_day.

(** [get_date_range] of [app/utils/helpers.py]:
    [[start + timedelta(days=i) for i in range(delta.days + 1)]]. *)
Definition get_date_range (start_date end_date : Z) : list Z :=
  let delta_days := timedelta_days end_date start_date in
  map (fun i => start_date + Z.of_nat i * microseconds_per_day)
    (seq 0 (Z.to_nat (delta_days + 1))).

(** [bool(s)] on a [str]. *)
Definition str_truthy (s : string) : bool := negb (String.eqb s "").

(** [query.offset(skip).limit(limit)], for an offset and a limit that are
    not negative. *)
Definition paginate {A} (skip limit : nat) (l : list A) : list A :=
  firstn limit (skipn skip l).

(** ** Tables *)

Section Table.

Variable Row : Type.
Variable key : Row -> Z.

(** [session.get(Model, k)] and [select(...).where(pk == k).first()]. *)
Definition tbl_get (k : Z) (t : list Row) : option Row :=
  find (fun r => key r =? k) t.

(** Flush of a dirty row: the row carrying its key is rewritten. *)
Definition tbl_put (r : Row) (t : list Row) : list Row :=
  map (fun r0 => if key r0 =? key r then r else r0) t.

(** [session.delete(row)]. *)
Definition tbl_delete (k : Z) (t : list Row) : list Row :=
  filter (fun r => negb (key r =? k)) t.

(** The key an [INTEGER PRIMARY KEY] column receives on insert: one more
    than the largest key in use, 1 in an empty table. *)
Definition tbl_next_id (t : list Row) : Z :=
  1 + fold_left Z.max (map key t) 0.

(** The primary-key constraint. *)
Definition unique_keys (t : list Row) : Prop := NoDup (map key t).

(** Whether a row's key is among the keys of [l]. *)
Definition hit (l : list Row) (r : Row) : bool :=
  existsb (fun a => key a =? key r) l.

End Table.

(** ** Errors *)

(** The three exceptions of [app/utils/errors.py] the services raise,
    Python's [TypeError], and SQLAlchemy's [IntegrityError], which a
    flush raises when the database refuses a statement. *)
Inductive error : Type :=
| NotFoundError
| ConflictError
| BadRequestError
| PyTypeError
| IntegrityError.

Section Engine.

Context {num : Type} `{Number num}.

(** ** Rows ([app/models/models.py]) *)

Record Guest : Type := {
  g_id : Z;
  g_name : string;
  phone : option string;
  email : option string;
  id_type : option string;
  id_number : option string;
  is_premium : bool;
  first_seen : Z;
  last_seen : option Z;
  g_notes : option string;
  digilocker_token : option string;
  digilocker_refresh_token : option string;
  digilocker_token_expiry : option Z;
  g_created_at : Z;
  g_updated_at : option Z
}.

Record Room : Type := {
  number : Z;
  room_type : string;
  occupied : bool;
  current_guest_id : option Z;
  rate_per_night : num;
  notes : option string;
  r_created_at : Z;
  r_updated_at : option Z
}.

Record Booking : Type := {
  bk_id : Z;
  guest_id : Z;
  room_number : Z;
  checkin_at : Z;
  checkout_at : option Z;
  price : option num;
  invoice_path : option string;
  subtotal : option num;
  tax_total : option num;
  discount_total : option num;
  grand_total : option num;
  bk_created_at : Z;
  bk_updated_at : option Z
}.

Record InvoiceLineItem : Type := {
  li_id : Z;
  li_booking_id : Z;
  description : string;
  quantity : num;
  unit_price : num;
  li_amount : num;
  item_type : string;
  li_created_at : Z;
  li_updated_at : option Z
}.

Record InvoiceTax : Type := {
  tax_id : Z;
  tax_booking_id : Z;
  tax_name : string;
  rate : num;
  tax_amount : num;
  tax_created_at : Z;
  tax_updated_at : option Z
}.

Record InvoiceDiscount : Type := {
  disc_id : Z;
  disc_booking_id : Z;
  disc_name : string;
  disc_amount : num;
  percentage : option num;
  disc_created_at : Z;
  disc_updated_at : option Z
}.

(** ** The database and the session *)

Record DB : Type := {
  guests : list Guest;
  rooms : list Room;
  bookings : list Booking;
  line_items : list InvoiceLineItem;
  taxes : list InvoiceTax;
  discounts : list InvoiceDiscount
}.

Record Session : Type := {
  pending : DB;
  committed : DB
}.

(** A service method: it reads and writes the session and either returns
    or raises.  A raise keeps the session as it is at that point. *)
Definition M (A : Type) : Type := Session -> (error + A) * Session.

Definition ret {A} (a : A) : M A := fun s => (inr a, s).

Definition bind {A B} (m : M A) (k : A -> M B) : M B :=
  fun s =>
    match m s with
    | (inr a, s') => k a s'
    | (inl e, s') => (inl e, s')
    end.

Definition raise {A} (e : error) : M A := fun s => (inl e, s).

Notation "x <- m ;; k" := (bind m (fun x => k))
  (at level 100, m at next level, right associativity).
Notation "m ;;; k" := (bind m (fun _ => k))
  (at level 100, right associativity).

(** [try: m except Exception: pass]. *)
Definition try_except (m : M unit) : M unit :=
  fun s =>
    match m s with
    | (inr a, s') => (inr a, s')
    | (inl _, s') => (inr tt, s')
    end.

Definition read {A} (f : DB -> A) : M A := fun s => (inr (f (pending s)), s).

Definition write (f : DB -> DB) : M unit :=
  fun s => (inr tt, {| pending := f (pending s); committed := committed s |}).

(** [session.commit()]. *)
Definition commit : M unit :=
  fun s => (inr tt, {| pending := pending s; committed := pending s |}).

(** One request: [get_session] opens a session on the stored database and
    closes it when the handler returns or raises, which drops whatever
    was not committed. *)
Definition request {A} (m : M A) (d : DB) : (error + A) * DB :=
  match m {| pending := d; committed := d |} with
  | (r, s) => (r, committed s)
  end.

(** Writes to one table of the database. *)
Definition on_guests (f : list Guest -> list Guest) (d : DB) : DB :=
  {| guests := f (guests d); rooms := rooms d; bookings := bookings d;
     line_items := line_items d; taxes := taxes d; discounts := discounts d |}.

Definition on_rooms (f : list Room -> list Room) (d : DB) : DB :=
  {| guests := guests d; rooms := f (rooms d); bookings := bookings d;
     line_items := line_items d; taxes := taxes d; discounts := discounts d |}.

Definition on_bookings (f : list Booking -> list Booking) (d : DB) : DB :=
  {| guests := guests d; rooms := rooms d; bookings := f (bookings d);
     line_items := line_items d; taxes := taxes d; discounts := discounts d |}.

Definition on_line_items
  (f : list InvoiceLineItem -> list InvoiceLineItem) (d : DB) : DB :=
  {| guests := guests d; rooms := rooms d; bookings := bookings d;
     line_items := f (line_items d); taxes := taxes d;
     discounts := discounts d |}.

Definition on_taxes (f : list InvoiceTax -> list InvoiceTax) (d : DB) : DB :=
  {| guests := guests d; rooms := rooms d; bookings := bookings d;
     line_items := line_items d; taxes := f (taxes d);
     discounts := discounts d |}.

Definition on_discounts
  (f : list InvoiceDiscount -> list InvoiceDiscount) (d : DB) : DB :=
  {| guests := guests d; rooms := rooms d; bookings := bookings d;
     line_items := line_items d; taxes := taxes d;
     discounts := f (discounts d) |}.

(** [session.add] of a row the session already tracks. *)
Definition save_guest (g : Guest) : M unit := write (on_guests (tbl_put g_id g)).
Definition save_room (r : Room) : M unit := write (on_rooms (tbl_put number r)).
Definition save_booking (b : Booking) : M unit :=
  write (on_bookings (tbl_put bk_id b)).
Definition save_line_item (i : InvoiceLineItem) : M unit :=
  write (on_line_items (tbl_put li_id i)).
Definition save_tax (t : InvoiceTax) : M unit :=
  write (on_taxes (tbl_put tax_id t)).
Definition save_discount (x : InvoiceDiscount) : M unit :=
  write (on_discounts (tbl_put disc_id x)).

(** ** Attribute assignments *)

Definition room_set_occupancy (r : Room) (occ : bool) (g : option Z) (now : Z)
  : Room :=
  {| number := number r; room_type := room_type r; occupied := occ;
     current_guest_id := g; rate_per_night := rate_per_night r;
     notes := notes r; r_created_at := r_created_at r;
     r_updated_at := Some now |}.

Definition guest_touch (g : Guest) (now : Z) : Guest :=
  {| g_id := g_id g; g_name := g_name g; phone := phone g; email := email g;
     id_type := id_type g; id_number := id_number g;
     is_premium := is_premium g; first_seen := first_seen g;
     last_seen := Some now; g_notes := g_notes g;
     digilocker_token := digilocker_token g;
     digilocker_refresh_token := digilocker_refresh_token g;
     digilocker_token_expiry := digilocker_token_expiry g;
     g_created_at := g_created_at g; g_updated_at := Some now |}.

Definition booking_set_checkout (b : Booking) (co : option Z) : Booking :=
  {| bk_id := bk_id b; guest_id := guest_id b; room_number := room_number b;
     checkin_at := checkin_at b; checkout_at := co; price := price b;
     invoice_path := invoice_path b; subtotal := subtotal b;
     tax_total := tax_total b; discount_total := discount_total b;
     grand_total := grand_total b; bk_created_at := bk_created_at b;
     bk_updated_at := bk_updated_at b |}.

Definition booking_set_price (b : Booking) (p : option num) : Booking :=
  {| bk_id := bk_id b; guest_id := guest_id b; room_number := room_number b;
     checkin_at := checkin_at b; checkout_at := checkout_at b; price := p;
     invoice_path := invoice_path b; subtotal := subtotal b;
     tax_total := tax_total b; discount_total := discount_total b;
     grand_total := grand_total b; bk_created_at := bk_created_at b;
     bk_updated_at := bk_updated_at b |}.

Definition booking_set_updated_at (b : Booking) (t : Z) : Booking :=
  {| bk_id := bk_id b; guest_id := guest_id b; room_number := room_number b;
     checkin_at := checkin_at b; checkout_at := checkout_at b;
     price := price b; invoice_path := invoice_path b;
     subtotal := subtotal b; tax_total := tax_total b;
     discount_total := discount_total b; grand_total := grand_total b;
     bk_created_at := bk_created_at b; bk_updated_at := Some t |}.

Definition booking_set_totals (b : Booking) (s t d g : option num) : Booking :=
  {| bk_id := bk_id b; guest_id := guest_id b; room_number := room_number b;
     checkin_at := checkin_at b; checkout_at := checkout_at b;
     price := price b; invoice_path := invoice_path b;
     subtotal := s; tax_total := t; discount_total := d; grand_total := g;
     bk_created_at := bk_created_at b; bk_updated_at := bk_updated_at b |}.

Definition line_item_set_quantity (i : InvoiceLineItem) (q a : num) (now : Z)
  : InvoiceLineItem :=
  {| li_id := li_id i; li_booking_id := li_booking_id i;
     description := description i; quantity := q;
     unit_price := unit_price i; li_amount := a; item_type := item_type i;
     li_created_at := li_created_at i; li_updated_at := Some now |}.

Definition tax_set_amount (t : InvoiceTax) (a : num) : InvoiceTax :=
  {| tax_id := tax_id t; tax_booking_id := tax_booking_id t;
     tax_name := tax_name t; rate := rate t; tax_amount := a;
     tax_created_at := tax_created_at t;
     tax_updated_at := tax_updated_at t |}.

Definition discount_set_amount (x : InvoiceDiscount) (a : num)
  : InvoiceDiscount :=
  {| disc_id := disc_id x; disc_booking_id := disc_booking_id x;
     disc_name := disc_name x; disc_amount := a;
     percentage := percentage x; disc_created_at := disc_created_at x;
     disc_updated_at := disc_updated_at x |}.

(** ** Request schemas ([app/schemas/schemas.py]) *)

Record RoomCreate : Type := {
  rc_number : Z;
  rc_room_type : string;
  rc_rate_per_night : num
}.

(** [RoomUpdate], seen through [dict(exclude_unset=True)]: [None] is a
    field the request left out.  [current_guest_id], the one nullable
    column, can also be sent as an explicit null, [Some None]. *)
Record RoomUpdate : Type := {
  ru_room_type : option string;
  ru_occupied : option bool;
  ru_current_guest_id : option (option Z);
  ru_rate_per_night : option num
}.

Record BookingCreate : Type := {
  bc_guest_id : Z;
  bc_room_number : Z;
  bc_price : option num
}.

(** [BookingUpdate] through [dict(exclude_unset=True)]: both columns are
    nullable, so each field is left out, null, or a value. *)
Record BookingUpdate : Type := {
  bu_checkout_at : option (option Z);
  bu_price : option (option num)
}.

Record InvoiceLineItemCreate : Type := {
  ic_description : string;
  ic_quantity : num;
  ic_unit_price : num;
  ic_item_type : string
}.

(** Reading an attribute of the request object: a field left out reads
    as its default, [None]. *)
Definition attr {A} (x : option (option A)) : option A :=
  match x with Some v => v | None => None end.

(** ** RoomService ([app/services/room_service.py]) *)

Definition get_room (room_number : Z) : M Room :=
  room <- read (fun d => tbl_get number room_number (rooms d)) ;;
  match room with
  | Some r => ret r
  | None => raise NotFoundError
  end.

Definition create_room (now : Z) (room_data : RoomCreate) : M Room :=
  existing_room <-
    read (fun d => tbl_get number (rc_number room_data) (rooms d)) ;;
  if is_set existing_room then raise ConflictError
  else
    let room :=
      {| number := rc_number room_data;
         room_type := rc_room_type room_data;
         occupied := false;
         current_guest_id := None;
         rate_per_night := rc_rate_per_night room_data;
         notes := None;
         r_created_at := now;
         r_updated_at := None |} in
    write (on_rooms (fun t => t ++ [room])) ;;;
    commit ;;;
    ret room.

(** The [setattr] loop of [update_room] over the fields that were sent. *)
Definition room_apply_update (room : Room) (room_data : RoomUpdate) : Room :=
  {| number := number room;
     room_type :=
       match ru_room_type room_data with
       | Some v => v | None => room_type room end;
     occupied :=
       match ru_occupied room_data with
       | Some v => v | None => occupied room end;
     current_guest_id :=
       match ru_current_guest_id room_data with
       | Some v => v | None => current_guest_id room end;
     rate_per_night :=
       match ru_rate_per_night room_data with
       | Some v => v | None => rate_per_night room end;
     notes := notes room;
     r_created_at := r_created_at room;
     r_updated_at := r_updated_at room |}.

Definition room_set_updated_at (r : Room) (now : Z) : Room :=
  room_set_occupancy r (occupied r) (current_guest_id r) now.

Definition update_room (now : Z) (room_number : Z) (room_data : RoomUpdate)
  : M Room :=
  room <- get_room room_number ;;
  let room := room_apply_update room room_data in
  let room := room_set_updated_at room now in
  save_room room ;;;
  commit ;;;
  ret room.

(** [Room.bookings]: the bookings whose [room_number] is the room's. *)
Definition room_bookings (room : Room) (d : DB) : list Booking :=
  filter (fun b => room_number b =? number room) (bookings d).

(** The relationship [Room.bookings] has no delete cascade, so the flush
    of [commit] first writes [room_number = NULL] to every booking of
    the deleted room; the column is [NOT NULL] and the flush raises
    [IntegrityError] when there is such a booking, active or checked
    out.  Nothing is committed then. *)
Definition delete_room (room_number : Z) : M unit :=
  room <- get_room room_number ;;
  if occupied room then raise ConflictError
  else
    write (on_rooms (tbl_delete number (number room))) ;;;
    orphans <- read (room_bookings room) ;;
    match orphans with
    | [] => commit
    | _ :: _ => raise IntegrityError
    end.

Definition occupy_room (now : Z) (room_number : Z) (guest : Z) : M Room :=
  room <- get_room room_number ;;
  if occupied room then raise ConflictError
  else
    let room := room_set_occupancy room true (Some guest) now in
    save_room room ;;;
    commit ;;;
    ret room.

Definition vacate_room (now : Z) (room_number : Z) : M Room :=
  room <- get_room room_number ;;
  if negb (occupied room) then raise ConflictError
  else
    let room := room_set_occupancy room false None now in
    save_room room ;;;
    commit ;;;
    ret room.

(** ** GuestService.get_guest ([app/services/guest_service.py]) *)

Definition get_guest (guest : Z) : M Guest :=
  g <- read (fun d => tbl_get g_id guest (guests d)) ;;
  match g with
  | Some g => ret g
  | None => raise NotFoundError
  end.

(** ** BookingService ([app/services/booking_service.py]) *)

Definition get_booking (booking_id : Z) : M Booking :=
  booking <- read (fun d => tbl_get bk_id booking_id (bookings d)) ;;
  match booking with
  | Some b => ret b
  | None => raise NotFoundError
  end.

Definition select_line_items (booking_id : Z) (d : DB) : list InvoiceLineItem :=
  filter (fun i => li_booking_id i =? booking_id) (line_items d).

Definition select_taxes (booking_id : Z) (d : DB) : list InvoiceTax :=
  filter (fun t => tax_booking_id t =? booking_id) (taxes d).

Definition select_discounts (booking_id : Z) (d : DB) : list InvoiceDiscount :=
  filter (fun x => disc_booking_id x =? booking_id) (discounts d).

Definition get_line_items (booking_id : Z) : M (list InvoiceLineItem) :=
  read (select_line_items booking_id).

Definition get_taxes (booking_id : Z) : M (list InvoiceTax) :=
  read (select_taxes booking_id).

Definition get_discounts (booking_id : Z) : M (list InvoiceDiscount) :=
  read (select_discounts booking_id).

(** [sum(item.amount for item in line_items)]: the fold from [0]. *)
Definition sum_amounts (items : list InvoiceLineItem) : num :=
  fold_left (fun acc i => fadd acc (li_amount i)) items (of_Z 0).

(** [subtotal * (x / 100)]. *)
Definition percent_of (subtotal x : num) : num :=
  fmul subtotal (fdiv x (of_Z 100)).

(** The loop over the taxes of [recalculate_booking_totals]. *)
Fixpoint recalculate_taxes (subtotal : num) (taxes : list InvoiceTax)
  (tax_total : num) : M num :=
  match taxes with
  | [] => ret tax_total
  | tax :: rest =>
      let tax := tax_set_amount tax (percent_of subtotal (rate tax)) in
      let tax_total := fadd tax_total (tax_amount tax) in
      save_tax tax ;;;
      recalculate_taxes subtotal rest tax_total
  end.

(** One pass of the discount loop on a row. *)
Definition rebase_discount (subtotal : num) (discount : InvoiceDiscount)
  : InvoiceDiscount :=
  match percentage discount with
  | Some p => discount_set_amount discount (percent_of subtotal p)
  | None => discount
  end.

Fixpoint recalculate_discounts (subtotal : num)
  (discounts : list InvoiceDiscount) (discount_total : num) : M num :=
  match discounts with
  | [] => ret discount_total
  | discount :: rest =>
      let discount := rebase_discount subtotal discount in
      let discount_total := fadd discount_total (disc_amount discount) in
      save_discount discount ;;;
      recalculate_discounts subtotal rest discount_total
  end.

Definition recalculate_booking_totals (now : Z) (booking_id : Z) : M Booking :=
  booking <- get_booking booking_id ;;
  line_items <- get_line_items booking_id ;;
  let subtotal := sum_amounts line_items in
  taxes <- get_taxes booking_id ;;
  tax_total <- recalculate_taxes subtotal taxes (of_Z 0) ;;
  discounts <- get_discounts booking_id ;;
  discount_total <- recalculate_discounts subtotal discounts (of_Z 0) ;;
  let grand_total := fsub (fadd subtotal tax_total) discount_total in
  let booking :=
    booking_set_totals booking (Some subtotal) (Some tax_total)
      (Some discount_total) (Some grand_total) in
  let booking := booking_set_updated_at booking now in
  save_booking booking ;;;
  commit ;;;
  ret booking.

(** [str(n)] of an [int]. *)
Definition str_int (n : Z) : string := NilZero.string_of_int (Z.to_int n).

Definition create_booking (now : Z) (booking_data : BookingCreate)
  : M Booking :=
  guest <- get_guest (bc_guest_id booking_data) ;;
  room <- get_room (bc_room_number booking_data) ;;
  if occupied room then raise ConflictError
  else
    booking_id <- read (fun d => tbl_next_id bk_id (bookings d)) ;;
    let booking_price :=
      float_or (bc_price booking_data) (rate_per_night room) in
    let booking :=
      {| bk_id := booking_id;
         guest_id := bc_guest_id booking_data;
         room_number := bc_room_number booking_data;
         checkin_at := now;
         checkout_at := None;
         price := Some booking_price;
         invoice_path := None;
         subtotal := None;
         tax_total := None;
         discount_total := None;
         grand_total := None;
         bk_created_at := now;
         bk_updated_at := None |} in
    let room :=
      room_set_occupancy room true (Some (bc_guest_id booking_data)) now in
    let guest := guest_touch guest now in
    write (on_bookings (fun t => t ++ [booking])) ;;;
    save_room room ;;;
    save_guest guest ;;;
    commit ;;;
    item_id <- read (fun d => tbl_next_id li_id (line_items d)) ;;
    let line_item :=
      {| li_id := item_id;
         li_booking_id := bk_id booking;
         description :=
           (room_type room ++ " Room - " ++ str_int (number room))%string;
         quantity := of_Z 1;
         unit_price := booking_price;
         li_amount := booking_price;
         item_type := "room";
         li_created_at := now;
         li_updated_at := None |} in
    write (on_line_items (fun t => t ++ [line_item])) ;;;
    let booking :=
      booking_set_totals booking (price booking) (tax_total booking)
        (discount_total booking) (price booking) in
    save_booking booking ;;;
    commit ;;;
    ret booking.

(** The [setattr] loop of [update_booking] over the fields that were
    sent. *)
Definition booking_apply_update (booking : Booking)
  (booking_data : BookingUpdate) : Booking :=
  let booking :=
    match bu_checkout_at booking_data with
    | Some v => booking_set_checkout booking v
    | None => booking
    end in
  match bu_price booking_data with
  | Some v => booking_set_price booking v
  | None => booking
  end.

Definition update_booking (now : Z) (booking_id : Z)
  (booking_data : BookingUpdate) : M Booking :=
  booking <- get_booking booking_id ;;
  let booking := booking_apply_update booking booking_data in
  save_booking booking ;;;
  booking <-
    (if is_set (attr (bu_checkout_at booking_data))
        && negb (is_set (checkout_at booking))
     then
       vacate_room now (room_number booking) ;;;
       if float_falsy (attr (bu_price booking_data))
          && float_falsy (price booking)
       then
         room <- get_room (room_number booking) ;;
         match checkout_at booking with
         | None => raise PyTypeError
         | Some co =>
             let duration := int_or (timedelta_days co (checkin_at booking)) 1 in
             ret (booking_set_price booking
                    (Some (fmul (rate_per_night room) (of_Z duration))))
         end
       else ret booking
     else ret booking) ;;
  let booking := booking_set_updated_at booking now in
  save_booking booking ;;;
  commit ;;;
  ret booking.

Definition is_room_item (item : InvoiceLineItem) : bool :=
  String.eqb (item_type item) "room".

Definition checkout_booking (now : Z) (booking_id : Z) : M Booking :=
  booking <- get_booking booking_id ;;
  if is_set (checkout_at booking) then raise ConflictError
  else
    let checkout_time := now in
    let duration := int_or (timedelta_days checkout_time (checkin_at booking)) 1 in
    room <- get_room (room_number booking) ;;
    let booking := booking_set_checkout booking (Some checkout_time) in
    let booking := booking_set_updated_at booking checkout_time in
    save_booking booking ;;;
    vacate_room now (room_number booking) ;;;
    line_items <- get_line_items booking_id ;;
    match find is_room_item line_items with
    | Some room_item =>
        save_line_item
          (line_item_set_quantity room_item (of_Z duration)
             (fmul (unit_price room_item) (of_Z duration)) checkout_time)
    | None => ret tt
    end ;;;
    booking <- recalculate_booking_totals now booking_id ;;
    commit ;;;
    ret booking.

Definition delete_all_invoice_items (booking_id : Z) : M unit :=
  line_items <- get_line_items booking_id ;;
  write (on_line_items (fun t =>
    fold_left (fun t item => tbl_delete li_id (li_id item) t) line_items t)) ;;;
  taxes <- get_taxes booking_id ;;
  write (on_taxes (fun t =>
    fold_left (fun t tax => tbl_delete tax_id (tax_id tax) t) taxes t)) ;;;
  discounts <- get_discounts booking_id ;;
  write (on_discounts (fun t =>
    fold_left (fun t x => tbl_delete disc_id (disc_id x) t) discounts t)) ;;;
  commit.

Definition delete_booking (now : Z) (booking_id : Z) : M unit :=
  booking <- get_booking booking_id ;;
  (if negb (is_set (checkout_at booking))
   then try_except (vacate_room now (room_number booking) ;;; ret tt)
   else ret tt) ;;;
  delete_all_invoice_items booking_id ;;;
  write (on_bookings (tbl_delete bk_id (bk_id booking))) ;;;
  commit.

(** Insert of a line item: the row gets its key at the flush. *)
Definition insert_line_item (now : Z) (booking_id : Z) (description : string)
  (quantity unit_price : num) (item_type : string) : M InvoiceLineItem :=
  item_id <- read (fun d => tbl_next_id li_id (line_items d)) ;;
  let line_item :=
    {| li_id := item_id;
       li_booking_id := booking_id;
       description := description;
       quantity := quantity;
       unit_price := unit_price;
       li_amount := fmul quantity unit_price;
       item_type := item_type;
       li_created_at := now;
       li_updated_at := None |} in
  write (on_line_items (fun t => t ++ [line_item])) ;;;
  commit ;;;
  ret line_item.

Definition add_invoice_item (now : Z) (booking_id : Z)
  (item_data : InvoiceLineItemCreate) : M Booking :=
  insert_line_item now booking_id (ic_description item_data)
    (ic_quantity item_data) (ic_unit_price item_data)
    (ic_item_type item_data) ;;;
  recalculate_booking_totals now booking_id ;;;
  get_booking booking_id.

Definition get_line_item (item_id : Z) : M InvoiceLineItem :=
  line_item <- read (fun d => tbl_get li_id item_id (line_items d)) ;;
  match line_item with
  | Some i => ret i
  | None => raise NotFoundError
  end.

Definition remove_invoice_item (now : Z) (booking_id item_id : Z) : M Booking :=
  line_item <- get_line_item item_id ;;
  booking <- get_booking booking_id ;;
  if is_room_item line_item && negb (is_set (checkout_at booking))
  then raise BadRequestError
  else
    write (on_line_items (tbl_delete li_id (li_id line_item))) ;;;
    commit ;;;
    recalculate_booking_totals now booking_id ;;;
    get_booking booking_id.

Definition add_line_item (now : Z) (booking_id : Z) (description : string)
  (quantity unit_price : num) (item_type : string) : M InvoiceLineItem :=
  booking <- get_booking booking_id ;;
  line_item <-
    insert_line_item now booking_id description quantity unit_price
      item_type ;;
  recalculate_booking_totals now booking_id ;;;
  ret line_item.

Definition delete_line_item (now : Z) (line_item_id : Z) : M unit :=
  line_item <- get_line_item line_item_id ;;
  let booking_id := li_booking_id line_item in
  booking <- get_booking booking_id ;;
  if is_room_item line_item && negb (is_set (checkout_at booking))
  then raise BadRequestError
  else
    write (on_line_items (tbl_delete li_id (li_id line_item))) ;;;
    commit ;;;
    recalculate_booking_totals now booking_id ;;;
    ret tt.

(** [add_tax] and [add_discount] are each defined twice in the class; the
    later definition, with the fields as separate arguments, is the one
    the class keeps. *)
Definition add_tax (now : Z) (booking_id : Z) (name : string) (rate : num)
  : M InvoiceTax :=
  booking <- get_booking booking_id ;;
  booking <-
    (if float_falsy (subtotal booking)
     then recalculate_booking_totals now booking_id
     else ret booking) ;;
  match subtotal booking with
  | None => raise PyTypeError
  | Some booking_subtotal =>
      let tax_amount := percent_of booking_subtotal rate in
      new_id <- read (fun d => tbl_next_id tax_id (taxes d)) ;;
      let tax :=
        {| tax_id := new_id;
           tax_booking_id := booking_id;
           tax_name := name;
           rate := rate;
           tax_amount := tax_amount;
           tax_created_at := now;
           tax_updated_at := None |} in
      write (on_taxes (fun t => t ++ [tax])) ;;;
      commit ;;;
      recalculate_booking_totals now booking_id ;;;
      row <- read (fun d => tbl_get tax_id new_id (taxes d)) ;;
      ret (match row with Some r => r | None => tax end)
  end.

Definition get_tax (id : Z) : M InvoiceTax :=
  tax <- read (fun d => tbl_get tax_id id (taxes d)) ;;
  match tax with
  | Some t => ret t
  | None => raise NotFoundError
  end.

Definition remove_tax (now : Z) (booking_id id : Z) : M Booking :=
  tax <- get_tax id ;;
  write (on_taxes (tbl_delete tax_id (tax_id tax))) ;;;
  commit ;;;
  recalculate_booking_totals now booking_id ;;;
  get_booking booking_id.

Definition delete_tax (now : Z) (id : Z) : M unit :=
  tax <- get_tax id ;;
  let booking_id := tax_booking_id tax in
  write (on_taxes (tbl_delete tax_id (tax_id tax))) ;;;
  commit ;;;
  recalculate_booking_totals now booking_id ;;;
  ret tt.

Definition add_discount (now : Z) (booking_id : Z) (name : string)
  (amount percentage : option num) : M InvoiceDiscount :=
  if negb (is_set amount) && negb (is_set percentage)
  then raise BadRequestError
  else
    booking <- get_booking booking_id ;;
    booking <-
      (if float_falsy (subtotal booking)
       then recalculate_booking_totals now booking_id
       else ret booking) ;;
    match subtotal booking with
    | None => raise PyTypeError
    | Some booking_subtotal =>
        let discount_amount :=
          match percentage with
          | Some p => percent_of booking_subtotal p
          | None => float_or amount (of_Z 0)
          end in
        new_id <- read (fun d => tbl_next_id disc_id (discounts d)) ;;
        let discount :=
          {| disc_id := new_id;
             disc_booking_id := booking_id;
             disc_name := name;
             disc_amount := discount_amount;
             percentage := percentage;
             disc_created_at := now;
             disc_updated_at := None |} in
        write (on_discounts (fun t => t ++ [discount])) ;;;
        commit ;;;
        recalculate_booking_totals now booking_id ;;;
        row <- read (fun d => tbl_get disc_id new_id (discounts d)) ;;
        ret (match row with Some r => r | None => discount end)
    end.

Definition get_discount (id : Z) : M InvoiceDiscount :=
  discount <- read (fun d => tbl_get disc_id id (discounts d)) ;;
  match discount with
  | Some x => ret x
  | None => raise NotFoundError
  end.

Definition remove_discount (now : Z) (booking_id id : Z) : M Booking :=
  discount <- get_discount id ;;
  write (on_discounts (tbl_delete disc_id (disc_id discount))) ;;;
  commit ;;;
  recalculate_booking_totals now booking_id ;;;
  get_booking booking_id.

Definition delete_discount (now : Z) (id : Z) : M unit :=
  discount <- get_discount id ;;
  let booking_id := disc_booking_id discount in
  write (on_discounts (tbl_delete disc_id (disc_id discount))) ;;;
  commit ;;;
  recalculate_booking_totals now booking_id ;;;
  ret tt.

(** ** The queries and the seeding of RoomService *)

(** The [where] clauses [get_rooms] and [count_rooms] add: a room type
    that is given and not empty, an occupancy flag that is given.  The
    queries have no [ORDER BY]: the order of a page is the database's,
    and nothing stated of a page below depends on it. *)
Definition room_matches (type_filter : option string)
  (occupied_filter : option bool) (r : Room) : bool :=
  match type_filter with
  | Some t => if str_truthy t then String.eqb (room_type r) t else true
  | None => true
  end
  &&
  match occupied_filter with
  | Some o => Bool.eqb (occupied r) o
  | None => true
  end.

Definition get_rooms (skip limit : nat) (type_filter : option string)
  (occupied_filter : option bool) : M (list Room) :=
  read (fun d =>
    paginate skip limit
      (filter (room_matches type_filter occupied_filter) (rooms d))).

Definition count_rooms (type_filter : option string)
  (occupied_filter : option bool) : M nat :=
  read (fun d =>
    List.length (filter (room_matches type_filter occupied_filter) (rooms d))).

(** Both call [get_rooms] with its defaults, [skip=0] and [limit=100]. *)
Definition get_available_rooms (type_filter : option string) : M (list Room) :=
  get_rooms 0 100 type_filter (Some false).

Definition get_occupied_rooms (type_filter : option string) : M (list Room) :=
  get_rooms 0 100 type_filter (Some true).

(** The table [room_types] of [seed_rooms], in the order of the dict. *)
Definition room_types : list (string * (nat * Z)) :=
  [("Standard", (10%nat, 1000)); ("Premium", (7%nat, 1500));
   ("Suite", (3%nat, 2500))].

(** The inner loop of [seed_rooms]: [count] rooms of one type, threading
    [created_count] and [room_number]. *)
Fixpoint seed_type (now : Z) (type : string) (rate : Z) (count : nat)
  (st : nat * Z) : M (nat * Z) :=
  match count with
  | O => ret st
  | S count' =>
      let (created_count, room_number) := st in
      let room :=
        {| number := room_number;
           room_type := type;
           occupied := false;
           current_guest_id := None;
           rate_per_night := of_Z rate;
           notes := None;
           r_created_at := now;
           r_updated_at := None |} in
      write (on_rooms (fun t => t ++ [room])) ;;;
      seed_type now type rate count' (S created_count, room_number + 1)
  end.

(** The outer loop over the room types. *)
Fixpoint seed_types (now : Z) (types : list (string * (nat * Z)))
  (st : nat * Z) : M (nat * Z) :=
  match types with
  | [] => ret st
  | (type, (count, rate)) :: rest =>
      st <- seed_type now type rate count st ;;
      seed_types now rest st
  end.

(** [seed_rooms] returns [{"seeded": ..., "existing_count" or
    "created_count": ...}]: the flag and the count. *)
Definition seed_rooms (now : Z) : M (bool * nat) :=
  existing_count <- count_rooms None None ;;
  if (0 <? existing_count)%nat then ret (false, existing_count)
  else
    st <- seed_types now room_types (0%nat, 101) ;;
    commit ;;;
    ret (true, fst st).

(** ** The queries and the check-in of BookingService *)

(** [bool(n)] on an [Optional[int]]. *)
Definition int_truthy (n : option Z) : bool :=
  match n with
  | Some v => negb (v =? 0)
  | None => false
  end.

(** The [where] clauses of [get_bookings]. *)
Definition booking_matches (guest room : option Z) (status : option string)
  (from_date to_date : option Z) (b : Booking) : bool :=
  match guest with
  | Some g => if int_truthy guest then guest_id b =? g else true
  | None => true
  end
  &&
  match room with
  | Some r => if int_truthy room then room_number b =? r else true
  | None => true
  end
  &&
  match status with
  | Some st =>
      if String.eqb st "active" then negb (is_set (checkout_at b))
      else if String.eqb st "completed" then is_set (checkout_at b)
      else true
  | None => true
  end
  &&
  match from_date with
  | Some t => t <=? checkin_at b
  | None => true
  end
  &&
  match to_date with
  | Some t => checkin_at b <=? t
  | None => true
  end.

(** The list of one page and the count before pagination. *)
Definition get_bookings (skip limit : nat) (guest room : option Z)
  (status : option string) (from_date to_date : option Z)
  : M (list Booking * nat) :=
  read (fun d =>
    let found :=
      filter (booking_matches guest room status from_date to_date)
        (bookings d) in
    (paginate skip limit found, List.length found)).

Definition count_bookings (guest room : option Z) (active_only : bool)
  : M nat :=
  read (fun d =>
    List.length
      (filter
         (fun b =>
            booking_matches guest room None None None b
            && (if active_only then negb (is_set (checkout_at b)) else true))
         (bookings d))).

Definition booking_set_checkin (b : Booking) (t : Z) : Booking :=
  {| bk_id := bk_id b; guest_id := guest_id b; room_number := room_number b;
     checkin_at := t; checkout_at := checkout_at b; price := price b;
     invoice_path := invoice_path b; subtotal := subtotal b;
     tax_total := tax_total b; discount_total := discount_total b;
     grand_total := grand_total b; bk_created_at := bk_created_at b;
     bk_updated_at := Some t |}.

(** [bool(t)] on a [datetime]: a [datetime] has no falsy value.  The
    column [checkin_at] is not nullable, so the test of [checkin_booking]
    reads a [datetime]. *)
Definition datetime_truthy (t : Z) : bool := true.

Definition checkin_booking (now : Z) (booking_id : Z) : M Booking :=
  booking <- get_booking booking_id ;;
  if datetime_truthy (checkin_at booking) then raise ConflictError
  else
    let checkin_time := now in
    let booking := booking_set_checkin booking checkin_time in
    save_booking booking ;;;
    room <- get_room (room_number booking) ;;
    occupy_room now (number room) (guest_id booking) ;;;
    commit ;;;
    ret booking.

(** ** What a recalculation computes *)

(** The tax row as the loop leaves it. *)
Definition retax (subtotal : num) (tax : InvoiceTax) : InvoiceTax :=
  tax_set_amount tax (percent_of subtotal (rate tax)).

(** [acc + a1 + a2 + ...], the running total of a loop. *)
Definition running_total (amounts : list num) (acc : num) : num :=
  fold_left fadd amounts acc.

Definition sum_tax_amounts (taxes : list InvoiceTax) : num :=
  running_total (map tax_amount taxes) (of_Z 0).

Definition sum_discount_amounts (discounts : list InvoiceDiscount) : num :=
  running_total (map disc_amount discounts) (of_Z 0).

(** The tables after the two loops have flushed their rows. *)
Definition flush_taxes (rows : list InvoiceTax) (t : list InvoiceTax)
  : list InvoiceTax :=
  fold_left (fun t r => tbl_put tax_id r t) rows t.

Definition flush_discounts (rows : list InvoiceDiscount)
  (t : list InvoiceDiscount) : list InvoiceDiscount :=
  fold_left (fun t r => tbl_put disc_id r t) rows t.

(** The booking row and the database a recalculation of booking [b]
    leaves, given the database [d] it starts from. *)
Definition recalculated_booking (now : Z) (b : Booking) (d : DB) : Booking :=
  let s := sum_amounts (select_line_items (bk_id b) d) in
  let t := sum_tax_amounts (map (retax s) (select_taxes (bk_id b) d)) in
  let x :=
    sum_discount_amounts
      (map (rebase_discount s) (select_discounts (bk_id b) d)) in
  booking_set_updated_at
    (booking_set_totals b (Some s) (Some t) (Some x)
       (Some (fsub (fadd s t) x))) now.

Definition recalculated_db (now : Z) (b : Booking) (d : DB) : DB :=
  let s := sum_amounts (select_line_items (bk_id b) d) in
  on_bookings (tbl_put bk_id (recalculated_booking now b d))
    (on_discounts
       (flush_discounts
          (map (rebase_discount s) (select_discounts (bk_id b) d)))
       (on_taxes
          (flush_taxes (map (retax s) (select_taxes (bk_id b) d))) d)).

(** The rooms table after [delete_booking] has tried to vacate the room
    of booking [b]: the room is vacated when the booking is active and
    its room is stored and occupied, and the failure of [vacate_room] in
    the other cases is swallowed. *)
Definition rooms_after_release (now : Z) (b : Booking) (d : DB) : list Room :=
  match checkout_at b with
  | Some _ => rooms d
  | None =>
      match tbl_get number (room_number b) (rooms d) with
      | Some r =>
          if occupied r
          then tbl_put number (room_set_occupancy r false None now) (rooms d)
          else rooms d
      | None => rooms d
      end
  end.

(** ** Invariants *)

(** A vacant room has no current guest. *)
Definition room_ok (r : Room) : Prop :=
  occupied r = false -> current_guest_id r = None.

Definition rooms_ok (d : DB) : Prop := Forall room_ok (rooms d).

(** What the invoice methods have no business with: the rooms, the
    guests, and which bookings there are. *)
Definition same_hotel (d0 d : DB) : Prop :=
  rooms d = rooms d0 /\ guests d = guests d0 /\
  map bk_id (bookings d) = map bk_id (bookings d0).

(** A property of the database that holds of what the session sees and
    of what is committed, before and after a method. *)
Definition maintains {A} (P : DB -> Prop) (m : M A) : Prop :=
  forall s,
    P (pending s) -> P (committed s) ->
    P (pending (snd (m s))) /\ P (committed (snd (m s))).

End Engine.

(** ** Sample data, in exact arithmetic *)

Module Sample.

Definition day : Z := microseconds_per_day.

(** 2023-11-14 22:13:20 UTC. *)
Definition t0 : Z := 1700000000000000.

Definition asha : Guest :=
  {| g_id := 1; g_name := "Asha"; phone := None; email := None;
     id_type := None; id_number := None; is_premium := false;
     first_seen := 0; last_seen := None; g_notes := None;
     digilocker_token := None; digilocker_refresh_token := None;
     digilocker_token_expiry := None; g_created_at := 0;
     g_updated_at := None |}.

Definition room101 : Room (num := Q) :=
  {| number := 101; room_type := "Standard"; occupied := false;
     current_guest_id := None; rate_per_night := 1000%Q; notes := None;
     r_created_at := 0; r_updated_at := None |}.

Definition room102 : Room (num := Q) :=
  {| number := 102; room_type := "Premium"; occupied := false;
     current_guest_id := None; rate_per_night := 1500%Q; notes := None;
     r_created_at := 0; r_updated_at := None |}.

(** One guest, two vacant rooms, nothing booked. *)
Definition db0 : DB (num := Q) :=
  {| guests := [asha]; rooms := [room101; room102]; bookings := [];
     line_items := []; taxes := []; discounts := [] |}.

Definition book (room : Z) (p : option Q) : BookingCreate (num := Q) :=
  {| bc_guest_id := 1; bc_room_number := room; bc_price := p |}.

(** The stored database after a request. *)
Definition after {A} (m : M (num := Q) A) (d : DB) : DB := snd (request m d).

(** Room 101 booked at [t0] at the room's rate. *)
Definition db1 : DB (num := Q) := after (create_booking t0 (book 101 None)) db0.

(** The booking and the room as [db1] stores them. *)
Definition booking1 : Booking (num := Q) :=
  {| bk_id := 1; guest_id := 1; room_number := 101; checkin_at := t0;
     checkout_at := None; price := Some 1000%Q; invoice_path := None;
     subtotal := Some 1000%Q; tax_total := None; discount_total := None;
     grand_total := Some 1000%Q; bk_created_at := t0;
     bk_updated_at := None |}.

Definition room101_taken : Room (num := Q) :=
  room_set_occupancy room101 true (Some 1) t0.

Definition charge1 : InvoiceLineItem (num := Q) :=
  {| li_id := 1; li_booking_id := 1; description := "Standard Room - 101";
     quantity := 1%Q; unit_price := 1000%Q; li_amount := 1000%Q;
     item_type := "room"; li_created_at := t0; li_updated_at := None |}.

(** Room 102 booked as well: two active bookings, one line item each. *)
Definition db2 : DB (num := Q) := after (create_booking t0 (book 102 None)) db1.

(** Scenario A: a tax of 18 percent, then a discount of 10 percent. *)
Definition db_gst : DB (num := Q) := after (add_tax t0 1 "GST" 18%Q) db1.

Definition db_loyal : DB (num := Q) :=
  after (add_discount t0 1 "Loyalty" None (Some 10%Q)) db_gst.

(** A spa charge of 500 on the first booking of [db2]. *)
Definition spa : InvoiceLineItemCreate (num := Q) :=
  {| ic_description := "Spa"; ic_quantity := 1%Q; ic_unit_price := 500%Q;
     ic_item_type := "service" |}.

Definition db2_spa : DB (num := Q) := after (add_invoice_item t0 1 spa) db2.

(** An update of a room that sends [occupied = false] and nothing else. *)
Definition mark_vacant : RoomUpdate (num := Q) :=
  {| ru_room_type := None; ru_occupied := Some false;
     ru_current_guest_id := None; ru_rate_per_night := None |}.

(** An update that clears both occupancy fields. *)
Definition free_room : RoomUpdate (num := Q) :=
  {| ru_room_type := None; ru_occupied := Some false;
     ru_current_guest_id := Some None; ru_rate_per_night := None |}.

(** An update that renames nothing and sets a new rate. *)
Definition new_rate : RoomUpdate (num := Q) :=
  {| ru_room_type := None; ru_occupied := None;
     ru_current_guest_id := None; ru_rate_per_night := Some 1200%Q |}.

(** Room 101 freed by an administrator while its booking is active. *)
Definition db1_freed : DB (num := Q) := after (update_room t0 101 free_room) db1.

Definition stamp (t : Z) : BookingUpdate (num := Q) :=
  {| bu_checkout_at := Some (Some t); bu_price := None |}.

(** The first booking with a fixed discount larger than its charges. *)
Definition db1_discounted : DB (num := Q) :=
  after (add_discount t0 1 "Loyalty" (Some 5000%Q) None) db1.

(** The sample databases as stored values. *)
Definition hotel : DB (num := Q) := Eval vm_compute in db0.

Definition hotel_booked : DB (num := Q) := Eval vm_compute in db1.

Definition hotel_two_bookings : DB (num := Q) := Eval vm_compute in db2_spa.

Definition hotel_taxed : DB (num := Q) := Eval vm_compute in db_loyal.

(** [hotel_taxed] as [add_invoice_item] commits it before it
    recalculates: a spa charge of 500 is stored and the totals of the
    booking do not count it yet. *)
Definition spa_row : InvoiceLineItem (num := Q) :=
  {| li_id := 2; li_booking_id := 1; description := "Spa";
     quantity := 1%Q; unit_price := 500%Q; li_amount := 500%Q;
     item_type := "service"; li_created_at := t0; li_updated_at := None |}.

Definition hotel_stale : DB (num := Q) :=
  Eval vm_compute in on_line_items (fun t => t ++ [spa_row]) db_loyal.

(** Room 101 after its guest has checked out: vacant, with the booking
    still naming it. *)
Definition hotel_checked_out : DB (num := Q) :=
  Eval vm_compute in after (checkout_booking (t0 + 2 * day) 1) db1.

Definition room103 : RoomCreate (num := Q) :=
  {| rc_number := 103; rc_room_type := "Suite"; rc_rate_per_night := 2500%Q |}.

End Sample.

(** ** Sample data, in binary64 *)

Module Binary64.

Definition room101 : Room (num := PrimFloat.float) :=
  {| number := 101; room_type := "Standard"; occupied := false;
     current_guest_id := None; rate_per_night := of_Z 1000; notes := None;
     r_created_at := 0; r_updated_at := None |}.

Definition db0 : DB (num := PrimFloat.float) :=
  {| guests := [Sample.asha]; rooms := [room101]; bookings := [];
     line_items := []; taxes := []; discounts := [] |}.

Definition book101 : BookingCreate (num := PrimFloat.float) :=
  {| bc_guest_id := 1; bc_room_number := 101; bc_price := None |}.

Definition db1 : DB (num := PrimFloat.float) :=
  snd (request (create_booking Sample.t0 book101) db0).

Definition db_gst : DB (num := PrimFloat.float) :=
  snd (request (add_tax Sample.t0 1 "GST" (of_Z 18)) db1).

Definition db_loyal : DB (num := PrimFloat.float) :=
  snd (request (add_discount Sample.t0 1 "Loyalty" None (Some (of_Z 10)))
         db_gst).

(** [db_loyal] as a stored value. *)
Definition hotel_taxed : DB (num := PrimFloat.float) :=
  Eval vm_compute in db_loyal.

(** A fixed discount of 5000 on the charges of 1000. *)
Definition db_discounted : DB (num := PrimFloat.float) :=
  snd (request (add_discount Sample.t0 1 "Loyalty" (Some (of_Z 5000)) None)
         db1).

End Binary64.

(** ** The signs of the totals *)

(** In exact arithmetic: a total that is set is at least 0. *)
Definition nonnegative (x : option Q) : Prop :=
  match x with
  | Some v => (0 <= v)%Q
  | None => True
  end.

(** The four totals of a booking are not negative. *)
Definition totals_nonnegative (b : Booking (num := Q)) : Prop :=
  nonnegative (subtotal b) /\ nonnegative (tax_total b) /\
  nonnegative (discount_total b) /\ nonnegative (grand_total b).

(** No charge of the booking is negative: the amounts of its line
    items, the rates of its taxes, the percentages of its discounts and
    the amounts of its fixed discounts. *)
Definition charges_not_negative {num} `{Number num} `{Signed num}
  (id : Z) (d : DB) : Prop :=
  (forall i : InvoiceLineItem,
     In i (line_items d) -> li_booking_id i = id ->
     negative (li_amount i) = false) /\
  (forall t : InvoiceTax,
     In t (taxes d) -> tax_booking_id t = id -> negative (rate t) = false) /\
  (forall x : InvoiceDiscount,
     In x (discounts d) -> disc_booking_id x = id ->
     match percentage x with
     | Some p => negative p = false
     | None => negative (disc_amount x) = false
     end).

(** The price the claim on [create_booking] words: the requested price
    whenever one was sent. *)
Definition price_if_supplied {num} (p : option num) (rate : num) : num :=
  match p with
  | Some v => v
  | None => rate
  end.

(** * Facts *)

Unset Implicit Arguments.

(** ** Tables *)

Section TableFacts.

Variable Row : Type.
Variable key : Row -> Z.

Lemma tbl_get_key (k : Z) (t : list Row) (r : Row) :
  tbl_get key k t = Some r -> key r = k.
Proof.
  unfold tbl_get. intros Hf. apply find_some in Hf.
  destruct Hf as [_ Hk]. now apply Z.eqb_eq in Hk.
Qed.

Lemma tbl_get_In (k : Z) (t : list Row) (r : Row) :
  tbl_get key k t = Some r -> In r t.
Proof. unfold tbl_get. intros Hf. now apply find_some in Hf. Qed.

Lemma tbl_put_keys (r : Row) (t : list Row) :
  map key (tbl_put key r t) = map key t.
Proof.
  unfold tbl_put. rewrite map_map. apply map_ext. intros r0.
  destruct (Z.eqb_spec (key r0) (key r)); congruence.
Qed.

(** A row written under a key that is present is the row read back. *)
Lemma tbl_get_put (k : Z) (r r0 : Row) (t : list Row) :
  tbl_get key k t = Some r0 -> key r = k ->
  tbl_get key k (tbl_put key r t) = Some r.
Proof.
  unfold tbl_get, tbl_put. intros Hf Hk. subst k.
  induction t as [|a t IH]; cbn in *; [discriminate|].
  destruct (Z.eqb_spec (key a) (key r)) as [E|E].
  - rewrite Z.eqb_refl. reflexivity.
  - destruct (Z.eqb_spec (key a) (key r)); [contradiction|]. now apply IH.
Qed.

(** Writing under another key does not change what a key reads. *)
Lemma tbl_get_put_other (k : Z) (r : Row) (t : list Row) :
  key r <> k -> tbl_get key k (tbl_put key r t) = tbl_get key k t.
Proof.
  unfold tbl_get, tbl_put. intros Hk.
  induction t as [|a t IH]; cbn; [reflexivity|].
  destruct (Z.eqb_spec (key a) (key r)) as [E|E].
  - destruct (Z.eqb_spec (key r) k); [contradiction|].
    destruct (Z.eqb_spec (key a) k); [congruence|]. exact IH.
  - destruct (Z.eqb_spec (key a) k); [reflexivity|]. exact IH.
Qed.

Lemma tbl_get_delete (k : Z) (t : list Row) :
  tbl_get key k (tbl_delete key k t) = None.
Proof.
  unfold tbl_get, tbl_delete.
  induction t as [|a t IH]; cbn; [reflexivity|].
  destruct (Z.eqb_spec (key a) k) as [E|E]; cbn; [exact IH|].
  destruct (Z.eqb_spec (key a) k); [contradiction|]. exact IH.
Qed.

Lemma tbl_get_delete_other (k k' : Z) (t : list Row) :
  k' <> k -> tbl_get key k (tbl_delete key k' t) = tbl_get key k t.
Proof.
  unfold tbl_get, tbl_delete. intros Hk.
  induction t as [|a t IH]; cbn; [reflexivity|].
  destruct (Z.eqb_spec (key a) k') as [E|E]; cbn.
  - destruct (Z.eqb_spec (key a) k); [congruence|]. exact IH.
  - destruct (Z.eqb_spec (key a) k); [reflexivity|]. exact IH.
Qed.

Lemma fold_max_le (l : list Z) (a : Z) : a <= fold_left Z.max l a.
Proof.
  revert a. induction l as [|x l IH]; intros a; cbn; [lia|].
  specialize (IH (Z.max a x)). lia.
Qed.

Lemma fold_max_In (l : list Z) (a x : Z) : In x l -> x <= fold_left Z.max l a.
Proof.
  revert a. induction l as [|y l IH]; intros a; cbn; [tauto|].
  intros [->|Hx]; [|now apply IH].
  pose proof (fold_max_le l (Z.max a x)). lia.
Qed.

(** The key of an insert is not in use. *)
Lemma tbl_next_id_fresh (t : list Row) (r : Row) :
  In r t -> key r < tbl_next_id key t.
Proof.
  intros Hr. unfold tbl_next_id.
  pose proof (fold_max_In (map key t) 0 (key r) (in_map key t r Hr)). lia.
Qed.

Lemma tbl_get_fresh (t : list Row) :
  tbl_get key (tbl_next_id key t) t = None.
Proof.
  unfold tbl_get. destruct (find _ t) as [r|] eqn:Hf; [|reflexivity].
  apply find_some in Hf. destruct Hf as [Hin Hk].
  apply Z.eqb_eq in Hk. pose proof (tbl_next_id_fresh t r Hin). lia.
Qed.

Lemma tbl_get_app (k : Z) (t u : list Row) :
  tbl_get key k (t ++ u) =
  match tbl_get key k t with Some r => Some r | None => tbl_get key k u end.
Proof.
  unfold tbl_get. induction t as [|a t IH]; cbn; [reflexivity|].
  destruct (key a =? k); [reflexivity|exact IH].
Qed.

(** An inserted row is read back under its key. *)
Lemma tbl_get_insert (t : list Row) (r : Row) :
  key r = tbl_next_id key t ->
  tbl_get key (key r) (t ++ [r]) = Some r.
Proof.
  intros Hk. rewrite tbl_get_app.
  assert (Hf : tbl_get key (key r) t = None)
    by (rewrite Hk; apply tbl_get_fresh).
  rewrite Hf. unfold tbl_get. simpl find. rewrite Z.eqb_refl. reflexivity.
Qed.

Lemma tbl_get_app_old (k : Z) (t : list Row) (r r0 : Row) :
  tbl_get key k t = Some r0 -> tbl_get key k (t ++ [r]) = Some r0.
Proof. intros Hf. rewrite tbl_get_app, Hf. reflexivity. Qed.

(** Rewriting the row that was just inserted touches no other row. *)
Lemma tbl_put_insert (t : list Row) (r r' : Row) :
  key r = tbl_next_id key t -> key r' = key r ->
  tbl_put key r' (t ++ [r]) = t ++ [r'].
Proof.
  intros Hk Hk'. unfold tbl_put. rewrite map_app. f_equal.
  - rewrite <- (map_id t) at 2. apply map_ext_in. intros a Ha.
    pose proof (tbl_next_id_fresh t a Ha).
    destruct (Z.eqb_spec (key a) (key r')); [lia|reflexivity].
  - cbn. rewrite Hk', Z.eqb_refl. reflexivity.
Qed.

Lemma filter_swap (f g : Row -> bool) (t : list Row) :
  filter f (filter g t) = filter g (filter f t).
Proof.
  induction t as [|a t IH]; cbn; [reflexivity|].
  destruct (f a) eqn:Ef, (g a) eqn:Eg; cbn; rewrite ?Ef, ?Eg, IH; reflexivity.
Qed.

Lemma unique_keys_delete (k : Z) (t : list Row) :
  unique_keys key t -> unique_keys key (tbl_delete key k t).
Proof.
  unfold unique_keys, tbl_delete.
  induction t as [|x t IH]; cbn; [trivial|].
  intros Hnd. inversion Hnd as [|? ? Hx Hnd']; subst.
  destruct (negb (key x =? k)); cbn; [|now apply IH].
  constructor; [|now apply IH].
  intros Hin. apply Hx. apply in_map_iff in Hin.
  destruct Hin as [y [Hy Hin]]. apply filter_In in Hin.
  rewrite <- Hy. apply in_map. tauto.
Qed.

Lemma tbl_get_None (k : Z) (t : list Row) :
  tbl_get key k t = None <-> ~ In k (map key t).
Proof.
  unfold tbl_get. induction t as [|a t IH]; cbn; [tauto|].
  destruct (Z.eqb_spec (key a) k) as [E|E].
  - split; [discriminate|]. intros Hn. exfalso. apply Hn. now left.
  - rewrite IH. tauto.
Qed.

(** A key that is absent stays absent in a table with the same keys. *)
Lemma tbl_get_keys (k : Z) (t t' : list Row) :
  map key t' = map key t ->
  tbl_get key k t = None -> tbl_get key k t' = None.
Proof. intros Hk Hn. apply tbl_get_None. rewrite Hk. now apply tbl_get_None. Qed.

Lemma flush_keys (rows : list Row) :
  forall t : list Row,
    map key (fold_left (fun t r => tbl_put key r t) rows t) = map key t.
Proof.
  induction rows as [|r rows IH]; intros t; cbn; [reflexivity|].
  now rewrite IH, tbl_put_keys.
Qed.

Lemma tbl_get_of_In (t : list Row) (r : Row) :
  In r t -> exists r0, tbl_get key (key r) t = Some r0.
Proof.
  intros Hr. destruct (tbl_get key (key r) t) as [r0|] eqn:E.
  - now exists r0.
  - apply tbl_get_None in E. exfalso. apply E. now apply in_map.
Qed.

(** Under a primary key two rows of a table with one key are one row. *)
Lemma unique_keys_inj (t : list Row) (a r : Row) :
  unique_keys key t -> In a t -> In r t -> key r = key a -> r = a.
Proof.
  unfold unique_keys. induction t as [|x t IH]; cbn; [tauto|].
  intros Hnd Ha Hr Hk. inversion Hnd as [|? ? Hx Hnd']; subst.
  destruct Ha as [->|Ha], Hr as [->|Hr]; try reflexivity.
  - exfalso. apply Hx. rewrite <- Hk. now apply in_map.
  - exfalso. apply Hx. rewrite Hk. now apply in_map.
  - now apply IH.
Qed.

Lemma unique_keys_filter (sel : Row -> bool) (t : list Row) :
  unique_keys key t -> unique_keys key (filter sel t).
Proof.
  unfold unique_keys. induction t as [|x t IH]; cbn; [trivial|].
  intros Hnd. inversion Hnd as [|? ? Hx Hnd']; subst.
  destruct (sel x); cbn; [|now apply IH].
  constructor; [|now apply IH].
  intros Hin. apply Hx. apply in_map_iff in Hin.
  destruct Hin as [y [Hy Hin]]. apply filter_In in Hin.
  rewrite <- Hy. apply in_map. tauto.
Qed.

Lemma hit_false (l : list Row) (r : Row) :
  ~ In (key r) (map key l) -> hit key l r = false.
Proof.
  intros Hn. unfold hit. destruct (existsb _ l) eqn:E; [|reflexivity].
  apply existsb_exists in E. destruct E as [a [Ha Hk]].
  apply Z.eqb_eq in Hk. exfalso. apply Hn. rewrite <- Hk. now apply in_map.
Qed.

Section Flush.

Variable f : Row -> Row.
Hypothesis f_key : forall r, key (f r) = key r.

(** Flushing the rewritten copies of some rows of a table rewrites
    exactly those rows. *)
Lemma flush_rows (l : list Row) :
  forall t : list Row,
    unique_keys key t -> unique_keys key l -> incl l t ->
    fold_left (fun t r => tbl_put key r t) (map f l) t =
    map (fun r => if hit key l r then f r else r) t.
Proof.
  induction l as [|a l IH]; intros t Ht Hl Hincl.
  - cbn. symmetry. apply map_id.
  - cbn [map fold_left].
    assert (Ha : In a t) by (apply Hincl; now left).
    inversion Hl as [|? ? Hal Hl']; subst.
    assert (E1 : tbl_put key (f a) t =
                 map (fun r => if key r =? key a then f r else r) t).
    { unfold tbl_put. apply map_ext_in. intros r Hr. rewrite f_key.
      destruct (Z.eqb_spec (key r) (key a)) as [E|E]; [|reflexivity].
      now rewrite (unique_keys_inj t a r Ht Ha Hr E). }
    rewrite IH.
    + rewrite E1, map_map. apply map_ext_in. intros r Hr.
      unfold hit at 2. cbn [existsb]. fold (hit key l r).
      rewrite (Z.eqb_sym (key a) (key r)).
      destruct (Z.eqb_spec (key r) (key a)) as [E|E]; cbn [orb].
      * rewrite hit_false; [reflexivity|]. now rewrite f_key, E.
      * reflexivity.
    + unfold unique_keys. now rewrite tbl_put_keys.
    + exact Hl'.
    + intros x Hx. rewrite E1. apply in_map_iff. exists x. split.
      * destruct (Z.eqb_spec (key x) (key a)) as [E|E]; [|reflexivity].
        exfalso. apply Hal. rewrite <- E. now apply in_map.
      * apply Hincl. now right.
Qed.

Lemma hit_filter (sel : Row -> bool) (t : list Row) (r : Row) :
  unique_keys key t -> In r t -> hit key (filter sel t) r = sel r.
Proof.
  intros Ht Hr. unfold hit. destruct (sel r) eqn:Es.
  - apply existsb_exists. exists r. split.
    + apply filter_In. tauto.
    + apply Z.eqb_refl.
  - destruct (existsb _ _) eqn:E; [|reflexivity].
    apply existsb_exists in E. destruct E as [a [Ha Hk]].
    apply filter_In in Ha. destruct Ha as [Ha Hs]. apply Z.eqb_eq in Hk.
    rewrite (unique_keys_inj t r a Ht Hr Ha Hk) in Hs. congruence.
Qed.

(** The loop of a recalculation over the selected rows of a table. *)
Lemma flush_selected (sel : Row -> bool) (t : list Row) :
  unique_keys key t ->
  fold_left (fun t r => tbl_put key r t) (map f (filter sel t)) t =
  map (fun r => if sel r then f r else r) t.
Proof.
  intros Ht. rewrite flush_rows.
  - apply map_ext_in. intros r Hr. now rewrite hit_filter.
  - exact Ht.
  - now apply unique_keys_filter.
  - intros x Hx. apply filter_In in Hx. tauto.
Qed.

Lemma filter_rewritten (sel sel' : Row -> bool) (t : list Row) :
  (forall r, sel' (f r) = sel' r) ->
  filter sel' (map (fun r => if sel r then f r else r) t) =
  map (fun r => if sel r then f r else r) (filter sel' t).
Proof.
  intros Hs. induction t as [|a t IH]; cbn; [reflexivity|].
  assert (E : sel' (if sel a then f a else a) = sel' a)
    by (destruct (sel a); [apply Hs|reflexivity]).
  rewrite E. destruct (sel' a); cbn; now rewrite IH.
Qed.

End Flush.

Lemma map_selected (f : Row -> Row) (sel : Row -> bool) (t : list Row) :
  map (fun r => if sel r then f r else r) (filter sel t) =
  map f (filter sel t).
Proof.
  apply map_ext_in. intros r Hr. apply filter_In in Hr.
  destruct Hr as [_ Hs]. now rewrite Hs.
Qed.

Lemma map_unselected (f : Row -> Row) (sel sel' : Row -> bool)
  (t : list Row) :
  (forall r, sel' r = true -> sel r = false) ->
  map (fun r => if sel r then f r else r) (filter sel' t) = filter sel' t.
Proof.
  intros Hd. rewrite <- (map_id (filter sel' t)) at 2.
  apply map_ext_in. intros r Hr. apply filter_In in Hr.
  destruct Hr as [_ Hs]. now rewrite (Hd r Hs).
Qed.

End TableFacts.

(** ** Running the engine *)

Section EngineFacts.

Context {num : Type} `{Number num}.

Local Abbreviation Booking := (Booking (num := num)).
Local Abbreviation DB := (DB (num := num)).
Local Abbreviation Session := (Session (num := num)).
Local Abbreviation M := (M (num := num)).
Local Abbreviation Room := (Room (num := num)).
Local Abbreviation InvoiceLineItem := (InvoiceLineItem (num := num)).
Local Abbreviation InvoiceTax := (InvoiceTax (num := num)).
Local Abbreviation InvoiceDiscount := (InvoiceDiscount (num := num)).
Local Abbreviation BookingCreate := (BookingCreate (num := num)).
Local Abbreviation BookingUpdate := (BookingUpdate (num := num)).
Local Abbreviation RoomCreate := (RoomCreate (num := num)).
Local Abbreviation RoomUpdate := (RoomUpdate (num := num)).
Local Abbreviation maintains := (maintains (num := num)).

Ltac run :=
  cbn [bind ret raise read write commit try_except pending committed fst snd
       save_booking save_room save_guest save_line_item save_tax
       save_discount get_line_items get_taxes get_discounts].

Lemma bind_ok {A B} (m : M A) (k : A -> M B) (s s' : Session) (a : A) :
  m s = (inr a, s') -> bind m k s = k a s'.
Proof. intros Hm. unfold bind. rewrite Hm. reflexivity. Qed.

Lemma bind_err {A B} (m : M A) (k : A -> M B) (s s' : Session) (e : error) :
  m s = (inl e, s') -> bind m k s = (inl e, s').
Proof. intros Hm. unfold bind. rewrite Hm. reflexivity. Qed.

(** One step of a run: the first method of a sequence returns. *)
Ltac step L := erewrite bind_ok by (apply L; eassumption); run.

(** The first method of a sequence raises. *)
Ltac stop L := erewrite bind_err by (apply L; eassumption); run.

Lemma get_booking_run (id : Z) (b : Booking) (d c : DB) :
  tbl_get bk_id id (bookings d) = Some b ->
  get_booking id {| pending := d; committed := c |} =
  (inr b, {| pending := d; committed := c |}).
Proof. intros Hb. unfold get_booking. run. rewrite Hb. reflexivity. Qed.

Lemma get_booking_missing (id : Z) (d c : DB) :
  tbl_get bk_id id (bookings d) = None ->
  get_booking id {| pending := d; committed := c |} =
  (inl NotFoundError, {| pending := d; committed := c |}).
Proof. intros Hb. unfold get_booking. run. rewrite Hb. reflexivity. Qed.

Lemma get_guest_run (id : Z) (g : Guest) (d c : DB) :
  tbl_get g_id id (guests d) = Some g ->
  get_guest id {| pending := d; committed := c |} =
  (inr g, {| pending := d; committed := c |}).
Proof. intros Hg. unfold get_guest. run. rewrite Hg. reflexivity. Qed.

Lemma get_guest_missing (id : Z) (d c : DB) :
  tbl_get g_id id (guests d) = None ->
  get_guest id {| pending := d; committed := c |} =
  (inl NotFoundError, {| pending := d; committed := c |}).
Proof. intros Hg. unfold get_guest. run. rewrite Hg. reflexivity. Qed.

Lemma get_room_run (n : Z) (r : Room) (d c : DB) :
  tbl_get number n (rooms d) = Some r ->
  get_room n {| pending := d; committed := c |} =
  (inr r, {| pending := d; committed := c |}).
Proof. intros Hr. unfold get_room. run. rewrite Hr. reflexivity. Qed.

Lemma get_room_missing (n : Z) (d c : DB) :
  tbl_get number n (rooms d) = None ->
  get_room n {| pending := d; committed := c |} =
  (inl NotFoundError, {| pending := d; committed := c |}).
Proof. intros Hr. unfold get_room. run. rewrite Hr. reflexivity. Qed.

Lemma get_line_item_run (id : Z) (i : InvoiceLineItem) (d c : DB) :
  tbl_get li_id id (line_items d) = Some i ->
  get_line_item id {| pending := d; committed := c |} =
  (inr i, {| pending := d; committed := c |}).
Proof. intros Hi. unfold get_line_item. run. rewrite Hi. reflexivity. Qed.

Lemma get_tax_run (id : Z) (t : InvoiceTax) (d c : DB) :
  tbl_get tax_id id (taxes d) = Some t ->
  get_tax id {| pending := d; committed := c |} =
  (inr t, {| pending := d; committed := c |}).
Proof. intros Ht. unfold get_tax. run. rewrite Ht. reflexivity. Qed.

Lemma get_discount_run (id : Z) (x : InvoiceDiscount) (d c : DB) :
  tbl_get disc_id id (discounts d) = Some x ->
  get_discount id {| pending := d; committed := c |} =
  (inr x, {| pending := d; committed := c |}).
Proof. intros Hx. unfold get_discount. run. rewrite Hx. reflexivity. Qed.

Lemma recalculate_taxes_run (s : num) (l : list InvoiceTax) :
  forall (acc : num) (d c : DB),
    recalculate_taxes s l acc {| pending := d; committed := c |} =
    (inr (running_total (map tax_amount (map (retax s) l)) acc),
     {| pending := on_taxes (flush_taxes (map (retax s) l)) d;
        committed := c |}).
Proof.
  induction l as [|t l IH]; intros acc d c.
  - destruct d. reflexivity.
  - cbn [recalculate_taxes]. run. rewrite IH. reflexivity.
Qed.

Lemma recalculate_discounts_run (s : num) (l : list InvoiceDiscount) :
  forall (acc : num) (d c : DB),
    recalculate_discounts s l acc {| pending := d; committed := c |} =
    (inr (running_total (map disc_amount (map (rebase_discount s) l)) acc),
     {| pending := on_discounts (flush_discounts (map (rebase_discount s) l)) d;
        committed := c |}).
Proof.
  induction l as [|x l IH]; intros acc d c.
  - destruct d. reflexivity.
  - cbn [recalculate_discounts]. run. rewrite IH. reflexivity.
Qed.

(** A recalculation of a booking that exists returns, and what it
    returns and stores is [recalculated_booking] and [recalculated_db]. *)
Lemma recalculate_run (now id : Z) (b : Booking) (d c : DB) :
  tbl_get bk_id id (bookings d) = Some b ->
  recalculate_booking_totals now id {| pending := d; committed := c |} =
  (inr (recalculated_booking now b d),
   {| pending := recalculated_db now b d;
      committed := recalculated_db now b d |}).
Proof.
  intros Hb. pose proof (tbl_get_key _ _ _ _ _ Hb) as Hk.
  unfold recalculate_booking_totals.
  step get_booking_run. step recalculate_taxes_run.
  step recalculate_discounts_run.
  subst id. reflexivity.
Qed.

Lemma request_run {A} (m : M A) (d d' d'' : DB) (r : error + A) :
  m {| pending := d; committed := d |} =
    (r, {| pending := d''; committed := d' |}) ->
  request m d = (r, d').
Proof. intros Hm. unfold request. rewrite Hm. reflexivity. Qed.

Lemma retax_key (s : num) (t : InvoiceTax) : tax_id (retax s t) = tax_id t.
Proof. reflexivity. Qed.

Lemma rebase_discount_key (s : num) (x : InvoiceDiscount) :
  disc_id (rebase_discount s x) = disc_id x.
Proof. unfold rebase_discount. now destruct (percentage x). Qed.

Lemma rebase_discount_booking (s : num) (x : InvoiceDiscount) :
  disc_booking_id (rebase_discount s x) = disc_booking_id x.
Proof. unfold rebase_discount. now destruct (percentage x). Qed.

Lemma rebase_discount_percentage (s : num) (x : InvoiceDiscount) :
  percentage (rebase_discount s x) = percentage x.
Proof.
  unfold rebase_discount. destruct (percentage x) eqn:E; cbn; congruence.
Qed.

(** The tax rows of every booking after a recalculation of booking [b]. *)
Lemma recalculated_taxes (now id : Z) (b : Booking) (d : DB) :
  unique_keys tax_id (taxes d) ->
  select_taxes id (recalculated_db now b d) =
  if id =? bk_id b
  then map (retax (sum_amounts (select_line_items (bk_id b) d)))
         (select_taxes id d)
  else select_taxes id d.
Proof.
  intros Hu. unfold recalculated_db, select_taxes.
  cbn [taxes on_bookings on_discounts on_taxes]. unfold flush_taxes.
  rewrite flush_selected; [|apply retax_key|exact Hu].
  rewrite filter_rewritten by reflexivity.
  destruct (Z.eqb_spec id (bk_id b)) as [->|Hne].
  - apply map_selected.
  - apply map_unselected. intros r Hr.
    apply Z.eqb_eq in Hr. apply Z.eqb_neq. congruence.
Qed.

Lemma recalculated_discounts (now id : Z) (b : Booking) (d : DB) :
  unique_keys disc_id (discounts d) ->
  select_discounts id (recalculated_db now b d) =
  if id =? bk_id b
  then map (rebase_discount (sum_amounts (select_line_items (bk_id b) d)))
         (select_discounts id d)
  else select_discounts id d.
Proof.
  intros Hu. unfold recalculated_db, select_discounts.
  cbn [discounts on_bookings on_discounts on_taxes]. unfold flush_discounts.
  rewrite flush_selected; [|apply rebase_discount_key|exact Hu].
  rewrite filter_rewritten by (intros r; now rewrite rebase_discount_booking).
  destruct (Z.eqb_spec id (bk_id b)) as [->|Hne].
  - apply map_selected.
  - apply map_unselected. intros r Hr.
    apply Z.eqb_eq in Hr. apply Z.eqb_neq. congruence.
Qed.

(** A recalculation leaves the line items as they are. *)
Lemma recalculated_line_items (now : Z) (b : Booking) (d : DB) :
  line_items (recalculated_db now b d) = line_items d.
Proof. reflexivity. Qed.

Lemma recalculated_row (now : Z) (b : Booking) (d : DB) :
  tbl_get bk_id (bk_id b) (bookings d) = Some b ->
  tbl_get bk_id (bk_id b) (bookings (recalculated_db now b d)) =
  Some (recalculated_booking now b d).
Proof.
  intros Hb. unfold recalculated_db. cbn [bookings on_bookings].
  eapply tbl_get_put; [|reflexivity]. exact Hb.
Qed.

(** ** The totals of a booking *)

(** The whole tax table after a recalculation of booking [b]. *)
Lemma recalculated_taxes_table (now : Z) (b : Booking) (d : DB) :
  unique_keys tax_id (taxes d) ->
  taxes (recalculated_db now b d) =
  map (fun t => if tax_booking_id t =? bk_id b
                then retax (sum_amounts (select_line_items (bk_id b) d)) t
                else t)
    (taxes d).
Proof.
  intros Hu. unfold recalculated_db, select_taxes.
  cbn [taxes on_bookings on_discounts on_taxes]. unfold flush_taxes.
  now rewrite flush_selected; [|apply retax_key|].
Qed.

Lemma recalculated_discounts_table (now : Z) (b : Booking) (d : DB) :
  unique_keys disc_id (discounts d) ->
  discounts (recalculated_db now b d) =
  map (fun x => if disc_booking_id x =? bk_id b
                then rebase_discount
                       (sum_amounts (select_line_items (bk_id b) d)) x
                else x)
    (discounts d).
Proof.
  intros Hu. unfold recalculated_db, select_discounts.
  cbn [discounts on_bookings on_discounts on_taxes]. unfold flush_discounts.
  now rewrite flush_selected; [|apply rebase_discount_key|].
Qed.

(** [sum(item.amount for item in line_items)] adds the amounts from the
    left, starting at 0. *)
Lemma sum_amounts_fold (items : list InvoiceLineItem) :
  sum_amounts items = fold_left fadd (map li_amount items) (of_Z 0).
Proof.
  unfold sum_amounts. generalize (of_Z 0).
  induction items as [|i items IH]; intros acc; cbn; [reflexivity|].
  apply IH.
Qed.

(** C1. After a recalculation of a booking, the stored [subtotal] is the
    sum of [amount] over the line items that carry the booking's id, as
    the table holds them (the recalculation changes none), added from
    the left starting at 0, and the stored [grand_total] is exactly
    [subtotal + tax_total - discount_total] of the stored values. *)
Theorem recalculation_restores_totals (now id : Z) (d : DB) (b : Booking) :
  tbl_get bk_id id (bookings d) = Some b ->
  exists (b' : Booking) (d' : DB),
    request (recalculate_booking_totals now id) d = (inr b', d') /\
    tbl_get bk_id id (bookings d') = Some b' /\
    line_items d' = line_items d /\
    subtotal b' =
      Some (fold_left fadd
              (map li_amount
                 (filter (fun i => li_booking_id i =? id) (line_items d')))
              (of_Z 0)) /\
    exists s t x : num,
      subtotal b' = Some s /\ tax_total b' = Some t /\
      discount_total b' = Some x /\
      grand_total b' = Some (fsub (fadd s t) x).
Proof.
  intros Hb. pose proof (tbl_get_key _ _ _ _ _ Hb) as Hk. subst id.
  exists (recalculated_booking now b d), (recalculated_db now b d).
  split; [|split; [|split; [|split]]].
  - eapply request_run. now apply recalculate_run.
  - now apply recalculated_row.
  - reflexivity.
  - cbn [subtotal recalculated_booking booking_set_updated_at
         booking_set_totals].
    now rewrite sum_amounts_fold.
  - do 3 eexists. repeat split; reflexivity.
Qed.

(** C2. A recalculation of a booking rewrites, in the tax table, every
    row that carries the booking's id: its amount becomes
    [subtotal * (rate / 100)] of the current subtotal, whatever amount
    it had, and nothing else of the row changes.  In the discount table
    every row of the booking with a percentage gets the amount
    [subtotal * (percentage / 100)], and a row without a percentage is
    kept as it is.  The rows of other bookings are not touched.
    [tax_total] and [discount_total] are the sums of the amounts the
    booking's rows now carry, added from the left starting at 0. *)
Theorem recalculation_rewrites_taxes_and_discounts
  (now id : Z) (d : DB) (b : Booking) :
  tbl_get bk_id id (bookings d) = Some b ->
  unique_keys tax_id (taxes d) ->
  unique_keys disc_id (discounts d) ->
  exists (b' : Booking) (d' : DB) (s : num),
    request (recalculate_booking_totals now id) d = (inr b', d') /\
    tbl_get bk_id id (bookings d') = Some b' /\
    subtotal b' = Some s /\
    s = fold_left fadd
          (map li_amount
             (filter (fun i => li_booking_id i =? id) (line_items d)))
          (of_Z 0) /\
    taxes d' =
      map (fun t =>
             if tax_booking_id t =? id
             then {| tax_id := tax_id t;
                     tax_booking_id := tax_booking_id t;
                     tax_name := tax_name t;
                     rate := rate t;
                     tax_amount := fmul s (fdiv (rate t) (of_Z 100));
                     tax_created_at := tax_created_at t;
                     tax_updated_at := tax_updated_at t |}
             else t)
        (taxes d) /\
    discounts d' =
      map (fun x =>
             if disc_booking_id x =? id
             then match percentage x with
                  | Some p =>
                      {| disc_id := disc_id x;
                         disc_booking_id := disc_booking_id x;
                         disc_name := disc_name x;
                         disc_amount := fmul s (fdiv p (of_Z 100));
                         percentage := Some p;
                         disc_created_at := disc_created_at x;
                         disc_updated_at := disc_updated_at x |}
                  | None => x
                  end
             else x)
        (discounts d) /\
    tax_total b' =
      Some (fold_left fadd
              (map tax_amount
                 (filter (fun t => tax_booking_id t =? id) (taxes d')))
              (of_Z 0)) /\
    discount_total b' =
      Some (fold_left fadd
              (map disc_amount
                 (filter (fun x => disc_booking_id x =? id) (discounts d')))
              (of_Z 0)).
Proof.
  intros Hb Ht Hx. pose proof (tbl_get_key _ _ _ _ _ Hb) as Hk. subst id.
  set (s := sum_amounts (select_line_items (bk_id b) d)).
  exists (recalculated_booking now b d), (recalculated_db now b d), s.
  split; [eapply request_run; now apply recalculate_run|].
  split; [now apply recalculated_row|].
  split; [reflexivity|].
  split; [apply sum_amounts_fold|].
  split.
  { rewrite (recalculated_taxes_table now b d Ht). fold s.
    apply map_ext. intros t. reflexivity. }
  split.
  { rewrite (recalculated_discounts_table now b d Hx). fold s.
    apply map_ext. intros x. unfold rebase_discount.
    destruct (disc_booking_id x =? bk_id b); [|reflexivity].
    destruct (percentage x) as [p|] eqn:E; [|reflexivity].
    unfold discount_set_amount. rewrite E. reflexivity. }
  split.
  { pose proof (recalculated_taxes now (bk_id b) b d Ht) as Hsel.
    rewrite Z.eqb_refl in Hsel. unfold select_taxes at 1 in Hsel.
    rewrite Hsel. reflexivity. }
  pose proof (recalculated_discounts now (bk_id b) b d Hx) as Hsel.
  rewrite Z.eqb_refl in Hsel. unfold select_discounts at 1 in Hsel.
  rewrite Hsel. reflexivity.
Qed.

(** ** update_booking *)

Lemma booking_apply_update_key (b : Booking) (data : BookingUpdate) :
  bk_id (booking_apply_update b data) = bk_id b.
Proof.
  unfold booking_apply_update.
  destruct (bu_checkout_at data), (bu_price data); reflexivity.
Qed.

(** C10. On an active booking, [update_booking] with a [checkout_at]
    value stamps the booking with it and does nothing else to the stay:
    the rooms table, hence the room's [occupied] flag and
    [current_guest_id], is as before, and so are the line items, taxes,
    discounts and the four totals of the booking.  The branch that
    vacates and reprices tests [booking.checkout_at] after the [setattr]
    loop has assigned it, so it is never taken. *)
Theorem update_booking_checkout_only_stamps
  (now id t : Z) (data : BookingUpdate) (d : DB) (b : Booking) :
  tbl_get bk_id id (bookings d) = Some b ->
  checkout_at b = None ->
  bu_checkout_at data = Some (Some t) ->
  exists (b' : Booking) (d' : DB),
    request (update_booking now id data) d = (inr b', d') /\
    tbl_get bk_id id (bookings d') = Some b' /\
    checkout_at b' = Some t /\
    rooms d' = rooms d /\
    line_items d' = line_items d /\
    taxes d' = taxes d /\
    discounts d' = discounts d /\
    guests d' = guests d /\
    subtotal b' = subtotal b /\
    tax_total b' = tax_total b /\
    discount_total b' = discount_total b /\
    grand_total b' = grand_total b.
Proof.
  intros Hb Hactive Hco.
  pose proof (tbl_get_key _ _ _ _ _ Hb) as Hk.
  set (b1 := booking_apply_update b data).
  assert (Hco1 : checkout_at b1 = Some t).
  { unfold b1, booking_apply_update. rewrite Hco.
    destruct (bu_price data); reflexivity. }
  exists (booking_set_updated_at b1 now).
  eexists. split; [|split].
  - eapply request_run. unfold update_booking.
    step get_booking_run. fold b1. rewrite Hco, Hco1. cbn [attr is_set negb andb].
    run. reflexivity.
  - cbn [bookings on_bookings].
    eapply tbl_get_put; [|cbn; unfold b1; now rewrite booking_apply_update_key].
    eapply tbl_get_put; [exact Hb|]. unfold b1.
    now rewrite booking_apply_update_key.
  - repeat split; try reflexivity; try exact Hco1;
      unfold b1, booking_apply_update; rewrite Hco;
      destruct (bu_price data); reflexivity.
Qed.

(** ** create_booking *)

Lemma create_booking_no_guest (now : Z) (data : BookingCreate) (d : DB) :
  tbl_get g_id (bc_guest_id data) (guests d) = None ->
  request (create_booking now data) d = (inl NotFoundError, d).
Proof.
  intros Hg. eapply request_run. unfold create_booking.
  stop get_guest_missing. reflexivity.
Qed.

Lemma create_booking_occupied (now : Z) (data : BookingCreate) (d : DB)
  (g : Guest) (r : Room) :
  tbl_get g_id (bc_guest_id data) (guests d) = Some g ->
  tbl_get number (bc_room_number data) (rooms d) = Some r ->
  occupied r = true ->
  request (create_booking now data) d = (inl ConflictError, d).
Proof.
  intros Hg Hr Hocc. eapply request_run. unfold create_booking.
  step get_guest_run. step get_room_run. rewrite Hocc. reflexivity.
Qed.

(** The booking [create_booking] returns and the line item it inserts. *)
Lemma create_booking_ok (now : Z) (data : BookingCreate) (d : DB)
  (g : Guest) (r : Room) :
  tbl_get g_id (bc_guest_id data) (guests d) = Some g ->
  tbl_get number (bc_room_number data) (rooms d) = Some r ->
  occupied r = false ->
  exists (b : Booking) (item : InvoiceLineItem) (d' : DB),
    request (create_booking now data) d = (inr b, d') /\
    bookings d' = bookings d ++ [b] /\
    line_items d' = line_items d ++ [item] /\
    rooms d' =
      tbl_put number
        (room_set_occupancy r true (Some (bc_guest_id data)) now) (rooms d) /\
    guests d' = tbl_put g_id (guest_touch g now) (guests d) /\
    taxes d' = taxes d /\ discounts d' = discounts d /\
    b = {| bk_id := tbl_next_id bk_id (bookings d);
           guest_id := bc_guest_id data;
           room_number := bc_room_number data;
           checkin_at := now;
           checkout_at := None;
           price := Some (float_or (bc_price data) (rate_per_night r));
           invoice_path := None;
           subtotal := Some (float_or (bc_price data) (rate_per_night r));
           tax_total := None;
           discount_total := None;
           grand_total := Some (float_or (bc_price data) (rate_per_night r));
           bk_created_at := now;
           bk_updated_at := None |} /\
    item = {| li_id := tbl_next_id li_id (line_items d);
              li_booking_id := bk_id b;
              description :=
                (room_type r ++ " Room - " ++ str_int (number r))%string;
              quantity := of_Z 1;
              unit_price := float_or (bc_price data) (rate_per_night r);
              li_amount := float_or (bc_price data) (rate_per_night r);
              item_type := "room";
              li_created_at := now;
              li_updated_at := None |}.
Proof.
  intros Hg Hr Hocc. do 3 eexists. split.
  { eapply request_run. unfold create_booking.
    step get_guest_run. step get_room_run. rewrite Hocc. run.
    reflexivity. }
  split.
  { cbn [bookings on_bookings on_line_items on_guests on_rooms].
    apply tbl_put_insert; reflexivity. }
  repeat split; reflexivity.
Qed.

(** C3, as the code has it.  [create_booking] raises [NotFoundError]
    when the guest is not stored and [ConflictError] when the guest is
    stored and the room is occupied, in both cases leaving the database
    as it was.  Otherwise it stores one new booking, with
    [checkin_at = now] and a price that is the requested price when one
    was sent and is not zero and the room's nightly rate otherwise, and
    one new line item of type ["room"] with quantity 1 and that price as
    its amount; [subtotal] and [grand_total] are the price; the room is
    occupied by the guest, the guest's [last_seen] is [now], and the
    stored booking is what is returned. *)
Theorem create_booking_contract (now : Z) (data : BookingCreate) (d : DB) :
  (tbl_get g_id (bc_guest_id data) (guests d) = None ->
   request (create_booking now data) d = (inl NotFoundError, d)) /\
  (forall (g : Guest) (r : Room),
     tbl_get g_id (bc_guest_id data) (guests d) = Some g ->
     tbl_get number (bc_room_number data) (rooms d) = Some r ->
     occupied r = true ->
     request (create_booking now data) d = (inl ConflictError, d)) /\
  (forall (g : Guest) (r : Room),
     tbl_get g_id (bc_guest_id data) (guests d) = Some g ->
     tbl_get number (bc_room_number data) (rooms d) = Some r ->
     occupied r = false ->
     exists (b : Booking) (item : InvoiceLineItem) (d' : DB)
            (r' : Room) (g' : Guest),
       request (create_booking now data) d = (inr b, d') /\
       bookings d' = bookings d ++ [b] /\
       tbl_get bk_id (bk_id b) (bookings d') = Some b /\
       guest_id b = bc_guest_id data /\
       room_number b = bc_room_number data /\
       checkin_at b = now /\
       checkout_at b = None /\
       price b =
         Some (match bc_price data with
               | Some p => if truthy p then p else rate_per_night r
               | None => rate_per_night r
               end) /\
       subtotal b = price b /\
       grand_total b = price b /\
       line_items d' = line_items d ++ [item] /\
       li_booking_id item = bk_id b /\
       item_type item = "room" /\
       quantity item = of_Z 1 /\
       Some (unit_price item) = price b /\
       Some (li_amount item) = price b /\
       tbl_get number (bc_room_number data) (rooms d') = Some r' /\
       occupied r' = true /\
       current_guest_id r' = Some (bc_guest_id data) /\
       tbl_get g_id (bc_guest_id data) (guests d') = Some g' /\
       last_seen g' = Some now).
Proof.
  split; [apply create_booking_no_guest|].
  split; [apply create_booking_occupied|].
  intros g r Hg Hr Hocc.
  destruct (create_booking_ok now data d g r Hg Hr Hocc)
    as (b & item & d' & Hrun & Hbs & Hitems & Hrooms & Hguests & _ & _
        & Hb & Hitem).
  exists b, item, d',
    (room_set_occupancy r true (Some (bc_guest_id data)) now),
    (guest_touch g now).
  assert (Hkey : bk_id b = tbl_next_id bk_id (bookings d))
    by (rewrite Hb; reflexivity).
  split; [exact Hrun|]. split; [exact Hbs|].
  split; [rewrite Hbs; now apply tbl_get_insert|].
  rewrite Hrooms, Hguests, Hitems.
  repeat split; try (rewrite Hb; reflexivity);
    try (rewrite Hitem, Hb; reflexivity).
  - eapply tbl_get_put; [exact Hr|]. cbn.
    exact (tbl_get_key _ _ _ _ _ Hr).
  - eapply tbl_get_put; [exact Hg|]. cbn.
    exact (tbl_get_key _ _ _ _ _ Hg).
Qed.

(** C7.  A request to book a room that is occupied, for a guest that is
    stored, raises [ConflictError] and the database is the one the
    request found: no booking, no line item, and every room as it was. *)
Theorem create_booking_conflict_changes_nothing
  (now : Z) (data : BookingCreate) (d : DB) (g : Guest) (r : Room) :
  tbl_get g_id (bc_guest_id data) (guests d) = Some g ->
  tbl_get number (bc_room_number data) (rooms d) = Some r ->
  occupied r = true ->
  exists d' : DB,
    request (create_booking now data) d = (inl ConflictError, d') /\
    d' = d /\
    bookings d' = bookings d /\
    line_items d' = line_items d /\
    rooms d' = rooms d /\
    tbl_get number (bc_room_number data) (rooms d') = Some r.
Proof.
  intros Hg Hr Hocc. exists d.
  rewrite (create_booking_occupied now data d g r Hg Hr Hocc).
  repeat split; try reflexivity. exact Hr.
Qed.

(** ** Removing charges *)

Lemma is_room_item_true (i : InvoiceLineItem) :
  is_room_item i = true <-> item_type i = "room".
Proof. unfold is_room_item. apply String.eqb_eq. Qed.

Lemma remove_invoice_item_refused (now id item_id : Z) (d : DB)
  (i : InvoiceLineItem) (b : Booking) :
  tbl_get li_id item_id (line_items d) = Some i ->
  tbl_get bk_id id (bookings d) = Some b ->
  is_room_item i = true ->
  checkout_at b = None ->
  request (remove_invoice_item now id item_id) d = (inl BadRequestError, d).
Proof.
  intros Hi Hb Hroom Hact. eapply request_run. unfold remove_invoice_item.
  step get_line_item_run. step get_booking_run.
  rewrite Hroom, Hact. reflexivity.
Qed.

(** What [remove_invoice_item] does once the guard lets it through: the
    row goes, and the booking that was passed is recalculated. *)
Lemma remove_invoice_item_run (now id item_id : Z) (d : DB)
  (i : InvoiceLineItem) (b : Booking) :
  tbl_get li_id item_id (line_items d) = Some i ->
  tbl_get bk_id id (bookings d) = Some b ->
  is_room_item i && negb (is_set (checkout_at b)) = false ->
  request (remove_invoice_item now id item_id) d =
  (inr (recalculated_booking now b
          (on_line_items (tbl_delete li_id item_id) d)),
   recalculated_db now b (on_line_items (tbl_delete li_id item_id) d)).
Proof.
  intros Hi Hb Hguard. pose proof (tbl_get_key _ _ _ _ _ Hi) as Hk.
  pose proof (tbl_get_key _ _ _ _ _ Hb) as Hkb.
  eapply request_run. unfold remove_invoice_item.
  step get_line_item_run. step get_booking_run. rewrite Hguard. run.
  rewrite Hk.
  erewrite bind_ok by (apply recalculate_run; exact Hb).
  apply get_booking_run. subst id. now apply recalculated_row.
Qed.

Lemma remove_tax_run (now id tid : Z) (d : DB) (t : InvoiceTax) (b : Booking) :
  tbl_get tax_id tid (taxes d) = Some t ->
  tbl_get bk_id id (bookings d) = Some b ->
  request (remove_tax now id tid) d =
  (inr (recalculated_booking now b (on_taxes (tbl_delete tax_id tid) d)),
   recalculated_db now b (on_taxes (tbl_delete tax_id tid) d)).
Proof.
  intros Ht Hb. pose proof (tbl_get_key _ _ _ _ _ Ht) as Hk.
  pose proof (tbl_get_key _ _ _ _ _ Hb) as Hkb.
  eapply request_run. unfold remove_tax.
  step get_tax_run. rewrite Hk.
  erewrite bind_ok by (apply recalculate_run; exact Hb).
  apply get_booking_run. subst id. now apply recalculated_row.
Qed.

Lemma remove_discount_run (now id xid : Z) (d : DB) (x : InvoiceDiscount)
  (b : Booking) :
  tbl_get disc_id xid (discounts d) = Some x ->
  tbl_get bk_id id (bookings d) = Some b ->
  request (remove_discount now id xid) d =
  (inr (recalculated_booking now b (on_discounts (tbl_delete disc_id xid) d)),
   recalculated_db now b (on_discounts (tbl_delete disc_id xid) d)).
Proof.
  intros Hx Hb. pose proof (tbl_get_key _ _ _ _ _ Hx) as Hk.
  pose proof (tbl_get_key _ _ _ _ _ Hb) as Hkb.
  eapply request_run. unfold remove_discount.
  step get_discount_run. rewrite Hk.
  erewrite bind_ok by (apply recalculate_run; exact Hb).
  apply get_booking_run. subst id. now apply recalculated_row.
Qed.

Lemma delete_line_item_refused (now item_id : Z) (d : DB)
  (i : InvoiceLineItem) (b : Booking) :
  tbl_get li_id item_id (line_items d) = Some i ->
  tbl_get bk_id (li_booking_id i) (bookings d) = Some b ->
  is_room_item i = true ->
  checkout_at b = None ->
  request (delete_line_item now item_id) d = (inl BadRequestError, d).
Proof.
  intros Hi Hb Hroom Hact. eapply request_run. unfold delete_line_item.
  step get_line_item_run. step get_booking_run.
  rewrite Hroom, Hact. reflexivity.
Qed.

Lemma delete_line_item_run (now item_id : Z) (d : DB)
  (i : InvoiceLineItem) (b : Booking) :
  tbl_get li_id item_id (line_items d) = Some i ->
  tbl_get bk_id (li_booking_id i) (bookings d) = Some b ->
  is_room_item i && negb (is_set (checkout_at b)) = false ->
  request (delete_line_item now item_id) d =
  (inr tt, recalculated_db now b (on_line_items (tbl_delete li_id item_id) d)).
Proof.
  intros Hi Hb Hguard. pose proof (tbl_get_key _ _ _ _ _ Hi) as Hk.
  eapply request_run. unfold delete_line_item.
  step get_line_item_run. step get_booking_run. rewrite Hguard. run.
  rewrite Hk.
  erewrite bind_ok by (apply recalculate_run; exact Hb).
  reflexivity.
Qed.

(** C8.  For a line item of a stored booking: when the item is of type
    ["room"] and the booking is active, [remove_invoice_item] and
    [delete_line_item] raise [BadRequestError] and the database is as it
    was, the item and the totals included.  Otherwise (another type, or
    a booking already checked out) both delete the item and recalculate
    the booking: the item is gone and the stored subtotal is the sum of
    the remaining items. *)
Theorem room_charge_removal_guard
  (now id item_id : Z) (d : DB) (i : InvoiceLineItem) (b : Booking) :
  tbl_get li_id item_id (line_items d) = Some i ->
  li_booking_id i = id ->
  tbl_get bk_id id (bookings d) = Some b ->
  (item_type i = "room" -> checkout_at b = None ->
   request (remove_invoice_item now id item_id) d = (inl BadRequestError, d) /\
   request (delete_line_item now item_id) d = (inl BadRequestError, d)) /\
  (item_type i <> "room" \/ checkout_at b <> None ->
   exists (b' : Booking) (d' : DB),
     request (remove_invoice_item now id item_id) d = (inr b', d') /\
     request (delete_line_item now item_id) d = (inr tt, d') /\
     tbl_get li_id item_id (line_items d') = None /\
     line_items d' = tbl_delete li_id item_id (line_items d) /\
     tbl_get bk_id id (bookings d') = Some b' /\
     b' = recalculated_booking now b
            (on_line_items (tbl_delete li_id item_id) d) /\
     subtotal b' = Some (sum_amounts (select_line_items id d')) /\
     exists s t x : num,
       subtotal b' = Some s /\ tax_total b' = Some t /\
       discount_total b' = Some x /\
       grand_total b' = Some (fsub (fadd s t) x)).
Proof.
  intros Hi Hown Hb. subst id. split.
  - intros Hroom Hact. apply is_room_item_true in Hroom. split.
    + now apply (remove_invoice_item_refused now _ item_id d i b).
    + now apply (delete_line_item_refused now item_id d i b).
  - intros Hfree.
    assert (Hguard : is_room_item i && negb (is_set (checkout_at b)) = false).
    { destruct Hfree as [Hty|Hco].
      - destruct (is_room_item i) eqn:E; [|reflexivity].
        apply is_room_item_true in E. contradiction.
      - destruct (checkout_at b); [|contradiction].
        apply andb_false_r. }
    pose proof (tbl_get_key _ _ _ _ _ Hb) as Hkb.
    exists (recalculated_booking now b
              (on_line_items (tbl_delete li_id item_id) d)),
      (recalculated_db now b (on_line_items (tbl_delete li_id item_id) d)).
    split; [now apply (remove_invoice_item_run now _ item_id d i b)|].
    split; [now apply (delete_line_item_run now item_id d i b)|].
    split; [apply tbl_get_delete|].
    split; [reflexivity|].
    rewrite <- Hkb in Hb |- *.
    split; [now apply recalculated_row|].
    split; [reflexivity|].
    split; [reflexivity|].
    do 3 eexists. repeat split; reflexivity.
Qed.

Lemma recalculated_other_row (now id : Z) (b bo : Booking) (d : DB) :
  id <> bk_id b ->
  tbl_get bk_id id (bookings d) = Some bo ->
  tbl_get bk_id id (bookings (recalculated_db now b d)) = Some bo.
Proof.
  intros Hne Hbo. unfold recalculated_db. cbn [bookings on_bookings].
  rewrite tbl_get_put_other; [exact Hbo|]. cbn. congruence.
Qed.

(** C9, as the code has it.  The three [remove_*] methods look the row
    up by its own key and never compare its [booking_id] with the
    booking that was passed.  When the passed booking is stored (and,
    for a line item, the guard on the room charge lets the call through,
    a guard that reads the passed booking), a row of another booking is
    deleted, the passed booking is recalculated, and the row of the
    owning booking is left as it was: its stored totals are stale as
    soon as the deleted row changes the sum. *)
Theorem removal_ignores_ownership
  (now id owner : Z) (d : DB) (b bo : Booking) :
  owner <> id ->
  tbl_get bk_id id (bookings d) = Some b ->
  tbl_get bk_id owner (bookings d) = Some bo ->
  unique_keys tax_id (taxes d) ->
  unique_keys disc_id (discounts d) ->
  (forall (item_id : Z) (i : InvoiceLineItem),
     tbl_get li_id item_id (line_items d) = Some i ->
     li_booking_id i = owner ->
     item_type i <> "room" \/ checkout_at b <> None ->
     exists (b' : Booking) (d' : DB),
       request (remove_invoice_item now id item_id) d = (inr b', d') /\
       tbl_get li_id item_id (line_items d') = None /\
       select_line_items owner d' =
         tbl_delete li_id item_id (select_line_items owner d) /\
       tbl_get bk_id owner (bookings d') = Some bo /\
       tbl_get bk_id id (bookings d') = Some b' /\
       subtotal b' = Some (sum_amounts (select_line_items id d')) /\
       (sum_amounts (select_line_items owner d') <>
          sum_amounts (select_line_items owner d) ->
        subtotal bo = Some (sum_amounts (select_line_items owner d)) ->
        subtotal bo <> Some (sum_amounts (select_line_items owner d')))) /\
  (forall (tid : Z) (t : InvoiceTax),
     tbl_get tax_id tid (taxes d) = Some t ->
     tax_booking_id t = owner ->
     exists (b' : Booking) (d' : DB),
       request (remove_tax now id tid) d = (inr b', d') /\
       tbl_get tax_id tid (taxes d') = None /\
       select_taxes owner d' = tbl_delete tax_id tid (select_taxes owner d) /\
       tbl_get bk_id owner (bookings d') = Some bo /\
       tbl_get bk_id id (bookings d') = Some b' /\
       tax_total b' = Some (sum_tax_amounts (select_taxes id d')) /\
       (sum_tax_amounts (select_taxes owner d') <>
          sum_tax_amounts (select_taxes owner d) ->
        tax_total bo = Some (sum_tax_amounts (select_taxes owner d)) ->
        tax_total bo <> Some (sum_tax_amounts (select_taxes owner d')))) /\
  (forall (xid : Z) (x : InvoiceDiscount),
     tbl_get disc_id xid (discounts d) = Some x ->
     disc_booking_id x = owner ->
     exists (b' : Booking) (d' : DB),
       request (remove_discount now id xid) d = (inr b', d') /\
       tbl_get disc_id xid (discounts d') = None /\
       select_discounts owner d' =
         tbl_delete disc_id xid (select_discounts owner d) /\
       tbl_get bk_id owner (bookings d') = Some bo /\
       tbl_get bk_id id (bookings d') = Some b' /\
       discount_total b' =
         Some (sum_discount_amounts (select_discounts id d')) /\
       (sum_discount_amounts (select_discounts owner d') <>
          sum_discount_amounts (select_discounts owner d) ->
        discount_total bo =
          Some (sum_discount_amounts (select_discounts owner d)) ->
        discount_total bo <>
          Some (sum_discount_amounts (select_discounts owner d')))).
Proof.
  intros Hne Hb Hbo Hut Hux.
  pose proof (tbl_get_key _ _ _ _ _ Hb) as Hkb.
  assert (Hne' : owner <> bk_id b) by congruence.
  assert (Hneb : (owner =? bk_id b) = false) by now apply Z.eqb_neq.
  split; [|split].
  - intros item_id i Hi Hown Hfree.
    assert (Hguard : is_room_item i && negb (is_set (checkout_at b)) = false).
    { destruct Hfree as [Hty|Hco].
      - destruct (is_room_item i) eqn:E; [|reflexivity].
        apply is_room_item_true in E. contradiction.
      - destruct (checkout_at b); [|contradiction].
        apply andb_false_r. }
    set (d1 := on_line_items (tbl_delete li_id item_id) d).
    exists (recalculated_booking now b d1), (recalculated_db now b d1).
    assert (Hsel : select_line_items owner (recalculated_db now b d1) =
                   tbl_delete li_id item_id (select_line_items owner d))
      by apply filter_swap.
    split; [now apply (remove_invoice_item_run now id item_id d i b)|].
    split; [apply tbl_get_delete|].
    split; [exact Hsel|].
    split; [now apply recalculated_other_row|].
    rewrite <- Hkb in Hb |- *.
    split; [now apply recalculated_row|].
    split; [reflexivity|].
    intros Hchg Hold. rewrite Hold. intros E. apply Hchg. congruence.
  - intros tid t Ht Hown.
    set (d1 := on_taxes (tbl_delete tax_id tid) d).
    assert (Hu1 : unique_keys tax_id (taxes d1))
      by (apply unique_keys_delete; exact Hut).
    exists (recalculated_booking now b d1), (recalculated_db now b d1).
    assert (Hsel : select_taxes owner (recalculated_db now b d1) =
                   tbl_delete tax_id tid (select_taxes owner d)).
    { rewrite (recalculated_taxes now owner b d1 Hu1), Hneb.
      apply filter_swap. }
    split; [now apply (remove_tax_run now id tid d t b)|].
    split.
    { unfold recalculated_db. cbn [taxes on_bookings on_discounts on_taxes].
      eapply tbl_get_keys; [apply flush_keys|]. apply tbl_get_delete. }
    split; [exact Hsel|].
    split; [now apply recalculated_other_row|].
    rewrite <- Hkb in Hb |- *.
    split; [now apply recalculated_row|].
    split.
    { rewrite (recalculated_taxes now (bk_id b) b d1 Hu1), Z.eqb_refl.
      reflexivity. }
    intros Hchg Hold. rewrite Hold. intros E. apply Hchg. congruence.
  - intros xid x Hx Hown.
    set (d1 := on_discounts (tbl_delete disc_id xid) d).
    assert (Hu1 : unique_keys disc_id (discounts d1))
      by (apply unique_keys_delete; exact Hux).
    exists (recalculated_booking now b d1), (recalculated_db now b d1).
    assert (Hsel : select_discounts owner (recalculated_db now b d1) =
                   tbl_delete disc_id xid (select_discounts owner d)).
    { rewrite (recalculated_discounts now owner b d1 Hu1), Hneb.
      apply filter_swap. }
    split; [now apply (remove_discount_run now id xid d x b)|].
    split.
    { unfold recalculated_db.
      cbn [discounts on_bookings on_discounts on_taxes].
      eapply tbl_get_keys; [apply flush_keys|]. apply tbl_get_delete. }
    split; [exact Hsel|].
    split; [now apply recalculated_other_row|].
    rewrite <- Hkb in Hb |- *.
    split; [now apply recalculated_row|].
    split.
    { rewrite (recalculated_discounts now (bk_id b) b d1 Hu1), Z.eqb_refl.
      reflexivity. }
    intros Hchg Hold. rewrite Hold. intros E. apply Hchg. congruence.
Qed.

(** ** Rooms *)

Lemma vacate_room_run (now n : Z) (r : Room) (d c : DB) :
  tbl_get number n (rooms d) = Some r ->
  occupied r = true ->
  vacate_room now n {| pending := d; committed := c |} =
  (inr (room_set_occupancy r false None now),
   {| pending :=
        on_rooms (tbl_put number (room_set_occupancy r false None now)) d;
      committed :=
        on_rooms (tbl_put number (room_set_occupancy r false None now)) d |}).
Proof.
  intros Hr Hocc. unfold vacate_room. step get_room_run.
  rewrite Hocc. reflexivity.
Qed.

Lemma vacate_room_vacant (now n : Z) (r : Room) (d c : DB) :
  tbl_get number n (rooms d) = Some r ->
  occupied r = false ->
  vacate_room now n {| pending := d; committed := c |} =
  (inl ConflictError, {| pending := d; committed := c |}).
Proof.
  intros Hr Hocc. unfold vacate_room. step get_room_run.
  rewrite Hocc. reflexivity.
Qed.

(** ** checkout_booking *)

Lemma checkout_booking_done (now id : Z) (d : DB) (b : Booking) :
  tbl_get bk_id id (bookings d) = Some b ->
  checkout_at b <> None ->
  request (checkout_booking now id) d = (inl ConflictError, d).
Proof.
  intros Hb Hco. eapply request_run. unfold checkout_booking.
  step get_booking_run. destruct (checkout_at b); [reflexivity|contradiction].
Qed.

(** The room of an active booking is vacant already: [vacate_room]
    raises, and the stamp on the booking is dropped with the session. *)
Lemma checkout_booking_vacant (now id : Z) (d : DB) (b : Booking) (r : Room) :
  tbl_get bk_id id (bookings d) = Some b ->
  checkout_at b = None ->
  tbl_get number (room_number b) (rooms d) = Some r ->
  occupied r = false ->
  request (checkout_booking now id) d = (inl ConflictError, d).
Proof.
  intros Hb Hco Hr Hocc. eapply request_run. unfold checkout_booking.
  step get_booking_run. rewrite Hco. cbn [is_set].
  step get_room_run.
  erewrite bind_err; [reflexivity|].
  apply (vacate_room_vacant now _ r); assumption.
Qed.

Lemma checkout_booking_no_room (now id : Z) (d : DB) (b : Booking) :
  tbl_get bk_id id (bookings d) = Some b ->
  checkout_at b = None ->
  tbl_get number (room_number b) (rooms d) = None ->
  request (checkout_booking now id) d = (inl NotFoundError, d).
Proof.
  intros Hb Hco Hr. eapply request_run. unfold checkout_booking.
  step get_booking_run. rewrite Hco. cbn [is_set].
  stop get_room_missing. reflexivity.
Qed.

(** The booking row and the database on which [checkout_booking] runs its
    recalculation. *)
Lemma checkout_booking_run (now id : Z) (d : DB) (b : Booking) (r : Room) :
  tbl_get bk_id id (bookings d) = Some b ->
  checkout_at b = None ->
  tbl_get number (room_number b) (rooms d) = Some r ->
  occupied r = true ->
  let duration := int_or (timedelta_days now (checkin_at b)) 1 in
  let b1 := booking_set_updated_at (booking_set_checkout b (Some now)) now in
  let d1 :=
    on_rooms (tbl_put number (room_set_occupancy r false None now))
      (on_bookings (tbl_put bk_id b1) d) in
  let d2 :=
    match find is_room_item (select_line_items id d) with
    | Some item =>
        on_line_items
          (tbl_put li_id
             (line_item_set_quantity item (of_Z duration)
                (fmul (unit_price item) (of_Z duration)) now)) d1
    | None => d1
    end in
  request (checkout_booking now id) d =
  (inr (recalculated_booking now b1 d2), recalculated_db now b1 d2).
Proof.
  intros Hb Hco Hr Hocc duration b1 d1.
  pose proof (tbl_get_key _ _ _ _ _ Hb) as Hkb.
  assert (Hb1 : forall dd, bookings dd = bookings d1 ->
                           tbl_get bk_id id (bookings dd) = Some b1).
  { intros dd ->. cbn [d1 bookings on_rooms on_bookings].
    eapply tbl_get_put; [exact Hb|]. exact Hkb. }
  destruct (find is_room_item (select_line_items id d)) as [item|] eqn:Hfind;
    intros d2; eapply request_run; unfold checkout_booking;
    step get_booking_run; rewrite Hco; cbn [is_set];
    step get_room_run; fold b1;
    (erewrite bind_ok
       by (apply (vacate_room_run now _ r); [exact Hr|exact Hocc]));
    fold d1; run;
    change (select_line_items id d1) with (select_line_items id d);
    rewrite Hfind; fold duration; run;
    (erewrite bind_ok by (apply recalculate_run; now apply Hb1));
    run; reflexivity.
Qed.

Lemma duration_max (now checkin : Z) :
  checkin <= now ->
  int_or (timedelta_days now checkin) 1 =
  Z.max 1 (timedelta_days now checkin).
Proof.
  intros Hle. unfold int_or, timedelta_days, microseconds_per_day.
  assert (0 <= (now - checkin) / 86400000000) by (apply Z.div_pos; lia).
  destruct (Z.eqb_spec ((now - checkin) / 86400000000) 0); lia.
Qed.

(** The three outcomes of [checkout_booking] on a stored booking. *)
Lemma checkout_booking_spec (now id : Z) (d : DB) (b : Booking) :
  tbl_get bk_id id (bookings d) = Some b ->
  (checkout_at b <> None ->
   request (checkout_booking now id) d = (inl ConflictError, d)) /\
  (forall r : Room,
     checkout_at b = None ->
     tbl_get number (room_number b) (rooms d) = Some r ->
     occupied r = false ->
     request (checkout_booking now id) d = (inl ConflictError, d)) /\
  (forall r : Room,
     checkout_at b = None ->
     tbl_get number (room_number b) (rooms d) = Some r ->
     occupied r = true ->
     checkin_at b <= now ->
     exists (b' : Booking) (d' : DB) (r' : Room),
       request (checkout_booking now id) d = (inr b', d') /\
       tbl_get bk_id id (bookings d') = Some b' /\
       checkout_at b' = Some now /\
       tbl_get number (room_number b) (rooms d') = Some r' /\
       occupied r' = false /\
       current_guest_id r' = None /\
       match find is_room_item (select_line_items id d) with
       | Some item =>
           exists item' : InvoiceLineItem,
             tbl_get li_id (li_id item) (line_items d') = Some item' /\
             quantity item' =
               of_Z (Z.max 1 (timedelta_days now (checkin_at b))) /\
             unit_price item' = unit_price item /\
             li_amount item' =
               fmul (unit_price item)
                 (of_Z (Z.max 1 (timedelta_days now (checkin_at b))))
       | None => line_items d' = line_items d
       end /\
       subtotal b' = Some (sum_amounts (select_line_items id d')) /\
       exists s t x : num,
         subtotal b' = Some s /\ tax_total b' = Some t /\
         discount_total b' = Some x /\
         grand_total b' = Some (fsub (fadd s t) x)).
Proof.
  intros Hb. split; [now apply checkout_booking_done|].
  split; [intros r; now apply checkout_booking_vacant|].
  intros r Hco Hr Hocc Hle.
  pose proof (tbl_get_key _ _ _ _ _ Hb) as Hkb.
  pose proof (checkout_booking_run now id d b r Hb Hco Hr Hocc) as Hrun.
  cbv zeta in Hrun. rewrite (duration_max now (checkin_at b) Hle) in Hrun.
  set (n := Z.max 1 (timedelta_days now (checkin_at b))) in *.
  set (b1 := booking_set_updated_at (booking_set_checkout b (Some now)) now)
    in *.
  do 2 eexists. exists (room_set_occupancy r false None now).
  split; [exact Hrun|].
  assert (Hk1 : bk_id b1 = id) by exact Hkb.
  split.
  { rewrite <- Hk1. apply recalculated_row. rewrite Hk1.
    destruct (find is_room_item (select_line_items id d));
      cbn [bookings on_line_items on_rooms on_bookings];
      (eapply tbl_get_put; [exact Hb|exact Hkb]). }
  split; [reflexivity|].
  split.
  { destruct (find is_room_item (select_line_items id d));
      cbn [rooms recalculated_db on_line_items on_rooms on_bookings
           on_discounts on_taxes];
      (eapply tbl_get_put; [exact Hr|]);
      exact (tbl_get_key _ _ _ _ _ Hr). }
  split; [reflexivity|]. split; [reflexivity|].
  split.
  { destruct (find is_room_item (select_line_items id d)) as [item|] eqn:Hf.
    - exists (line_item_set_quantity item (of_Z n)
                (fmul (unit_price item) (of_Z n)) now).
      split; [|repeat split; reflexivity].
      cbn [line_items recalculated_db on_line_items on_rooms on_bookings
           on_discounts on_taxes].
      apply find_some in Hf. destruct Hf as [Hin _].
      apply filter_In in Hin. destruct Hin as [Hin _].
      destruct (tbl_get_of_In _ li_id _ _ Hin) as [i0 Hi0].
      eapply tbl_get_put; [exact Hi0|reflexivity].
    - reflexivity. }
  split; [rewrite <- Hk1; reflexivity|].
  do 3 eexists. repeat split; reflexivity.
Qed.

(** ** Properties a method maintains *)

Section Maintains.

Variable P : DB -> Prop.

Lemma maintains_ret {A} (a : A) : maintains P (ret a).
Proof. intros s Hp Hc. now split. Qed.

Lemma maintains_raise {A} (e : error) : maintains P (raise (A := A) e).
Proof. intros s Hp Hc. now split. Qed.

Lemma maintains_read {A} (f : DB -> A) : maintains P (read f).
Proof. intros s Hp Hc. now split. Qed.

Lemma maintains_commit : maintains P commit.
Proof. intros s Hp Hc. now split. Qed.

Lemma maintains_write (f : DB -> DB) :
  (forall d, P d -> P (f d)) -> maintains P (write f).
Proof. intros Hf s Hp Hc. split; [now apply Hf|exact Hc]. Qed.

Lemma maintains_bind {A B} (m : M A) (k : A -> M B) :
  maintains P m -> (forall a, maintains P (k a)) -> maintains P (bind m k).
Proof.
  intros Hm Hk s Hp Hc. unfold bind.
  specialize (Hm s Hp Hc). destruct (m s) as [[e|a] s']; cbn in *.
  - exact Hm.
  - now apply Hk.
Qed.

Lemma maintains_try (m : M unit) : maintains P m -> maintains P (try_except m).
Proof.
  intros Hm s Hp Hc. unfold try_except.
  specialize (Hm s Hp Hc). destruct (m s) as [[e|a] s']; exact Hm.
Qed.

(** What a request stores satisfies what its method maintains. *)
Lemma maintains_request {A} (m : M A) (d : DB) :
  maintains P m -> P d -> P (snd (request m d)).
Proof.
  intros Hm Hd. unfold request.
  specialize (Hm {| pending := d; committed := d |} Hd Hd).
  destruct (m _) as [r s]. exact (proj2 Hm).
Qed.

End Maintains.

Ltac keep :=
  repeat match goal with
    | |- maintains _ (bind _ _) => apply maintains_bind; [|intros ?]
    | |- maintains _ (ret _) => apply maintains_ret
    | |- maintains _ (raise _) => apply maintains_raise
    | |- maintains _ (read _) => apply maintains_read
    | |- maintains _ commit => apply maintains_commit
    | |- maintains _ (try_except _) => apply maintains_try
    | |- maintains _ (if ?c then _ else _) => destruct c
    | |- maintains _ (match ?x with _ => _ end) => destruct x
    end.

(** ** The occupancy invariant *)

Lemma Forall_tbl_put {Row} (key : Row -> Z) (Q : Row -> Prop) (r : Row)
  (t : list Row) :
  Q r -> Forall Q t -> Forall Q (tbl_put key r t).
Proof.
  intros Hr Ht. unfold tbl_put. apply Forall_forall. intros x Hx.
  apply in_map_iff in Hx. destruct Hx as [y [<- Hy]].
  destruct (key y =? key r); [exact Hr|].
  now apply (proj1 (Forall_forall Q t) Ht).
Qed.

Lemma Forall_tbl_delete {Row} (key : Row -> Z) (Q : Row -> Prop) (k : Z)
  (t : list Row) :
  Forall Q t -> Forall Q (tbl_delete key k t).
Proof.
  intros Ht. unfold tbl_delete. apply Forall_forall. intros x Hx.
  apply filter_In in Hx. now apply (proj1 (Forall_forall Q t) Ht).
Qed.

Lemma rooms_ok_save_room (r : Room) :
  room_ok r -> maintains rooms_ok (save_room r).
Proof.
  intros Hr. apply maintains_write. intros d Hd.
  unfold rooms_ok in *. cbn. now apply Forall_tbl_put.
Qed.

(** A write that leaves the rooms table alone. *)
Lemma rooms_ok_write (f : DB -> DB) :
  (forall d, rooms (f d) = rooms d) -> maintains rooms_ok (write f).
Proof.
  intros Hf. apply maintains_write. intros d Hd.
  unfold rooms_ok. now rewrite Hf.
Qed.

Lemma room_ok_vacated (r : Room) (now : Z) :
  room_ok (room_set_occupancy r false None now).
Proof. intros _. reflexivity. Qed.

Lemma room_ok_occupied (r : Room) (g : option Z) (now : Z) :
  room_ok (room_set_occupancy r true g now).
Proof. intros Hocc. discriminate Hocc. Qed.

(** Binding a room that was read: it satisfies the invariant. *)
Lemma rooms_ok_get_room {B} (n : Z) (k : Room -> M B) :
  (forall r, room_ok r -> maintains rooms_ok (k r)) ->
  maintains rooms_ok (bind (get_room n) k).
Proof.
  intros Hk [p c] Hp Hc. cbn [pending committed] in Hp, Hc.
  destruct (tbl_get number n (rooms p)) as [r|] eqn:E.
  - rewrite (bind_ok _ _ _ _ _ (get_room_run n r p c E)).
    apply Hk; [|exact Hp|exact Hc].
    apply tbl_get_In in E.
    now apply (proj1 (Forall_forall room_ok _) Hp).
  - rewrite (bind_err _ _ _ _ _ (get_room_missing n p c E)). now split.
Qed.

Lemma rooms_ok_get_room_any (n : Z) : maintains rooms_ok (get_room n).
Proof. unfold get_room. keep. Qed.

Lemma rooms_ok_create_room (now : Z) (data : RoomCreate) :
  maintains rooms_ok (create_room now data).
Proof.
  unfold create_room. keep.
  apply maintains_write. intros d Hd. unfold rooms_ok in *. cbn.
  apply Forall_app. split; [exact Hd|].
  constructor; [|constructor]. intros _. reflexivity.
Qed.

Lemma rooms_ok_occupy_room (now n g : Z) :
  maintains rooms_ok (occupy_room now n g).
Proof.
  unfold occupy_room. apply maintains_bind; [apply rooms_ok_get_room_any|].
  intros r. keep. apply rooms_ok_save_room, room_ok_occupied.
Qed.

Lemma rooms_ok_vacate_room (now n : Z) : maintains rooms_ok (vacate_room now n).
Proof.
  unfold vacate_room. apply maintains_bind; [apply rooms_ok_get_room_any|].
  intros r. keep. apply rooms_ok_save_room, room_ok_vacated.
Qed.

Lemma rooms_ok_delete_room (n : Z) : maintains rooms_ok (delete_room n).
Proof.
  unfold delete_room. apply maintains_bind; [apply rooms_ok_get_room_any|].
  intros r. keep. apply maintains_write. intros d Hd.
  unfold rooms_ok in *. cbn. now apply Forall_tbl_delete.
Qed.

Lemma rooms_ok_get_booking (id : Z) : maintains rooms_ok (get_booking id).
Proof. unfold get_booking. keep. Qed.

Lemma rooms_ok_get_guest (id : Z) : maintains rooms_ok (get_guest id).
Proof. unfold get_guest. keep. Qed.

Lemma rooms_ok_recalculate_taxes (s : num) (l : list InvoiceTax) :
  forall acc, maintains rooms_ok (recalculate_taxes s l acc).
Proof.
  induction l as [|t l IH]; intros acc; cbn [recalculate_taxes]; keep.
  - now apply rooms_ok_write.
  - apply IH.
Qed.

Lemma rooms_ok_recalculate_discounts (s : num) (l : list InvoiceDiscount) :
  forall acc, maintains rooms_ok (recalculate_discounts s l acc).
Proof.
  induction l as [|x l IH]; intros acc; cbn [recalculate_discounts]; keep.
  - now apply rooms_ok_write.
  - apply IH.
Qed.

Lemma rooms_ok_recalculate (now id : Z) :
  maintains rooms_ok (recalculate_booking_totals now id).
Proof.
  unfold recalculate_booking_totals.
  apply maintains_bind; [apply rooms_ok_get_booking|]. intros b.
  unfold get_line_items, get_taxes, get_discounts. keep.
  - apply rooms_ok_recalculate_taxes.
  - apply rooms_ok_recalculate_discounts.
  - now apply rooms_ok_write.
Qed.

Lemma rooms_ok_create_booking (now : Z) (data : BookingCreate) :
  maintains rooms_ok (create_booking now data).
Proof.
  unfold create_booking.
  apply maintains_bind; [apply rooms_ok_get_guest|]. intros g.
  apply maintains_bind; [apply rooms_ok_get_room_any|]. intros r.
  keep; try (now apply rooms_ok_write).
  apply rooms_ok_save_room, room_ok_occupied.
Qed.

Lemma rooms_ok_checkout_booking (now id : Z) :
  maintains rooms_ok (checkout_booking now id).
Proof.
  unfold checkout_booking.
  apply maintains_bind; [apply rooms_ok_get_booking|]. intros b.
  destruct (is_set (checkout_at b)); [apply maintains_raise|].
  apply maintains_bind; [apply rooms_ok_get_room_any|]. intros r.
  apply maintains_bind; [now apply rooms_ok_write|]. intros _.
  apply maintains_bind; [apply rooms_ok_vacate_room|]. intros _.
  unfold get_line_items.
  apply maintains_bind; [apply maintains_read|]. intros items.
  apply maintains_bind.
  { destruct (find is_room_item items);
      [now apply rooms_ok_write|apply maintains_ret]. }
  intros _.
  apply maintains_bind; [apply rooms_ok_recalculate|]. intros b'. keep.
Qed.

Lemma rooms_ok_delete_all_invoice_items (id : Z) :
  maintains rooms_ok (delete_all_invoice_items id).
Proof.
  unfold delete_all_invoice_items, get_line_items, get_taxes, get_discounts.
  keep; now apply rooms_ok_write.
Qed.

Lemma rooms_ok_delete_booking (now id : Z) :
  maintains rooms_ok (delete_booking now id).
Proof.
  unfold delete_booking.
  apply maintains_bind; [apply rooms_ok_get_booking|]. intros b.
  apply maintains_bind.
  { destruct (negb (is_set (checkout_at b))); [|apply maintains_ret].
    apply maintains_try.
    apply maintains_bind; [apply rooms_ok_vacate_room|].
    intros _. apply maintains_ret. }
  intros _.
  apply maintains_bind; [apply rooms_ok_delete_all_invoice_items|].
  intros _. keep. now apply rooms_ok_write.
Qed.

(** [update_room] when the request sends neither [occupied] nor
    [current_guest_id]. *)
Lemma rooms_ok_update_room (now n : Z) (data : RoomUpdate) :
  ru_occupied data = None ->
  ru_current_guest_id data = None ->
  maintains rooms_ok (update_room now n data).
Proof.
  intros Ho Hg. unfold update_room. apply rooms_ok_get_room.
  intros r Hr. keep. apply rooms_ok_save_room.
  unfold room_ok, room_set_updated_at, room_apply_update. cbn.
  rewrite Ho, Hg. exact Hr.
Qed.

(** C6, as the code has it.  When every stored room that is vacant has
    no current guest, the same holds of the database each of
    [create_room], [occupy_room], [vacate_room], [delete_room],
    [create_booking], [checkout_booking] and [delete_booking] leaves,
    whether the call returns or raises; and of the one [update_room]
    leaves when the request sends neither [occupied] nor
    [current_guest_id]. *)
Theorem occupancy_invariant_preserved (d : DB) :
  rooms_ok d ->
  (forall now data, rooms_ok (snd (request (create_room now data) d))) /\
  (forall now n g, rooms_ok (snd (request (occupy_room now n g) d))) /\
  (forall now n, rooms_ok (snd (request (vacate_room now n) d))) /\
  (forall n, rooms_ok (snd (request (delete_room n) d))) /\
  (forall now data, rooms_ok (snd (request (create_booking now data) d))) /\
  (forall now id, rooms_ok (snd (request (checkout_booking now id) d))) /\
  (forall now id, rooms_ok (snd (request (delete_booking now id) d))) /\
  (forall now n data,
     ru_occupied data = None ->
     ru_current_guest_id data = None ->
     rooms_ok (snd (request (update_room now n data) d))).
Proof.
  intros Hd. repeat split; intros; apply maintains_request; trivial.
  - apply rooms_ok_create_room.
  - apply rooms_ok_occupy_room.
  - apply rooms_ok_vacate_room.
  - apply rooms_ok_delete_room.
  - apply rooms_ok_create_booking.
  - apply rooms_ok_checkout_booking.
  - apply rooms_ok_delete_booking.
  - now apply rooms_ok_update_room.
Qed.

(** * Further properties of the services *)

(** ** RoomService *)

Lemma tbl_put_put {Row} (key : Row -> Z) (r1 r2 : Row) (t : list Row) :
  key r1 = key r2 ->
  tbl_put key r2 (tbl_put key r1 t) = tbl_put key r2 t.
Proof.
  intros Hk. unfold tbl_put. rewrite map_map. apply map_ext. intros a.
  destruct (Z.eqb_spec (key a) (key r1)) as [E|E].
  - rewrite Hk, Z.eqb_refl. rewrite <- Hk, E. now rewrite Z.eqb_refl.
  - reflexivity.
Qed.

Lemma occupy_room_run (now n g : Z) (r : Room) (d c : DB) :
  tbl_get number n (rooms d) = Some r ->
  occupied r = false ->
  occupy_room now n g {| pending := d; committed := c |} =
  (inr (room_set_occupancy r true (Some g) now),
   {| pending :=
        on_rooms (tbl_put number (room_set_occupancy r true (Some g) now)) d;
      committed :=
        on_rooms (tbl_put number (room_set_occupancy r true (Some g) now)) d
   |}).
Proof.
  intros Hr Hocc. unfold occupy_room. step get_room_run.
  rewrite Hocc. reflexivity.
Qed.

(** X1.  [occupy_room] raises [NotFoundError] for a number that is not
    stored and [ConflictError] for a room that is occupied, changing
    nothing; on a vacant room it stores [occupied = True] and the guest,
    returns the stored row, and leaves every other room as it was. *)
Theorem occupy_room_contract (now n g : Z) (d : DB) :
  (tbl_get number n (rooms d) = None ->
   request (occupy_room now n g) d = (inl NotFoundError, d)) /\
  (forall r : Room,
     tbl_get number n (rooms d) = Some r -> occupied r = true ->
     request (occupy_room now n g) d = (inl ConflictError, d)) /\
  (forall r : Room,
     tbl_get number n (rooms d) = Some r -> occupied r = false ->
     exists (r' : Room) (d' : DB),
       request (occupy_room now n g) d = (inr r', d') /\
       tbl_get number n (rooms d') = Some r' /\
       occupied r' = true /\ current_guest_id r' = Some g /\
       number r' = number r /\ room_type r' = room_type r /\
       rate_per_night r' = rate_per_night r /\
       (forall m, m <> n ->
          tbl_get number m (rooms d') = tbl_get number m (rooms d)) /\
       bookings d' = bookings d /\ guests d' = guests d /\
       line_items d' = line_items d).
Proof.
  split; [|split].
  - intros Hr. eapply request_run. unfold occupy_room.
    stop get_room_missing. reflexivity.
  - intros r Hr Hocc. eapply request_run. unfold occupy_room.
    step get_room_run. rewrite Hocc. reflexivity.
  - intros r Hr Hocc. pose proof (tbl_get_key _ _ _ _ _ Hr) as Hk.
    do 2 eexists. split.
    { eapply request_run. eapply occupy_room_run; eassumption. }
    cbn [rooms on_rooms bookings guests line_items].
    split; [eapply tbl_get_put; [exact Hr|exact Hk]|].
    repeat split; try reflexivity.
    intros m Hm. apply tbl_get_put_other. cbn. congruence.
Qed.

(** X2.  [vacate_room] raises [NotFoundError] for a number that is not
    stored and [ConflictError] for a room that is vacant, changing
    nothing; on an occupied room it stores [occupied = False] and no
    guest, and leaves every other room as it was. *)
Theorem vacate_room_contract (now n : Z) (d : DB) :
  (tbl_get number n (rooms d) = None ->
   request (vacate_room now n) d = (inl NotFoundError, d)) /\
  (forall r : Room,
     tbl_get number n (rooms d) = Some r -> occupied r = false ->
     request (vacate_room now n) d = (inl ConflictError, d)) /\
  (forall r : Room,
     tbl_get number n (rooms d) = Some r -> occupied r = true ->
     exists (r' : Room) (d' : DB),
       request (vacate_room now n) d = (inr r', d') /\
       tbl_get number n (rooms d') = Some r' /\
       occupied r' = false /\ current_guest_id r' = None /\
       number r' = number r /\ room_type r' = room_type r /\
       rate_per_night r' = rate_per_night r /\
       (forall m, m <> n ->
          tbl_get number m (rooms d') = tbl_get number m (rooms d)) /\
       bookings d' = bookings d /\ guests d' = guests d /\
       line_items d' = line_items d).
Proof.
  split; [|split].
  - intros Hr. eapply request_run. unfold vacate_room.
    stop get_room_missing. reflexivity.
  - intros r Hr Hocc. eapply request_run.
    now apply (vacate_room_vacant now n r).
  - intros r Hr Hocc. pose proof (tbl_get_key _ _ _ _ _ Hr) as Hk.
    do 2 eexists. split.
    { eapply request_run. eapply vacate_room_run; eassumption. }
    cbn [rooms on_rooms bookings guests line_items].
    split; [eapply tbl_get_put; [exact Hr|exact Hk]|].
    repeat split; try reflexivity.
    intros m Hm. apply tbl_get_put_other. cbn. congruence.
Qed.

(** X3.  Occupying a vacant room and vacating it again leaves the rooms
    table as a single write of the vacated row would: the room is vacant
    with no guest, and only its [updated_at] tells the two requests
    happened.  In between, a second [occupy_room] is refused. *)
Theorem occupy_then_vacate (t1 t2 n g g' : Z) (d : DB) (r : Room) :
  tbl_get number n (rooms d) = Some r ->
  occupied r = false ->
  exists (d1 d2 : DB) (r1 r2 : Room),
    request (occupy_room t1 n g) d = (inr r1, d1) /\
    request (occupy_room t2 n g') d1 = (inl ConflictError, d1) /\
    request (vacate_room t2 n) d1 = (inr r2, d2) /\
    r2 = room_set_occupancy r false None t2 /\
    d2 = on_rooms (tbl_put number r2) d.
Proof.
  intros Hr Hocc. pose proof (tbl_get_key _ _ _ _ _ Hr) as Hk.
  set (r1 := room_set_occupancy r true (Some g) t1).
  set (d1 := on_rooms (tbl_put number r1) d).
  assert (Hr1 : tbl_get number n (rooms d1) = Some r1)
    by (cbn; eapply tbl_get_put; [exact Hr|exact Hk]).
  exists d1, (on_rooms (tbl_put number (room_set_occupancy r false None t2)) d),
    r1, (room_set_occupancy r false None t2).
  split; [eapply request_run; exact (occupy_room_run t1 n g r d d Hr Hocc)|].
  split.
  { eapply request_run. unfold occupy_room. step get_room_run. reflexivity. }
  split; [|split; reflexivity].
  eapply request_run.
  rewrite (vacate_room_run t2 n r1 d1 d1 Hr1 eq_refl).
  unfold d1, on_rooms. cbn [rooms guests bookings line_items taxes discounts].
  rewrite tbl_put_put by reflexivity. reflexivity.
Qed.

(** X4.  [create_room] refuses a number that is stored already with
    [ConflictError] and changes nothing; otherwise it stores the room
    vacant, with no guest, under its number, where [get_room] finds it,
    after the rooms that were there, which all stay as they were. *)
Theorem create_room_contract (now : Z) (data : RoomCreate) (d : DB) :
  (forall r : Room,
     tbl_get number (rc_number data) (rooms d) = Some r ->
     request (create_room now data) d = (inl ConflictError, d)) /\
  (tbl_get number (rc_number data) (rooms d) = None ->
   exists (r' : Room) (d' : DB),
     request (create_room now data) d = (inr r', d') /\
     rooms d' = rooms d ++ [r'] /\
     request (get_room (rc_number data)) d' = (inr r', d') /\
     number r' = rc_number data /\
     room_type r' = rc_room_type data /\
     rate_per_night r' = rc_rate_per_night data /\
     occupied r' = false /\ current_guest_id r' = None /\
     (forall m r, tbl_get number m (rooms d) = Some r ->
                  tbl_get number m (rooms d') = Some r)).
Proof.
  split.
  - intros r Hr. eapply request_run. unfold create_room. run.
    rewrite Hr. reflexivity.
  - intros Hr. do 2 eexists. split.
    { eapply request_run. unfold create_room. run. rewrite Hr.
      cbn [is_set]. run. reflexivity. }
    split; [reflexivity|]. split.
    { eapply request_run. apply get_room_run.
      cbn [rooms on_rooms]. rewrite tbl_get_app, Hr.
      unfold tbl_get. cbn. now rewrite Z.eqb_refl. }
    repeat split; try reflexivity.
    intros m r Hm. cbn [rooms on_rooms]. now apply tbl_get_app_old.
Qed.

(** X5.  [delete_room] raises [NotFoundError] for a number that is not
    stored and [ConflictError] for an occupied room, changing nothing.
    A vacant room that a booking still names, be it checked out, cannot
    be deleted: the flush raises [IntegrityError] and nothing is
    stored.  A vacant room that no booking names is removed, after
    which [get_room] raises [NotFoundError] for its number and reads
    every other number as before. *)
Theorem delete_room_contract (n : Z) (d : DB) :
  (tbl_get number n (rooms d) = None ->
   request (delete_room n) d = (inl NotFoundError, d)) /\
  (forall r : Room,
     tbl_get number n (rooms d) = Some r -> occupied r = true ->
     request (delete_room n) d = (inl ConflictError, d)) /\
  (forall (r : Room) (b : Booking),
     tbl_get number n (rooms d) = Some r -> occupied r = false ->
     In b (bookings d) -> room_number b = n ->
     request (delete_room n) d = (inl IntegrityError, d)) /\
  (forall r : Room,
     tbl_get number n (rooms d) = Some r -> occupied r = false ->
     (forall b : Booking, In b (bookings d) -> room_number b <> n) ->
     exists d' : DB,
       request (delete_room n) d = (inr tt, d') /\
       request (get_room n) d' = (inl NotFoundError, d') /\
       (forall m, m <> n ->
          tbl_get number m (rooms d') = tbl_get number m (rooms d)) /\
       bookings d' = bookings d /\ line_items d' = line_items d).
Proof.
  split; [|split; [|split]].
  - intros Hr. eapply request_run. unfold delete_room.
    stop get_room_missing. reflexivity.
  - intros r Hr Hocc. eapply request_run. unfold delete_room.
    step get_room_run. rewrite Hocc. reflexivity.
  - intros r b Hr Hocc Hin Hn.
    pose proof (tbl_get_key _ _ _ _ _ Hr) as Hk.
    eapply request_run. unfold delete_room.
    step get_room_run. rewrite Hocc. run.
    unfold room_bookings. cbn [bookings on_rooms].
    destruct (filter (fun b0 => room_number b0 =? number r) (bookings d))
      as [|b0 l] eqn:Hf; [|reflexivity].
    exfalso.
    assert (Hb : In b (filter (fun b0 => room_number b0 =? number r)
                         (bookings d))).
    { apply filter_In. split; [exact Hin|]. apply Z.eqb_eq. congruence. }
    rewrite Hf in Hb. exact Hb.
  - intros r Hr Hocc Hfree. pose proof (tbl_get_key _ _ _ _ _ Hr) as Hk.
    assert (Hf : filter (fun b0 => room_number b0 =? number r) (bookings d)
                 = []).
    { destruct (filter (fun b0 => room_number b0 =? number r) (bookings d))
        as [|b0 l] eqn:Hf; [reflexivity|].
      assert (Hb : In b0 (b0 :: l)) by now left.
      rewrite <- Hf in Hb. apply filter_In in Hb. destruct Hb as [Hin Hb].
      apply Z.eqb_eq in Hb. exfalso. apply (Hfree b0 Hin). congruence. }
    eexists. split.
    { eapply request_run. unfold delete_room.
      step get_room_run. rewrite Hocc. run.
      unfold room_bookings. cbn [bookings on_rooms]. rewrite Hf.
      reflexivity. }
    cbn [rooms on_rooms bookings line_items]. rewrite Hk.
    split.
    { eapply request_run. apply get_room_missing. cbn [rooms].
      apply tbl_get_delete. }
    repeat split; try reflexivity.
    intros m Hm. apply tbl_get_delete_other. congruence.
Qed.

(** X6.  [update_room] raises [NotFoundError] for a number that is not
    stored.  Otherwise it overwrites exactly the fields the request
    sent: a field left out keeps its value, the number, the notes and
    [created_at] cannot be changed, [updated_at] becomes [now], and no
    other room is written. *)
Theorem update_room_contract (now n : Z) (data : RoomUpdate) (d : DB) :
  (tbl_get number n (rooms d) = None ->
   request (update_room now n data) d = (inl NotFoundError, d)) /\
  (forall r : Room,
     tbl_get number n (rooms d) = Some r ->
     exists (r' : Room) (d' : DB),
       request (update_room now n data) d = (inr r', d') /\
       tbl_get number n (rooms d') = Some r' /\
       number r' = number r /\ notes r' = notes r /\
       r_created_at r' = r_created_at r /\ r_updated_at r' = Some now /\
       room_type r' =
         match ru_room_type data with Some v => v | None => room_type r end /\
       occupied r' =
         match ru_occupied data with Some v => v | None => occupied r end /\
       current_guest_id r' =
         match ru_current_guest_id data with
         | Some v => v | None => current_guest_id r end /\
       rate_per_night r' =
         match ru_rate_per_night data with
         | Some v => v | None => rate_per_night r end /\
       (forall m, m <> n ->
          tbl_get number m (rooms d') = tbl_get number m (rooms d)) /\
       bookings d' = bookings d /\ guests d' = guests d).
Proof.
  split.
  - intros Hr. eapply request_run. unfold update_room.
    stop get_room_missing. reflexivity.
  - intros r Hr. pose proof (tbl_get_key _ _ _ _ _ Hr) as Hk.
    do 2 eexists. split.
    { eapply request_run. unfold update_room. step get_room_run.
      reflexivity. }
    cbn [rooms on_rooms bookings guests].
    split; [eapply tbl_get_put; [exact Hr|exact Hk]|].
    repeat split; try reflexivity.
    intros m Hm. apply tbl_get_put_other. cbn. congruence.
Qed.

(** ** BookingService: check-in and update *)

(** X7.  [checkin_booking] never checks a booking in.  A stored booking
    always carries a [checkin_at] (the column is not nullable and
    [create_booking] sets it), a [datetime] is never falsy, so the guard
    raises [ConflictError] for every stored booking; a missing one gives
    [NotFoundError].  No call writes anything. *)
Theorem checkin_booking_never_succeeds (now id : Z) (d : DB) :
  (forall b : Booking,
     tbl_get bk_id id (bookings d) = Some b ->
     request (checkin_booking now id) d = (inl ConflictError, d)) /\
  (tbl_get bk_id id (bookings d) = None ->
   request (checkin_booking now id) d = (inl NotFoundError, d)) /\
  (forall (b : Booking) (d' : DB),
     request (checkin_booking now id) d <> (inr b, d')).
Proof.
  assert (Hsome : forall b, tbl_get bk_id id (bookings d) = Some b ->
            request (checkin_booking now id) d = (inl ConflictError, d)).
  { intros b Hb. eapply request_run. unfold checkin_booking.
    step get_booking_run. reflexivity. }
  assert (Hnone : tbl_get bk_id id (bookings d) = None ->
            request (checkin_booking now id) d = (inl NotFoundError, d)).
  { intros Hb. eapply request_run. unfold checkin_booking.
    stop get_booking_missing. reflexivity. }
  split; [exact Hsome|]. split; [exact Hnone|].
  intros b d'. destruct (tbl_get bk_id id (bookings d)) as [b0|] eqn:E.
  - rewrite (Hsome b0 eq_refl). discriminate.
  - rewrite (Hnone eq_refl). discriminate.
Qed.

(** X8.  Whatever the request carries, [update_booking] writes one
    booking row and nothing else: a missing booking gives
    [NotFoundError]; otherwise the rooms, guests, line items, taxes and
    discounts are as before, the booking keeps its four totals, its
    guest, its room and [checkin_at], and no room is ever vacated. *)
Theorem update_booking_writes_one_row
  (now id : Z) (data : BookingUpdate) (d : DB) :
  (tbl_get bk_id id (bookings d) = None ->
   request (update_booking now id data) d = (inl NotFoundError, d)) /\
  (forall b : Booking,
     tbl_get bk_id id (bookings d) = Some b ->
     exists (b' : Booking) (d' : DB),
       request (update_booking now id data) d = (inr b', d') /\
       tbl_get bk_id id (bookings d') = Some b' /\
       rooms d' = rooms d /\ guests d' = guests d /\
       line_items d' = line_items d /\ taxes d' = taxes d /\
       discounts d' = discounts d /\
       (forall m, m <> id ->
          tbl_get bk_id m (bookings d') = tbl_get bk_id m (bookings d)) /\
       guest_id b' = guest_id b /\ room_number b' = room_number b /\
       checkin_at b' = checkin_at b /\
       subtotal b' = subtotal b /\ tax_total b' = tax_total b /\
       discount_total b' = discount_total b /\
       grand_total b' = grand_total b /\
       checkout_at b' =
         match bu_checkout_at data with
         | Some v => v | None => checkout_at b end /\
       price b' =
         match bu_price data with Some v => v | None => price b end).
Proof.
  split.
  - intros Hb. eapply request_run. unfold update_booking.
    stop get_booking_missing. reflexivity.
  - intros b Hb. pose proof (tbl_get_key _ _ _ _ _ Hb) as Hk.
    set (b1 := booking_apply_update b data).
    assert (Hdead : is_set (attr (bu_checkout_at data))
                    && negb (is_set (checkout_at b1)) = false).
    { unfold b1, booking_apply_update.
      destruct (bu_checkout_at data) as [[t|]|], (bu_price data);
        reflexivity. }
    assert (Hk1 : bk_id b1 = id)
      by (unfold b1; now rewrite booking_apply_update_key).
    exists (booking_set_updated_at b1 now). eexists. split.
    { eapply request_run. unfold update_booking.
      step get_booking_run. fold b1. rewrite Hdead. run. reflexivity. }
    cbn [bookings rooms guests line_items taxes discounts on_bookings].
    split.
    { eapply tbl_get_put; [|exact Hk1].
      eapply tbl_get_put; [exact Hb|exact Hk1]. }
    repeat split; try reflexivity;
      try (unfold b1, booking_apply_update;
           destruct (bu_checkout_at data), (bu_price data); reflexivity).
    intros m Hm. rewrite !tbl_get_put_other; [reflexivity| |];
      cbn; congruence.
Qed.

(** ** BookingService: deleting a booking *)

Lemma filter_filter {A} (f g : A -> bool) (l : list A) :
  filter f (filter g l) = filter (fun x => g x && f x) l.
Proof.
  induction l as [|a l IH]; cbn; [reflexivity|].
  destruct (g a); cbn; [destruct (f a)|]; now rewrite IH.
Qed.

(** Deleting the rows of [l] one by one keeps the rows whose key no row
    of [l] carries. *)
Lemma delete_each {Row} (key : Row -> Z) (l : list Row) :
  forall t : list Row,
    fold_left (fun t r => tbl_delete key (key r) t) l t =
    filter (fun r => negb (hit key l r)) t.
Proof.
  induction l as [|a l IH]; intros t; cbn [fold_left].
  - cbn. symmetry. apply forallb_filter_id. now apply forallb_forall.
  - rewrite IH. unfold tbl_delete. rewrite filter_filter.
    apply filter_ext. intros r. unfold hit. cbn [existsb].
    rewrite (Z.eqb_sym (key a) (key r)), negb_orb. reflexivity.
Qed.

(** Deleting every selected row leaves none selected. *)
Lemma delete_selected_none {Row} (key : Row -> Z) (sel : Row -> bool)
  (t : list Row) :
  filter sel
    (fold_left (fun t r => tbl_delete key (key r) t) (filter sel t) t) = [].
Proof.
  rewrite delete_each, filter_filter.
  rewrite <- (filter_ext_in (fun _ => false)).
  - induction t as [|a t IH]; cbn; [reflexivity|exact IH].
  - intros r Hr. destruct (sel r) eqn:Es; [|now rewrite andb_false_r].
    rewrite andb_true_r. symmetry. apply negb_false_iff.
    unfold hit. apply existsb_exists. exists r. split.
    + apply filter_In. tauto.
    + apply Z.eqb_refl.
Qed.

(** Under a primary key, deleting the selected rows leaves the rows
    another selection picks, when the two selections are disjoint. *)
Lemma delete_selected_other {Row} (key : Row -> Z) (sel sel' : Row -> bool)
  (t : list Row) :
  unique_keys key t ->
  (forall r, sel' r = true -> sel r = false) ->
  filter sel'
    (fold_left (fun t r => tbl_delete key (key r) t) (filter sel t) t) =
  filter sel' t.
Proof.
  intros Hu Hd. rewrite delete_each, filter_filter.
  apply filter_ext_in. intros r Hr.
  destruct (sel' r) eqn:Es; [|now rewrite andb_false_r].
  rewrite andb_true_r. apply negb_true_iff.
  rewrite (hit_filter _ key sel t r Hu Hr).
  now apply Hd.
Qed.

Lemma delete_all_invoice_items_run (id : Z) (d c : DB) :
  delete_all_invoice_items id {| pending := d; committed := c |} =
  (inr tt,
   let d' :=
     on_discounts
       (fun t => fold_left (fun t x => tbl_delete disc_id (disc_id x) t)
                   (select_discounts id d) t)
       (on_taxes
          (fun t => fold_left (fun t x => tbl_delete tax_id (tax_id x) t)
                      (select_taxes id d) t)
          (on_line_items
             (fun t => fold_left (fun t x => tbl_delete li_id (li_id x) t)
                         (select_line_items id d) t) d)) in
   {| pending := d'; committed := d' |}).
Proof. reflexivity. Qed.

Lemma release_run (now : Z) (b : Booking) (d c : DB) :
  exists c' : DB,
    (if negb (is_set (checkout_at b))
     then try_except
            (bind (vacate_room now (room_number b)) (fun _ => ret tt))
     else ret tt) {| pending := d; committed := c |} =
    (inr tt,
     {| pending := on_rooms (fun _ => rooms_after_release now b d) d;
        committed := c' |}).
Proof.
  unfold rooms_after_release.
  destruct (checkout_at b) as [co|]; cbn [is_set negb].
  - exists c. destruct d. reflexivity.
  - unfold try_except.
    destruct (tbl_get number (room_number b) (rooms d)) as [r|] eqn:Hr.
    + destruct (occupied r) eqn:Hocc.
      * eexists.
        rewrite (bind_ok _ _ _ _ _
                   (vacate_room_run now _ r d c Hr Hocc)).
        reflexivity.
      * exists c.
        rewrite (bind_err _ _ _ _ _
                   (vacate_room_vacant now _ r d c Hr Hocc)).
        destruct d. reflexivity.
    + exists c.
      assert (Hv : vacate_room now (room_number b)
                     {| pending := d; committed := c |} =
                   (inl NotFoundError, {| pending := d; committed := c |})).
      { unfold vacate_room.
        now rewrite (bind_err _ _ _ _ _ (get_room_missing _ d c Hr)). }
      rewrite (bind_err _ _ _ _ _ Hv). destruct d. reflexivity.
Qed.

(** X9.  [delete_booking] raises [NotFoundError] for a missing booking.
    For a stored one it always goes through: the booking can no longer
    be read, none of its line items, taxes and discounts is left, every
    other booking row is untouched, and the room is vacated exactly when
    the booking was active and its room stored and occupied (a failing
    [vacate_room] does not stop the deletion).  Under the primary keys
    of the three invoice tables the rows of other bookings stay. *)
Theorem delete_booking_contract (now id : Z) (d : DB) :
  (tbl_get bk_id id (bookings d) = None ->
   request (delete_booking now id) d = (inl NotFoundError, d)) /\
  (forall b : Booking,
     tbl_get bk_id id (bookings d) = Some b ->
     exists d' : DB,
       request (delete_booking now id) d = (inr tt, d') /\
       request (get_booking id) d' = (inl NotFoundError, d') /\
       select_line_items id d' = [] /\
       select_taxes id d' = [] /\
       select_discounts id d' = [] /\
       rooms d' = rooms_after_release now b d /\
       guests d' = guests d /\
       (forall m, m <> id ->
          tbl_get bk_id m (bookings d') = tbl_get bk_id m (bookings d)) /\
       (forall m, m <> id ->
          (unique_keys li_id (line_items d) ->
           select_line_items m d' = select_line_items m d) /\
          (unique_keys tax_id (taxes d) ->
           select_taxes m d' = select_taxes m d) /\
          (unique_keys disc_id (discounts d) ->
           select_discounts m d' = select_discounts m d))).
Proof.
  split.
  - intros Hb. eapply request_run. unfold delete_booking.
    stop get_booking_missing. reflexivity.
  - intros b Hb. pose proof (tbl_get_key _ _ _ _ _ Hb) as Hk.
    destruct (release_run now b d d) as [c' Hrel].
    eexists. split.
    { eapply request_run. unfold delete_booking.
      step get_booking_run.
      rewrite (bind_ok _ _ _ _ _ Hrel).
      rewrite (bind_ok _ _ _ _ _ (delete_all_invoice_items_run id _ _)).
      cbv zeta. run. reflexivity. }
    cbn [bookings rooms guests line_items taxes discounts select_line_items
         select_taxes select_discounts on_bookings on_rooms on_line_items
         on_taxes on_discounts].
    split.
    { eapply request_run. apply get_booking_missing. cbn [bookings].
      rewrite Hk. apply tbl_get_delete. }
    split; [apply delete_selected_none|].
    split; [apply delete_selected_none|].
    split; [apply delete_selected_none|].
    split; [reflexivity|]. split; [reflexivity|].
    split.
    { intros m Hm. apply tbl_get_delete_other. congruence. }
    intros m Hm.
    assert (Hdis : forall a b0 : Z, (a =? m) = true -> (a =? id) = false).
    { intros a _ Ha. apply Z.eqb_eq in Ha. apply Z.eqb_neq. congruence. }
    repeat split; intros Hu; apply delete_selected_other; trivial;
      intros r Hr; exact (Hdis _ 0 Hr).
Qed.

(** ** BookingService: adding charges *)

Lemma sum_amounts_app (l : list InvoiceLineItem) (i : InvoiceLineItem) :
  sum_amounts (l ++ [i]) = fadd (sum_amounts l) (li_amount i).
Proof. unfold sum_amounts. now rewrite fold_left_app. Qed.

(** The line items of a booking once a row was appended to the table. *)
Lemma select_line_items_insert (id : Z) (d : DB) (i : InvoiceLineItem) :
  select_line_items id (on_line_items (fun t => t ++ [i]) d) =
  select_line_items id d ++
  (if li_booking_id i =? id then [i] else []).
Proof.
  unfold select_line_items. cbn [line_items on_line_items].
  rewrite filter_app. cbn. now destruct (li_booking_id i =? id).
Qed.

(** X10.  [add_invoice_item] stores one new line item with
    [amount = quantity * unit_price] after the rows that were there.
    For a stored booking it then recalculates: the stored subtotal is
    the sum over the booking's earlier items plus the new amount.  For a
    booking that is not stored it raises [NotFoundError] after the
    insert was committed: the new row stays, attached to no booking. *)
Theorem add_invoice_item_contract
  (now id : Z) (data : InvoiceLineItemCreate) (d : DB) :
  let item :=
    {| li_id := tbl_next_id li_id (line_items d);
       li_booking_id := id;
       description := ic_description data;
       quantity := ic_quantity data;
       unit_price := ic_unit_price data;
       li_amount := fmul (ic_quantity data) (ic_unit_price data);
       item_type := ic_item_type data;
       li_created_at := now;
       li_updated_at := None |} in
  (forall b : Booking,
     tbl_get bk_id id (bookings d) = Some b ->
     exists (b' : Booking) (d' : DB),
       request (add_invoice_item now id data) d = (inr b', d') /\
       line_items d' = line_items d ++ [item] /\
       select_line_items id d' = select_line_items id d ++ [item] /\
       tbl_get li_id (li_id item) (line_items d') = Some item /\
       tbl_get bk_id id (bookings d') = Some b' /\
       subtotal b' =
         Some (fadd (sum_amounts (select_line_items id d))
                 (fmul (ic_quantity data) (ic_unit_price data))) /\
       exists s t x : num,
         subtotal b' = Some s /\ tax_total b' = Some t /\
         discount_total b' = Some x /\
         grand_total b' = Some (fsub (fadd s t) x)) /\
  (tbl_get bk_id id (bookings d) = None ->
   exists d' : DB,
     request (add_invoice_item now id data) d = (inl NotFoundError, d') /\
     line_items d' = line_items d ++ [item] /\
     bookings d' = bookings d /\ taxes d' = taxes d /\
     discounts d' = discounts d /\ rooms d' = rooms d).
Proof.
  intros item. split.
  - intros b Hb. pose proof (tbl_get_key _ _ _ _ _ Hb) as Hk.
    set (d1 := on_line_items (fun t => t ++ [item]) d).
    assert (Hsel : select_line_items id d1 = select_line_items id d ++ [item]).
    { unfold d1. rewrite select_line_items_insert. cbn [li_booking_id item].
      now rewrite Z.eqb_refl. }
    exists (recalculated_booking now b d1), (recalculated_db now b d1).
    split.
    { eapply request_run. unfold add_invoice_item, insert_line_item. run.
      fold item. fold d1.
      erewrite bind_ok by (apply recalculate_run; exact Hb).
      apply get_booking_run. rewrite <- Hk. apply recalculated_row.
      rewrite Hk. exact Hb. }
    split; [reflexivity|].
    split; [exact Hsel|].
    split; [now apply (tbl_get_insert _ li_id (line_items d) item)|].
    split; [rewrite <- Hk; apply recalculated_row; now rewrite Hk|].
    split.
    { cbn [subtotal recalculated_booking booking_set_updated_at
           booking_set_totals]. rewrite Hk, Hsel, sum_amounts_app.
      reflexivity. }
    do 3 eexists. repeat split; reflexivity.
  - intros Hb. eexists. split.
    { eapply request_run. unfold add_invoice_item, insert_line_item. run.
      fold item.
      erewrite bind_err; [reflexivity|].
      unfold recalculate_booking_totals.
      erewrite bind_err; [reflexivity|].
      apply get_booking_missing. exact Hb. }
    repeat split; reflexivity.
Qed.

(** X11.  [add_line_item] looks the booking up before it writes: for a
    booking that is not stored it raises [NotFoundError] and nothing is
    stored.  For a stored booking it leaves the database
    [add_invoice_item] leaves and returns the row it stored. *)
Theorem add_line_item_contract
  (now id : Z) (data : InvoiceLineItemCreate) (d : DB) :
  (tbl_get bk_id id (bookings d) = None ->
   request (add_line_item now id (ic_description data) (ic_quantity data)
              (ic_unit_price data) (ic_item_type data)) d =
   (inl NotFoundError, d)) /\
  (forall b : Booking,
     tbl_get bk_id id (bookings d) = Some b ->
     exists (item : InvoiceLineItem) (d' : DB),
       request (add_line_item now id (ic_description data) (ic_quantity data)
                  (ic_unit_price data) (ic_item_type data)) d =
       (inr item, d') /\
       snd (request (add_invoice_item now id data) d) = d' /\
       tbl_get li_id (li_id item) (line_items d') = Some item /\
       li_booking_id item = id /\
       li_amount item = fmul (ic_quantity data) (ic_unit_price data)).
Proof.
  split.
  - intros Hb. eapply request_run. unfold add_line_item.
    stop get_booking_missing. reflexivity.
  - intros b Hb. pose proof (tbl_get_key _ _ _ _ _ Hb) as Hk.
    do 2 eexists. split.
    { eapply request_run. unfold add_line_item, insert_line_item.
      step get_booking_run.
      erewrite bind_ok by (apply recalculate_run; exact Hb).
      reflexivity. }
    split.
    { erewrite request_run; [reflexivity|].
      unfold add_invoice_item, insert_line_item. run.
      erewrite bind_ok by (apply recalculate_run; exact Hb).
      apply get_booking_run. rewrite <- Hk. apply recalculated_row.
      rewrite Hk. exact Hb. }
    split.
    { cbn [line_items recalculated_db on_bookings on_discounts on_taxes
           on_line_items].
      now apply (tbl_get_insert _ li_id (line_items d)). }
    split; reflexivity.
Qed.

Lemma unique_keys_insert {Row} (key : Row -> Z) (t : list Row) (r : Row) :
  unique_keys key t -> key r = tbl_next_id key t ->
  unique_keys key (t ++ [r]).
Proof.
  unfold unique_keys. intros Hu Hk. rewrite map_app. cbn.
  apply NoDup_app.
  - exact Hu.
  - constructor; [intros []|constructor].
  - intros a Ha [<-|[]]. apply in_map_iff in Ha.
    destruct Ha as [x [Hx Hin]].
    pose proof (tbl_next_id_fresh _ key t x Hin). lia.
Qed.

Lemma tbl_next_id_keys {Row} (key : Row -> Z) (t t' : list Row) :
  map key t' = map key t -> tbl_next_id key t' = tbl_next_id key t.
Proof. intros Hk. unfold tbl_next_id. now rewrite Hk. Qed.

Lemma recalculated_taxes_keys (now : Z) (b : Booking) (d : DB) :
  map tax_id (taxes (recalculated_db now b d)) = map tax_id (taxes d).
Proof.
  unfold recalculated_db. cbn [taxes on_bookings on_discounts on_taxes].
  apply flush_keys.
Qed.

Lemma recalculated_discounts_keys (now : Z) (b : Booking) (d : DB) :
  map disc_id (discounts (recalculated_db now b d)) =
  map disc_id (discounts d).
Proof.
  unfold recalculated_db. cbn [discounts on_bookings on_discounts on_taxes].
  apply flush_keys.
Qed.

Lemma retax_retax (s s' : num) (t : InvoiceTax) :
  retax s (retax s' t) = retax s t.
Proof. reflexivity. Qed.

Lemma rebase_rebase (s s' : num) (x : InvoiceDiscount) :
  rebase_discount s (rebase_discount s' x) = rebase_discount s x.
Proof.
  unfold rebase_discount.
  destruct (percentage x) as [p|] eqn:E; cbn; rewrite ?E; reflexivity.
Qed.

(** A recalculation of booking [b] after a tax row of that booking was
    appended: the rows of the booking and the appended row as stored. *)
Lemma recalculated_after_tax_insert (now : Z) (b : Booking) (d : DB)
  (tax : InvoiceTax) :
  unique_keys tax_id (taxes d) ->
  tax_id tax = tbl_next_id tax_id (taxes d) ->
  tax_booking_id tax = bk_id b ->
  let s := sum_amounts (select_line_items (bk_id b) d) in
  let d' := recalculated_db now b (on_taxes (fun t => t ++ [tax]) d) in
  select_taxes (bk_id b) d' =
    map (retax s) (select_taxes (bk_id b) d) ++ [retax s tax] /\
  tbl_get tax_id (tax_id tax) (taxes d') = Some (retax s tax).
Proof.
  intros Hu Hk Hown s.
  set (d1 := on_taxes (fun t => t ++ [tax]) d). intros d'.
  assert (Hu1 : unique_keys tax_id (taxes d1))
    by (cbn; now apply unique_keys_insert).
  split.
  - unfold d'. rewrite (recalculated_taxes now (bk_id b) b d1 Hu1).
    rewrite Z.eqb_refl. unfold select_taxes at 1. cbn [d1 taxes on_taxes].
    rewrite filter_app, map_app. cbn [filter]. rewrite Hown, Z.eqb_refl.
    reflexivity.
  - unfold d'. rewrite (recalculated_taxes_table now b d1 Hu1).
    cbn [d1 taxes on_taxes]. rewrite map_app. cbn [map].
    rewrite Hown, Z.eqb_refl, tbl_get_app.
    assert (Hn : tbl_get tax_id (tax_id tax)
                   (map (fun t => if tax_booking_id t =? bk_id b
                                  then retax
                                         (sum_amounts
                                            (select_line_items (bk_id b) d1))
                                         t
                                  else t) (taxes d)) = None).
    { eapply tbl_get_keys; [|rewrite Hk; apply tbl_get_fresh].
      rewrite map_map. apply map_ext. intros t.
      now destruct (tax_booking_id t =? bk_id b). }
    rewrite Hn. unfold tbl_get. cbn. now rewrite Z.eqb_refl.
Qed.

Lemma recalculated_tax_total (now : Z) (b : Booking) (d : DB) :
  unique_keys tax_id (taxes d) ->
  tax_total (recalculated_booking now b d) =
  Some (sum_tax_amounts (select_taxes (bk_id b) (recalculated_db now b d))).
Proof.
  intros Hu. rewrite (recalculated_taxes now (bk_id b) b d Hu), Z.eqb_refl.
  reflexivity.
Qed.

Lemma recalculated_discount_total (now : Z) (b : Booking) (d : DB) :
  unique_keys disc_id (discounts d) ->
  discount_total (recalculated_booking now b d) =
  Some (sum_discount_amounts
          (select_discounts (bk_id b) (recalculated_db now b d))).
Proof.
  intros Hu.
  rewrite (recalculated_discounts now (bk_id b) b d Hu), Z.eqb_refl.
  reflexivity.
Qed.

(** X12.  [add_tax] raises [NotFoundError] for a missing booking and
    stores nothing.  For a stored booking it appends one tax row and
    recalculates, so whatever subtotal the booking row carried before,
    the new row and every earlier tax row of the booking end with
    [amount = subtotal * (rate / 100)] of the sum of the booking's line
    items, and [tax_total] is the sum of those amounts.  The row
    returned is the row stored. *)
Theorem add_tax_contract (now id : Z) (name : string) (r : num) (d : DB) :
  (tbl_get bk_id id (bookings d) = None ->
   request (add_tax now id name r) d = (inl NotFoundError, d)) /\
  (forall b : Booking,
     tbl_get bk_id id (bookings d) = Some b ->
     unique_keys tax_id (taxes d) ->
     let s := sum_amounts (select_line_items id d) in
     let tax :=
       {| tax_id := tbl_next_id tax_id (taxes d); tax_booking_id := id;
          tax_name := name; rate := r;
          tax_amount := fmul s (fdiv r (of_Z 100));
          tax_created_at := now; tax_updated_at := None |} in
     exists (b' : Booking) (d' : DB),
       request (add_tax now id name r) d = (inr tax, d') /\
       select_taxes id d' =
         map (fun t => tax_set_amount t (fmul s (fdiv (rate t) (of_Z 100))))
           (select_taxes id d) ++ [tax] /\
       tbl_get tax_id (tax_id tax) (taxes d') = Some tax /\
       line_items d' = line_items d /\
       tbl_get bk_id id (bookings d') = Some b' /\
       subtotal b' = Some s /\
       tax_total b' = Some (sum_tax_amounts (select_taxes id d')) /\
       exists t x : num,
         tax_total b' = Some t /\ discount_total b' = Some x /\
         grand_total b' = Some (fsub (fadd s t) x)).
Proof.
  split.
  - intros Hb. eapply request_run. unfold add_tax.
    stop get_booking_missing. reflexivity.
  - intros b Hb Hu s tax. pose proof (tbl_get_key _ _ _ _ _ Hb) as Hk.
    destruct (float_falsy (subtotal b)) eqn:Hf.
    + (* the row carries no subtotal: a first recalculation *)
      set (d0 := recalculated_db now b d).
      set (b0 := recalculated_booking now b d).
      assert (Hb0 : tbl_get bk_id id (bookings d0) = Some b0)
        by (rewrite <- Hk; apply recalculated_row; now rewrite Hk).
      assert (Hu0 : unique_keys tax_id (taxes d0))
        by (unfold unique_keys, d0; now rewrite recalculated_taxes_keys).
      assert (Hid : tbl_next_id tax_id (taxes d0) =
                    tbl_next_id tax_id (taxes d))
        by (apply tbl_next_id_keys, recalculated_taxes_keys).
      set (tax0 :=
             {| tax_id := tbl_next_id tax_id (taxes d0); tax_booking_id := id;
                tax_name := name; rate := r;
                tax_amount := percent_of s r;
                tax_created_at := now; tax_updated_at := None |}).
      destruct (recalculated_after_tax_insert now b0 d0 tax0 Hu0 eq_refl
                  (eq_sym Hk)) as [Hsel Hrow].
      cbv zeta in Hsel, Hrow.
      change (bk_id b0) with (bk_id b) in Hsel, Hrow.
      change (select_line_items (bk_id b) d0)
        with (select_line_items (bk_id b) d) in Hsel, Hrow.
      rewrite Hk in Hsel, Hrow. fold s in Hsel, Hrow.
      assert (Htax : retax s tax0 = tax)
        by (unfold tax, tax0, retax, tax_set_amount;
            cbn [tax_id tax_booking_id tax_name rate tax_amount
                 tax_created_at tax_updated_at];
            rewrite Hid; reflexivity).
      rewrite Htax in Hsel, Hrow.
      set (d1 := on_taxes (fun t => t ++ [tax0]) d0) in *.
      exists (recalculated_booking now b0 d1), (recalculated_db now b0 d1).
      split.
      { eapply request_run. unfold add_tax. step get_booking_run.
        rewrite Hf.
        erewrite bind_ok by (apply recalculate_run; exact Hb).
        fold d0 b0. cbn [subtotal b0 recalculated_booking
                         booking_set_updated_at booking_set_totals].
        run. rewrite Hk. fold s. fold tax0. fold d1.
        erewrite bind_ok by (apply recalculate_run; exact Hb0). run.
        cbn [tax_id tax0] in Hrow. rewrite Hrow. reflexivity. }
      split.
      { rewrite Hsel. f_equal. unfold d0.
        rewrite (recalculated_taxes now id b d Hu), <- Hk, Z.eqb_refl.
        rewrite Hk. fold s. rewrite map_map. reflexivity. }
      split.
      { change (tax_id tax) with (tbl_next_id tax_id (taxes d)).
        rewrite <- Hid. exact Hrow. }
      split; [reflexivity|].
      split.
      { pose proof (recalculated_row now b0 d1) as Hrr.
        change (bk_id b0) with (bk_id b) in Hrr. rewrite Hk in Hrr.
        apply Hrr. exact Hb0. }
      split; [cbn; now rewrite Hk|].
      split.
      { assert (Hu1 : unique_keys tax_id (taxes d1))
          by (cbn; now apply unique_keys_insert).
        pose proof (recalculated_tax_total now b0 d1 Hu1) as Htt.
        change (bk_id b0) with (bk_id b) in Htt. rewrite Hk in Htt.
        exact Htt. }
      do 2 eexists. repeat split; try reflexivity. cbn. now rewrite Hk.
    + (* the row carries a subtotal that is not zero *)
      destruct (subtotal b) as [sb|] eqn:Hsb; [|discriminate Hf].
      set (tax0 :=
             {| tax_id := tbl_next_id tax_id (taxes d); tax_booking_id := id;
                tax_name := name; rate := r;
                tax_amount := percent_of sb r;
                tax_created_at := now; tax_updated_at := None |}).
      destruct (recalculated_after_tax_insert now b d tax0 Hu eq_refl
                  (eq_sym Hk)) as [Hsel Hrow].
      cbv zeta in Hsel, Hrow. rewrite Hk in Hsel, Hrow.
      fold s in Hsel, Hrow.
      change (retax s tax0) with tax in Hsel, Hrow.
      set (d1 := on_taxes (fun t => t ++ [tax0]) d) in *.
      exists (recalculated_booking now b d1), (recalculated_db now b d1).
      split.
      { eapply request_run. unfold add_tax. step get_booking_run.
        rewrite Hsb in *. cbn [float_falsy] in Hf |- *. rewrite Hf. run.
        rewrite Hsb. run. fold tax0. fold d1.
        erewrite bind_ok by (apply recalculate_run; exact Hb). run.
        cbn [tax_id tax0] in Hrow. rewrite Hrow. reflexivity. }
      split; [exact Hsel|].
      split; [exact Hrow|].
      split; [reflexivity|].
      split; [rewrite <- Hk; apply recalculated_row; now rewrite Hk|].
      split; [cbn; now rewrite Hk|].
      split.
      { assert (Hu1 : unique_keys tax_id (taxes d1))
          by (cbn; now apply unique_keys_insert).
        pose proof (recalculated_tax_total now b d1 Hu1) as Htt.
        rewrite Hk in Htt. exact Htt. }
      do 2 eexists. repeat split; try reflexivity. cbn. now rewrite Hk.
Qed.

(** ** BookingService: what a failing call leaves behind *)

Lemma recalculate_missing (now id : Z) (d c : DB) :
  tbl_get bk_id id (bookings d) = None ->
  recalculate_booking_totals now id {| pending := d; committed := c |} =
  (inl NotFoundError, {| pending := d; committed := c |}).
Proof.
  intros Hb. unfold recalculate_booking_totals.
  stop get_booking_missing. reflexivity.
Qed.

(** X13.  With a booking id that is not stored, [remove_tax] and
    [remove_discount] raise [NotFoundError] only after the row was
    deleted and the delete committed: the caller sees an error and the
    row is gone.  [remove_invoice_item] reads the booking before it
    deletes, so there the same call changes nothing. *)
Theorem removal_commits_before_it_fails (now id : Z) (d : DB) :
  tbl_get bk_id id (bookings d) = None ->
  (forall (tid : Z) (t : InvoiceTax),
     tbl_get tax_id tid (taxes d) = Some t ->
     exists d' : DB,
       request (remove_tax now id tid) d = (inl NotFoundError, d') /\
       taxes d' = tbl_delete tax_id tid (taxes d) /\
       tbl_get tax_id tid (taxes d') = None /\
       bookings d' = bookings d /\ line_items d' = line_items d /\
       discounts d' = discounts d) /\
  (forall (xid : Z) (x : InvoiceDiscount),
     tbl_get disc_id xid (discounts d) = Some x ->
     exists d' : DB,
       request (remove_discount now id xid) d = (inl NotFoundError, d') /\
       discounts d' = tbl_delete disc_id xid (discounts d) /\
       tbl_get disc_id xid (discounts d') = None /\
       bookings d' = bookings d /\ line_items d' = line_items d /\
       taxes d' = taxes d) /\
  (forall (item_id : Z) (i : InvoiceLineItem),
     tbl_get li_id item_id (line_items d) = Some i ->
     request (remove_invoice_item now id item_id) d = (inl NotFoundError, d)).
Proof.
  intros Hb. split; [|split].
  - intros tid t Ht. pose proof (tbl_get_key _ _ _ _ _ Ht) as Hk.
    eexists. split.
    { eapply request_run. unfold remove_tax. step get_tax_run.
      erewrite bind_err; [reflexivity|].
      apply recalculate_missing. exact Hb. }
    cbn [taxes bookings line_items discounts on_taxes]. rewrite Hk.
    repeat split; try reflexivity. apply tbl_get_delete.
  - intros xid x Hx. pose proof (tbl_get_key _ _ _ _ _ Hx) as Hk.
    eexists. split.
    { eapply request_run. unfold remove_discount. step get_discount_run.
      erewrite bind_err; [reflexivity|].
      apply recalculate_missing. exact Hb. }
    cbn [taxes bookings line_items discounts on_discounts]. rewrite Hk.
    repeat split; try reflexivity. apply tbl_get_delete.
  - intros item_id i Hi. eapply request_run. unfold remove_invoice_item.
    step get_line_item_run. stop get_booking_missing. reflexivity.
Qed.

(** ** BookingService: how the operations compose *)

(** X14.  Once [create_booking] has booked a room, a second
    [create_booking] for that room is refused with [ConflictError],
    whoever the (stored) guest is, and changes nothing. *)
Theorem double_booking_refused
  (t1 t2 : Z) (data1 data2 : BookingCreate) (d : DB)
  (g1 g2 : Guest) (r : Room) :
  tbl_get g_id (bc_guest_id data1) (guests d) = Some g1 ->
  tbl_get g_id (bc_guest_id data2) (guests d) = Some g2 ->
  tbl_get number (bc_room_number data1) (rooms d) = Some r ->
  occupied r = false ->
  bc_room_number data2 = bc_room_number data1 ->
  exists (b : Booking) (d1 : DB),
    request (create_booking t1 data1) d = (inr b, d1) /\
    request (create_booking t2 data2) d1 = (inl ConflictError, d1).
Proof.
  intros Hg1 Hg2 Hr Hocc Hsame.
  destruct (create_booking_ok t1 data1 d g1 r Hg1 Hr Hocc)
    as (b & item & d1 & Hrun & _ & _ & Hrooms & Hguests & _).
  exists b, d1. split; [exact Hrun|].
  assert (Hg2' : exists g, tbl_get g_id (bc_guest_id data2) (guests d1) = Some g).
  { rewrite Hguests.
    destruct (Z.eq_dec (bc_guest_id data2) (bc_guest_id data1)) as [E|E].
    - eexists. rewrite E. eapply tbl_get_put; [exact Hg1|].
      exact (tbl_get_key _ _ _ _ _ Hg1).
    - exists g2. rewrite tbl_get_put_other; [exact Hg2|].
      cbn. rewrite (tbl_get_key _ _ _ _ _ Hg1). congruence. }
  destruct Hg2' as [g Hg].
  eapply (create_booking_occupied t2 data2 d1 g); [exact Hg| |].
  - rewrite Hsame, Hrooms. eapply tbl_get_put; [exact Hr|].
    exact (tbl_get_key _ _ _ _ _ Hr).
  - reflexivity.
Qed.

(** X15.  After [checkout_booking] has gone through, a second checkout
    of the booking raises [ConflictError] and changes nothing, and the
    room can be booked again: [create_booking] for it succeeds. *)
Theorem checkout_then (t1 t2 t3 id : Z) (d : DB) (b : Booking) (r : Room)
  (g : Guest) (price : option num) :
  tbl_get bk_id id (bookings d) = Some b ->
  checkout_at b = None ->
  tbl_get number (room_number b) (rooms d) = Some r ->
  occupied r = true ->
  tbl_get g_id (guest_id b) (guests d) = Some g ->
  exists (b1 : Booking) (d1 : DB),
    request (checkout_booking t1 id) d = (inr b1, d1) /\
    request (checkout_booking t2 id) d1 = (inl ConflictError, d1) /\
    exists (b2 : Booking) (d2 : DB),
      request (create_booking t3
                 {| bc_guest_id := guest_id b;
                    bc_room_number := room_number b;
                    bc_price := price |}) d1 = (inr b2, d2) /\
      bk_id b2 <> id /\ checkout_at b2 = None /\
      room_number b2 = room_number b /\
      tbl_get bk_id id (bookings d2) = Some b1.
Proof.
  intros Hb Hco Hr Hocc Hg.
  pose proof (tbl_get_key _ _ _ _ _ Hb) as Hkb. subst id.
  pose proof (checkout_booking_run t1 (bk_id b) d b r Hb Hco Hr Hocc) as Hrun.
  cbv zeta in Hrun.
  set (b0 := booking_set_updated_at (booking_set_checkout b (Some t1)) t1) in *.
  set (r1 := room_set_occupancy r false None t1) in *.
  match type of Hrun with
  | _ = (inr ?bb, ?dd) => set (b1 := bb) in *; set (d1 := dd) in *
  end.
  assert (Hb1 : tbl_get bk_id (bk_id b) (bookings d1) = Some b1).
  { unfold d1, b1. apply (recalculated_row t1 b0).
    destruct (find is_room_item (select_line_items (bk_id b) d));
      cbn [bookings on_line_items on_rooms on_bookings];
      (eapply tbl_get_put; [exact Hb|reflexivity]). }
  assert (Hr1 : tbl_get number (room_number b) (rooms d1) = Some r1).
  { unfold d1.
    destruct (find is_room_item (select_line_items (bk_id b) d));
      cbn [rooms recalculated_db on_line_items on_rooms on_bookings
           on_discounts on_taxes];
      (eapply tbl_get_put; [exact Hr|]);
      exact (tbl_get_key _ _ _ _ _ Hr). }
  assert (Hg1 : tbl_get g_id (guest_id b) (guests d1) = Some g).
  { unfold d1.
    destruct (find is_room_item (select_line_items (bk_id b) d)); exact Hg. }
  exists b1, d1. split; [exact Hrun|]. split.
  { apply (checkout_booking_done t2 (bk_id b) d1 b1 Hb1). discriminate. }
  destruct (create_booking_ok t3
              {| bc_guest_id := guest_id b; bc_room_number := room_number b;
                 bc_price := price |} d1 g r1 Hg1 Hr1 eq_refl)
    as (b2 & item & d2 & Hrun2 & Hbs & _ & _ & _ & _ & _ & Hb2 & _).
  exists b2, d2. split; [exact Hrun2|].
  split.
  { rewrite Hb2. cbn [bk_id].
    pose proof (tbl_next_id_fresh _ bk_id (bookings d1) b1
                  (tbl_get_In _ _ _ _ _ Hb1)) as Hfresh.
    pose proof (tbl_get_key _ _ _ _ _ Hb1). lia. }
  split; [rewrite Hb2; reflexivity|].
  split; [rewrite Hb2; reflexivity|].
  rewrite Hbs. now apply tbl_get_app_old.
Qed.

(** ** Recalculating twice *)

Section Twice.

Variables (now now' : Z) (b : Booking) (d : DB).
Hypothesis Hut : unique_keys tax_id (taxes d).
Hypothesis Hux : unique_keys disc_id (discounts d).

Let b1 := recalculated_booking now b d.
Let d1 := recalculated_db now b d.
Let s := sum_amounts (select_line_items (bk_id b) d).

Lemma twice_taxes : taxes (recalculated_db now' b1 d1) = taxes d1.
Proof.
  assert (Hu1 : unique_keys tax_id (taxes d1))
    by (unfold unique_keys, d1; now rewrite recalculated_taxes_keys).
  rewrite (recalculated_taxes_table now' b1 d1 Hu1).
  unfold d1 at 2 3. rewrite (recalculated_taxes_table now b d Hut).
  rewrite map_map. apply map_ext. intros t.
  change (bk_id b1) with (bk_id b).
  change (select_line_items (bk_id b) d1) with (select_line_items (bk_id b) d).
  destruct (tax_booking_id t =? bk_id b) eqn:E.
  - cbn [tax_booking_id retax tax_set_amount]. now rewrite E.
  - now rewrite E.
Qed.

Lemma twice_discounts :
  discounts (recalculated_db now' b1 d1) = discounts d1.
Proof.
  assert (Hu1 : unique_keys disc_id (discounts d1))
    by (unfold unique_keys, d1; now rewrite recalculated_discounts_keys).
  rewrite (recalculated_discounts_table now' b1 d1 Hu1).
  unfold d1 at 2 3. rewrite (recalculated_discounts_table now b d Hux).
  rewrite map_map. apply map_ext. intros x.
  change (bk_id b1) with (bk_id b).
  change (select_line_items (bk_id b) d1) with (select_line_items (bk_id b) d).
  destruct (disc_booking_id x =? bk_id b) eqn:E.
  - rewrite rebase_discount_booking, E. now rewrite rebase_rebase.
  - now rewrite E.
Qed.

Lemma twice_booking :
  recalculated_booking now' b1 d1 = booking_set_updated_at b1 now'.
Proof.
  unfold recalculated_booking at 1.
  change (bk_id b1) with (bk_id b).
  change (select_line_items (bk_id b) d1) with (select_line_items (bk_id b) d).
  fold s. unfold d1.
  rewrite (recalculated_taxes now (bk_id b) b d Hut).
  rewrite (recalculated_discounts now (bk_id b) b d Hux).
  rewrite Z.eqb_refl. fold s. rewrite !map_map.
  rewrite (map_ext (fun x => retax s (retax s x)) (retax s))
    by (intros; apply retax_retax).
  rewrite (map_ext (fun x => rebase_discount s (rebase_discount s x))
             (rebase_discount s)) by (intros; apply rebase_rebase).
  reflexivity.
Qed.

End Twice.

(** X16.  A recalculation is idempotent.  Under the primary keys of the
    tax and discount tables, recalculating a booking that was just
    recalculated stores the same four totals and the same line items,
    taxes and discounts; only [updated_at] moves, and at the same clock
    reading the database is exactly the same. *)
Theorem recalculation_idempotent (now now' id : Z) (d : DB) (b : Booking) :
  tbl_get bk_id id (bookings d) = Some b ->
  unique_keys tax_id (taxes d) ->
  unique_keys disc_id (discounts d) ->
  exists (b1 b2 : Booking) (d1 d2 : DB),
    request (recalculate_booking_totals now id) d = (inr b1, d1) /\
    request (recalculate_booking_totals now' id) d1 = (inr b2, d2) /\
    b2 = booking_set_updated_at b1 now' /\
    subtotal b2 = subtotal b1 /\ tax_total b2 = tax_total b1 /\
    discount_total b2 = discount_total b1 /\
    grand_total b2 = grand_total b1 /\
    line_items d2 = line_items d1 /\ taxes d2 = taxes d1 /\
    discounts d2 = discounts d1 /\ rooms d2 = rooms d1 /\
    guests d2 = guests d1 /\
    (now' = now -> b2 = b1 /\ d2 = d1).
Proof.
  intros Hb Hut Hux. pose proof (tbl_get_key _ _ _ _ _ Hb) as Hk. subst id.
  set (b1 := recalculated_booking now b d).
  set (d1 := recalculated_db now b d).
  assert (Hb1 : tbl_get bk_id (bk_id b) (bookings d1) = Some b1)
    by now apply recalculated_row.
  pose proof (twice_booking now now' b d Hut Hux) as Hbb.
  pose proof (twice_taxes now now' b d Hut) as Htt.
  pose proof (twice_discounts now now' b d Hux) as Hxx.
  fold b1 d1 in Hbb, Htt, Hxx.
  exists b1, (recalculated_booking now' b1 d1), d1,
    (recalculated_db now' b1 d1).
  split; [eapply request_run; now apply recalculate_run|].
  split; [eapply request_run; now apply recalculate_run|].
  split; [exact Hbb|]. rewrite Hbb.
  do 4 (split; [reflexivity|]).
  split; [reflexivity|]. split; [exact Htt|]. split; [exact Hxx|].
  split; [reflexivity|]. split; [reflexivity|].
  intros ->.
  assert (Hsame : booking_set_updated_at b1 now = b1) by reflexivity.
  split; [exact Hsame|].
  assert (Hbk : bookings (recalculated_db now b1 d1) = bookings d1).
  { unfold recalculated_db at 1. cbn [bookings on_bookings].
    rewrite Hbb, Hsame. unfold d1, recalculated_db.
    cbn [bookings on_bookings on_discounts on_taxes]. fold b1.
    now rewrite tbl_put_put. }
  assert (Hl : line_items (recalculated_db now b1 d1) = line_items d1)
    by reflexivity.
  assert (Hr : rooms (recalculated_db now b1 d1) = rooms d1) by reflexivity.
  assert (Hg : guests (recalculated_db now b1 d1) = guests d1)
    by reflexivity.
  revert Htt Hxx Hbk Hl Hr Hg.
  generalize (recalculated_db now b1 d1) as d2. generalize d1 as d0.
  intros [g0 r0 k0 l0 t0 x0] [g2 r2 k2 l2 t2 x2]. cbn.
  intros. congruence.
Qed.

(** ** add_discount *)

(** A recalculation of booking [b] after a discount row of that booking
    was appended. *)
Lemma recalculated_after_discount_insert (now : Z) (b : Booking) (d : DB)
  (x : InvoiceDiscount) :
  unique_keys disc_id (discounts d) ->
  disc_id x = tbl_next_id disc_id (discounts d) ->
  disc_booking_id x = bk_id b ->
  let s := sum_amounts (select_line_items (bk_id b) d) in
  let d' := recalculated_db now b (on_discounts (fun t => t ++ [x]) d) in
  select_discounts (bk_id b) d' =
    map (rebase_discount s) (select_discounts (bk_id b) d) ++
    [rebase_discount s x] /\
  tbl_get disc_id (disc_id x) (discounts d') = Some (rebase_discount s x).
Proof.
  intros Hu Hk Hown s.
  set (d1 := on_discounts (fun t => t ++ [x]) d). intros d'.
  assert (Hu1 : unique_keys disc_id (discounts d1))
    by (cbn; now apply unique_keys_insert).
  split.
  - unfold d'. rewrite (recalculated_discounts now (bk_id b) b d1 Hu1).
    rewrite Z.eqb_refl. unfold select_discounts at 1.
    cbn [d1 discounts on_discounts].
    rewrite filter_app, map_app. cbn [filter]. rewrite Hown, Z.eqb_refl.
    reflexivity.
  - unfold d'. rewrite (recalculated_discounts_table now b d1 Hu1).
    cbn [d1 discounts on_discounts]. rewrite map_app. cbn [map].
    rewrite Hown, Z.eqb_refl, tbl_get_app.
    assert (Hn : tbl_get disc_id (disc_id x)
                   (map (fun t => if disc_booking_id t =? bk_id b
                                  then rebase_discount
                                         (sum_amounts
                                            (select_line_items (bk_id b) d1))
                                         t
                                  else t) (discounts d)) = None).
    { eapply tbl_get_keys; [|rewrite Hk; apply tbl_get_fresh].
      rewrite map_map. apply map_ext. intros t.
      destruct (disc_booking_id t =? bk_id b);
        [apply rebase_discount_key|reflexivity]. }
    rewrite Hn. unfold tbl_get. cbn [find].
    rewrite rebase_discount_key, Z.eqb_refl. reflexivity.
Qed.

(** X17.  [add_discount] validates its arguments before it reads the
    booking: with neither an amount nor a percentage it raises
    [BadRequestError], also for a booking that is not stored.  Otherwise
    a missing booking gives [NotFoundError].  For a stored booking it
    appends one discount row and recalculates: a percentage, when given,
    decides the amount ([subtotal * (percentage / 100)] of the sum of the
    booking's line items) and the amount passed with it is ignored; with
    no percentage the amount is the one passed, or 0 when that is 0.
    The row returned is the row stored and [discount_total] is the sum
    of the booking's discount amounts. *)
Theorem add_discount_contract (now id : Z) (name : string)
  (amount pct : option num) (d : DB) :
  (amount = None -> pct = None ->
   request (add_discount now id name amount pct) d =
   (inl BadRequestError, d)) /\
  (is_set amount || is_set pct = true ->
   tbl_get bk_id id (bookings d) = None ->
   request (add_discount now id name amount pct) d =
   (inl NotFoundError, d)) /\
  (forall b : Booking,
     is_set amount || is_set pct = true ->
     tbl_get bk_id id (bookings d) = Some b ->
     unique_keys disc_id (discounts d) ->
     let s := sum_amounts (select_line_items id d) in
     let x :=
       {| disc_id := tbl_next_id disc_id (discounts d);
          disc_booking_id := id; disc_name := name;
          disc_amount :=
            match pct with
            | Some p => fmul s (fdiv p (of_Z 100))
            | None => float_or amount (of_Z 0)
            end;
          percentage := pct;
          disc_created_at := now; disc_updated_at := None |} in
     exists (b' : Booking) (d' : DB),
       request (add_discount now id name amount pct) d = (inr x, d') /\
       select_discounts id d' =
         map (rebase_discount s) (select_discounts id d) ++ [x] /\
       tbl_get disc_id (disc_id x) (discounts d') = Some x /\
       line_items d' = line_items d /\
       tbl_get bk_id id (bookings d') = Some b' /\
       subtotal b' = Some s /\
       discount_total b' =
         Some (sum_discount_amounts (select_discounts id d'))).
Proof.
  split; [|split].
  - intros -> ->. eapply request_run. reflexivity.
  - intros Hset Hb. eapply request_run. unfold add_discount.
    replace (negb (is_set amount) && negb (is_set pct)) with false
      by (destruct amount, pct; cbn in *; congruence).
    stop get_booking_missing. reflexivity.
  - intros b Hset Hb Hu s x.
    pose proof (tbl_get_key _ _ _ _ _ Hb) as Hk.
    assert (Hguard : negb (is_set amount) && negb (is_set pct) = false)
      by (destruct amount, pct; cbn in *; congruence).
    destruct (float_falsy (subtotal b)) eqn:Hf.
    + set (d0 := recalculated_db now b d).
      set (b0 := recalculated_booking now b d).
      assert (Hb0 : tbl_get bk_id id (bookings d0) = Some b0)
        by (rewrite <- Hk; apply recalculated_row; now rewrite Hk).
      assert (Hu0 : unique_keys disc_id (discounts d0))
        by (unfold unique_keys, d0; now rewrite recalculated_discounts_keys).
      assert (Hid : tbl_next_id disc_id (discounts d0) =
                    tbl_next_id disc_id (discounts d))
        by (apply tbl_next_id_keys, recalculated_discounts_keys).
      set (x0 :=
             {| disc_id := tbl_next_id disc_id (discounts d0);
                disc_booking_id := id; disc_name := name;
                disc_amount :=
                  match pct with
                  | Some p => percent_of s p
                  | None => float_or amount (of_Z 0)
                  end;
                percentage := pct;
                disc_created_at := now; disc_updated_at := None |}).
      destruct (recalculated_after_discount_insert now b0 d0 x0 Hu0 eq_refl
                  (eq_sym Hk)) as [Hsel Hrow].
      cbv zeta in Hsel, Hrow.
      change (bk_id b0) with (bk_id b) in Hsel, Hrow.
      change (select_line_items (bk_id b) d0)
        with (select_line_items (bk_id b) d) in Hsel, Hrow.
      rewrite Hk in Hsel, Hrow. fold s in Hsel, Hrow.
      assert (Hx : rebase_discount s x0 = x)
        by (unfold x, x0, rebase_discount, discount_set_amount, percent_of;
            cbn [disc_id disc_booking_id disc_name disc_amount percentage
                 disc_created_at disc_updated_at];
            rewrite Hid; destruct pct; reflexivity).
      rewrite Hx in Hsel, Hrow.
      set (d1 := on_discounts (fun t => t ++ [x0]) d0) in *.
      exists (recalculated_booking now b0 d1), (recalculated_db now b0 d1).
      split.
      { eapply request_run. unfold add_discount. rewrite Hguard.
        step get_booking_run. rewrite Hf.
        erewrite bind_ok by (apply recalculate_run; exact Hb).
        fold d0 b0. cbn [subtotal b0 recalculated_booking
                         booking_set_updated_at booking_set_totals].
        run. rewrite Hk. fold s. fold x0. fold d1.
        erewrite bind_ok by (apply recalculate_run; exact Hb0). run.
        cbn [disc_id x0] in Hrow. rewrite Hrow. reflexivity. }
      split.
      { rewrite Hsel. f_equal. unfold d0.
        rewrite (recalculated_discounts now id b d Hu), <- Hk, Z.eqb_refl.
        rewrite Hk. fold s. rewrite map_map.
        apply map_ext. intros; apply rebase_rebase. }
      split.
      { change (disc_id x) with (tbl_next_id disc_id (discounts d)).
        rewrite <- Hid. exact Hrow. }
      split; [reflexivity|].
      split.
      { pose proof (recalculated_row now b0 d1) as Hrr.
        change (bk_id b0) with (bk_id b) in Hrr. rewrite Hk in Hrr.
        apply Hrr. exact Hb0. }
      split; [cbn; now rewrite Hk|].
      assert (Hu1 : unique_keys disc_id (discounts d1))
        by (cbn; now apply unique_keys_insert).
      pose proof (recalculated_discount_total now b0 d1 Hu1) as Htt.
      change (bk_id b0) with (bk_id b) in Htt. rewrite Hk in Htt.
      exact Htt.
    + destruct (subtotal b) as [sb|] eqn:Hsb; [|discriminate Hf].
      set (x0 :=
             {| disc_id := tbl_next_id disc_id (discounts d);
                disc_booking_id := id; disc_name := name;
                disc_amount :=
                  match pct with
                  | Some p => percent_of sb p
                  | None => float_or amount (of_Z 0)
                  end;
                percentage := pct;
                disc_created_at := now; disc_updated_at := None |}).
      destruct (recalculated_after_discount_insert now b d x0 Hu eq_refl
                  (eq_sym Hk)) as [Hsel Hrow].
      cbv zeta in Hsel, Hrow. rewrite Hk in Hsel, Hrow.
      fold s in Hsel, Hrow.
      assert (Hx : rebase_discount s x0 = x)
        by (unfold x, x0, rebase_discount, discount_set_amount, percent_of;
            cbn [disc_id disc_booking_id disc_name disc_amount percentage
                 disc_created_at disc_updated_at];
            destruct pct; reflexivity).
      rewrite Hx in Hsel, Hrow.
      set (d1 := on_discounts (fun t => t ++ [x0]) d) in *.
      exists (recalculated_booking now b d1), (recalculated_db now b d1).
      split.
      { eapply request_run. unfold add_discount. rewrite Hguard.
        step get_booking_run.
        rewrite Hsb in *. cbn [float_falsy] in Hf |- *. rewrite Hf. run.
        rewrite Hsb. run. fold x0. fold d1.
        erewrite bind_ok by (apply recalculate_run; exact Hb). run.
        cbn [disc_id x0] in Hrow. rewrite Hrow. reflexivity. }
      split; [exact Hsel|].
      split; [exact Hrow|].
      split; [reflexivity|].
      split; [rewrite <- Hk; apply recalculated_row; now rewrite Hk|].
      split; [cbn; now rewrite Hk|].
      assert (Hu1 : unique_keys disc_id (discounts d1))
        by (cbn; now apply unique_keys_insert).
      pose proof (recalculated_discount_total now b d1 Hu1) as Htt.
      rewrite Hk in Htt. exact Htt.
Qed.

(** ** delete_tax and delete_discount *)

(** Deleting a row leaves the selection of every booking but its own. *)
Lemma select_after_delete {Row} (key own : Row -> Z) (k tid : Z)
  (t : list Row) (r : Row) :
  unique_keys key t -> tbl_get key tid t = Some r -> own r <> k ->
  filter (fun a => own a =? k) (tbl_delete key tid t) =
  filter (fun a => own a =? k) t.
Proof.
  intros Hu Hr Hne. unfold tbl_delete. rewrite filter_swap.
  assert (Hall : forall a, In a (filter (fun a => own a =? k) t) ->
                           negb (key a =? tid) = true).
  { intros a Ha. apply filter_In in Ha. destruct Ha as [Hin Hown].
    destruct (Z.eqb_spec (key a) tid) as [E|E]; [|reflexivity].
    exfalso. apply Hne.
    rewrite (unique_keys_inj _ key t a r Hu Hin (tbl_get_In _ _ _ _ _ Hr)).
    - now apply Z.eqb_eq.
    - rewrite E. apply (tbl_get_key _ _ _ _ _ Hr). }
  induction (filter (fun a => own a =? k) t) as [|a l IH];
    cbn; [reflexivity|].
  rewrite (Hall a (or_introl eq_refl)). f_equal.
  apply IH. intros a' Ha'. apply Hall. now right.
Qed.

Lemma delete_tax_run (now tid : Z) (d : DB) (t : InvoiceTax) (b : Booking) :
  tbl_get tax_id tid (taxes d) = Some t ->
  tbl_get bk_id (tax_booking_id t) (bookings d) = Some b ->
  request (delete_tax now tid) d =
  (inr tt, recalculated_db now b (on_taxes (tbl_delete tax_id tid) d)).
Proof.
  intros Ht Hb. pose proof (tbl_get_key _ _ _ _ _ Ht) as Hk.
  eapply request_run. unfold delete_tax.
  step get_tax_run. rewrite Hk.
  erewrite bind_ok by (apply recalculate_run; exact Hb).
  reflexivity.
Qed.

Lemma delete_discount_run (now xid : Z) (d : DB) (x : InvoiceDiscount)
  (b : Booking) :
  tbl_get disc_id xid (discounts d) = Some x ->
  tbl_get bk_id (disc_booking_id x) (bookings d) = Some b ->
  request (delete_discount now xid) d =
  (inr tt, recalculated_db now b (on_discounts (tbl_delete disc_id xid) d)).
Proof.
  intros Hx Hb. pose proof (tbl_get_key _ _ _ _ _ Hx) as Hk.
  eapply request_run. unfold delete_discount.
  step get_discount_run. rewrite Hk.
  erewrite bind_ok by (apply recalculate_run; exact Hb).
  reflexivity.
Qed.

(** X18.  [delete_tax] raises [NotFoundError] for a tax that is not
    stored and writes nothing.  For a stored tax it recalculates the
    booking the tax row names, not a booking the caller passes: the row
    is gone, the remaining taxes of that booking are re-rated on the sum
    of its line items, its [tax_total] is their sum, and the taxes of
    every other booking are as they were. *)
Theorem delete_tax_contract (now tid : Z) (d : DB) :
  (tbl_get tax_id tid (taxes d) = None ->
   request (delete_tax now tid) d = (inl NotFoundError, d)) /\
  (forall (t : InvoiceTax) (b : Booking),
     tbl_get tax_id tid (taxes d) = Some t ->
     tbl_get bk_id (tax_booking_id t) (bookings d) = Some b ->
     unique_keys tax_id (taxes d) ->
     let owner := tax_booking_id t in
     let s := sum_amounts (select_line_items owner d) in
     exists (b' : Booking) (d' : DB),
       request (delete_tax now tid) d = (inr tt, d') /\
       tbl_get tax_id tid (taxes d') = None /\
       select_taxes owner d' =
         map (retax s)
           (filter (fun r => negb (tax_id r =? tid)) (select_taxes owner d)) /\
       (forall k : Z, k <> owner -> select_taxes k d' = select_taxes k d) /\
       line_items d' = line_items d /\
       tbl_get bk_id owner (bookings d') = Some b' /\
       subtotal b' = Some s /\
       tax_total b' = Some (sum_tax_amounts (select_taxes owner d')) /\
       exists x : num,
         discount_total b' = Some x /\
         grand_total b' =
           Some (fsub (fadd s (sum_tax_amounts (select_taxes owner d'))) x)).
Proof.
  split.
  - intros Ht. eapply request_run. unfold delete_tax, get_tax.
    unfold bind, read. cbn [pending]. rewrite Ht. reflexivity.
  - intros t b Ht Hb Hu owner s.
    pose proof (tbl_get_key _ _ _ _ _ Hb) as Hk. fold owner in Hk, Hb.
    set (d1 := on_taxes (tbl_delete tax_id tid) d).
    assert (Hu1 : unique_keys tax_id (taxes d1))
      by (cbn; now apply unique_keys_delete).
    assert (Hsel : select_taxes owner (recalculated_db now b d1) =
                   map (retax s)
                     (filter (fun r => negb (tax_id r =? tid))
                        (select_taxes owner d))).
    { rewrite (recalculated_taxes now owner b d1 Hu1), <- Hk, Z.eqb_refl.
      change (select_line_items (bk_id b) d1)
        with (select_line_items (bk_id b) d). rewrite Hk. fold s.
      f_equal. unfold select_taxes, d1. cbn [taxes on_taxes].
      unfold tbl_delete. apply filter_swap. }
    exists (recalculated_booking now b d1), (recalculated_db now b d1).
    split; [now apply (delete_tax_run now tid d t b)|].
    split.
    { eapply tbl_get_keys; [apply recalculated_taxes_keys|].
      cbn. apply tbl_get_delete. }
    split; [exact Hsel|].
    split.
    { intros k Hne. rewrite (recalculated_taxes now k b d1 Hu1).
      destruct (Z.eqb_spec k (bk_id b)) as [E|_]; [congruence|].
      unfold select_taxes, d1. cbn [taxes on_taxes].
      apply (select_after_delete tax_id tax_booking_id k tid (taxes d) t Hu Ht).
      fold owner. congruence. }
    split; [reflexivity|].
    split; [rewrite <- Hk; apply recalculated_row; now rewrite Hk|].
    split; [cbn; now rewrite Hk|].
    pose proof (recalculated_tax_total now b d1 Hu1) as Htt.
    rewrite Hk in Htt.
    split; [exact Htt|].
    eexists. split; [reflexivity|].
    cbn [grand_total recalculated_booking booking_set_updated_at
         booking_set_totals].
    rewrite Hk. fold s. do 3 f_equal.
    cbn [tax_total recalculated_booking booking_set_updated_at
         booking_set_totals] in Htt.
    rewrite Hk in Htt. fold s in Htt. congruence.
Qed.

(** X19.  [delete_discount] raises [NotFoundError] for a discount that
    is not stored and writes nothing.  For a stored discount it
    recalculates the booking the row names: the row is gone, the
    remaining percentage discounts of that booking are re-based on the
    sum of its line items while its fixed discounts keep their amounts,
    [discount_total] is their sum, and the discounts of every other
    booking are as they were. *)
Theorem delete_discount_contract (now xid : Z) (d : DB) :
  (tbl_get disc_id xid (discounts d) = None ->
   request (delete_discount now xid) d = (inl NotFoundError, d)) /\
  (forall (x : InvoiceDiscount) (b : Booking),
     tbl_get disc_id xid (discounts d) = Some x ->
     tbl_get bk_id (disc_booking_id x) (bookings d) = Some b ->
     unique_keys disc_id (discounts d) ->
     let owner := disc_booking_id x in
     let s := sum_amounts (select_line_items owner d) in
     exists (b' : Booking) (d' : DB),
       request (delete_discount now xid) d = (inr tt, d') /\
       tbl_get disc_id xid (discounts d') = None /\
       select_discounts owner d' =
         map (rebase_discount s)
           (filter (fun r => negb (disc_id r =? xid))
              (select_discounts owner d)) /\
       (forall k : Z,
          k <> owner -> select_discounts k d' = select_discounts k d) /\
       line_items d' = line_items d /\
       tbl_get bk_id owner (bookings d') = Some b' /\
       subtotal b' = Some s /\
       discount_total b' =
         Some (sum_discount_amounts (select_discounts owner d'))).
Proof.
  split.
  - intros Hx. eapply request_run. unfold delete_discount, get_discount.
    unfold bind, read. cbn [pending]. rewrite Hx. reflexivity.
  - intros x b Hx Hb Hu owner s.
    pose proof (tbl_get_key _ _ _ _ _ Hb) as Hk. fold owner in Hk, Hb.
    set (d1 := on_discounts (tbl_delete disc_id xid) d).
    assert (Hu1 : unique_keys disc_id (discounts d1))
      by (cbn; now apply unique_keys_delete).
    exists (recalculated_booking now b d1), (recalculated_db now b d1).
    split; [now apply (delete_discount_run now xid d x b)|].
    split.
    { eapply tbl_get_keys; [apply recalculated_discounts_keys|].
      cbn. apply tbl_get_delete. }
    split.
    { rewrite (recalculated_discounts now owner b d1 Hu1), <- Hk, Z.eqb_refl.
      change (select_line_items (bk_id b) d1)
        with (select_line_items (bk_id b) d). rewrite Hk. fold s.
      f_equal. unfold select_discounts, d1. cbn [discounts on_discounts].
      unfold tbl_delete. apply filter_swap. }
    split.
    { intros k Hne. rewrite (recalculated_discounts now k b d1 Hu1).
      destruct (Z.eqb_spec k (bk_id b)) as [E|_]; [congruence|].
      unfold select_discounts, d1. cbn [discounts on_discounts].
      apply (select_after_delete disc_id disc_booking_id k xid (discounts d)
               x Hu Hx).
      fold owner. congruence. }
    split; [reflexivity|].
    split; [rewrite <- Hk; apply recalculated_row; now rewrite Hk|].
    split; [cbn; now rewrite Hk|].
    pose proof (recalculated_discount_total now b d1 Hu1) as Htt.
    rewrite Hk in Htt. exact Htt.
Qed.

(** ** The queries *)

Lemma In_paginate {A} (skip limit : nat) (l : list A) (a : A) :
  In a (paginate skip limit l) -> In a l.
Proof.
  unfold paginate. intros Ha.
  rewrite <- (firstn_skipn skip l). apply in_or_app. right.
  rewrite <- (firstn_skipn limit (skipn skip l)). apply in_or_app.
  now left.
Qed.

Lemma length_paginate {A} (skip limit : nat) (l : list A) :
  List.length (paginate skip limit l) =
  Nat.min limit (List.length l - skip).
Proof. unfold paginate. now rewrite length_firstn, length_skipn. Qed.

Lemma paginate_all {A} (limit : nat) (l : list A) :
  (List.length l <= limit)%nat -> paginate 0 limit l = l.
Proof. intros Hl. unfold paginate. cbn [skipn]. now apply firstn_all2. Qed.

Lemma room_matches_sound (type_filter : option string)
  (occupied_filter : option bool) (r : Room) :
  room_matches type_filter occupied_filter r = true ->
  (forall o : bool, occupied_filter = Some o -> occupied r = o) /\
  (forall t : string,
     type_filter = Some t -> t <> ""%string -> room_type r = t).
Proof.
  unfold room_matches. intros Hm. apply andb_prop in Hm.
  destruct Hm as [Ht Ho]. split.
  - intros o ->. now apply Bool.eqb_prop.
  - intros t -> Hne. unfold str_truthy in Ht.
    destruct (String.eqb_spec t ""); [contradiction|]. cbn in Ht.
    now apply String.eqb_eq.
Qed.

(** X20.  [get_rooms] and [count_rooms] read and write nothing.  A page
    holds [min limit (total - skip)] rooms, where [total] is what
    [count_rooms] returns for the same filters; every room of the page
    is stored, carries the occupancy flag asked for and, when a type
    that is not empty was asked for, that type. *)
Theorem get_rooms_contract (skip limit : nat) (type_filter : option string)
  (occupied_filter : option bool) (d : DB) :
  exists (page : list Room) (total : nat),
    request (get_rooms skip limit type_filter occupied_filter) d =
      (inr page, d) /\
    request (count_rooms type_filter occupied_filter) d = (inr total, d) /\
    List.length page = Nat.min limit (total - skip) /\
    forall r : Room,
      In r page ->
      In r (rooms d) /\
      (forall o : bool, occupied_filter = Some o -> occupied r = o) /\
      (forall t : string,
         type_filter = Some t -> t <> ""%string -> room_type r = t).
Proof.
  do 2 eexists. split; [reflexivity|]. split; [reflexivity|].
  split; [apply length_paginate|].
  intros r Hr. apply In_paginate, filter_In in Hr. destruct Hr as [Hin Hm].
  split; [exact Hin|]. now apply room_matches_sound.
Qed.

(** X21.  The counts of [count_rooms] add up: for every type filter the
    rooms counted as occupied and the rooms counted as not occupied are
    together the rooms counted without an occupancy filter. *)
Theorem count_rooms_partition (type_filter : option string) (d : DB) :
  exists n_occupied n_available : nat,
    request (count_rooms type_filter (Some true)) d = (inr n_occupied, d) /\
    request (count_rooms type_filter (Some false)) d =
      (inr n_available, d) /\
    request (count_rooms type_filter None) d =
      (inr (n_occupied + n_available)%nat, d).
Proof.
  do 2 eexists. split; [reflexivity|]. split; [reflexivity|].
  unfold request, count_rooms, read. cbn [pending committed]. do 2 f_equal.
  induction (rooms d) as [|r l IH]; [reflexivity|].
  cbn [filter].
  destruct (room_matches type_filter None r) eqn:E0,
    (room_matches type_filter (Some true) r) eqn:E1,
    (room_matches type_filter (Some false) r) eqn:E2;
    cbn [List.length]; rewrite IH; try lia; exfalso;
    unfold room_matches in E0, E1, E2;
    destruct type_filter as [t|];
    try destruct (str_truthy t); try destruct (String.eqb (room_type r) t);
    destruct (occupied r); cbn in E0, E1, E2; discriminate.
Qed.

(** X22.  [get_available_rooms] and [get_occupied_rooms] return at most
    100 rooms each, the default page of [get_rooms]; the first holds
    only rooms that are not occupied, the second only occupied ones, so
    no room is in both.  In a hotel of at most 100 rooms every stored
    room that passes the type filter is in one of the two; in a larger
    one the lists are cut off at 100. *)
Theorem available_and_occupied_rooms (type_filter : option string) (d : DB) :
  exists available taken : list Room,
    request (get_available_rooms type_filter) d = (inr available, d) /\
    request (get_occupied_rooms type_filter) d = (inr taken, d) /\
    (List.length available <= 100)%nat /\ (List.length taken <= 100)%nat /\
    (forall r : Room, In r available -> In r (rooms d) /\ occupied r = false) /\
    (forall r : Room, In r taken -> In r (rooms d) /\ occupied r = true) /\
    (forall r : Room, In r available -> In r taken -> False) /\
    ((List.length (rooms d) <= 100)%nat ->
     forall r : Room,
       In r (rooms d) -> room_matches type_filter None r = true ->
       In r available \/ In r taken).
Proof.
  do 2 eexists. split; [reflexivity|]. split; [reflexivity|].
  assert (Hsound : forall (o : bool) (r : Room),
            In r (paginate 0 100
                    (filter (room_matches type_filter (Some o)) (rooms d))) ->
            In r (rooms d) /\ occupied r = o).
  { intros o r Hr. apply In_paginate, filter_In in Hr.
    destruct Hr as [Hin Hm]. split; [exact Hin|].
    now apply (proj1 (room_matches_sound _ _ _ Hm)). }
  split; [rewrite length_paginate; apply Nat.le_min_l|].
  split; [rewrite length_paginate; apply Nat.le_min_l|].
  split; [apply Hsound|]. split; [apply Hsound|].
  split.
  - intros r Ha Ht. apply Hsound in Ha. apply Hsound in Ht.
    destruct Ha as [_ Ha], Ht as [_ Ht]. congruence.
  - intros Hsmall r Hin Hm.
    assert (Hall : forall o : bool,
              paginate 0 100
                (filter (room_matches type_filter (Some o)) (rooms d)) =
              filter (room_matches type_filter (Some o)) (rooms d)).
    { intros o. apply paginate_all.
      etransitivity; [apply filter_length_le|exact Hsmall]. }
    rewrite !Hall.
    unfold room_matches in Hm. rewrite andb_true_r in Hm.
    destruct (occupied r) eqn:Ho; [right|left];
      apply filter_In; (split; [exact Hin|]);
      unfold room_matches; rewrite Hm, Ho; reflexivity.
Qed.

Lemma booking_matches_sound (guest room : option Z) (status : option string)
  (from_date to_date : option Z) (b : Booking) :
  booking_matches guest room status from_date to_date b = true ->
  (forall g : Z, guest = Some g -> g <> 0 -> guest_id b = g) /\
  (forall r : Z, room = Some r -> r <> 0 -> room_number b = r) /\
  (status = Some "active"%string -> checkout_at b = None) /\
  (status = Some "completed"%string -> checkout_at b <> None) /\
  (forall t : Z, from_date = Some t -> t <= checkin_at b) /\
  (forall t : Z, to_date = Some t -> checkin_at b <= t).
Proof.
  unfold booking_matches. intros Hm.
  apply andb_prop in Hm. destruct Hm as [Hm Hto].
  apply andb_prop in Hm. destruct Hm as [Hm Hfrom].
  apply andb_prop in Hm. destruct Hm as [Hm Hst].
  apply andb_prop in Hm. destruct Hm as [Hg Hr].
  repeat split.
  - intros g -> Hne. cbn in Hg.
    destruct (Z.eqb_spec g 0); [contradiction|]. now apply Z.eqb_eq.
  - intros r -> Hne. cbn in Hr.
    destruct (Z.eqb_spec r 0); [contradiction|]. now apply Z.eqb_eq.
  - intros ->. cbn in Hst. now destruct (checkout_at b).
  - intros ->. cbn in Hst. now destruct (checkout_at b).
  - intros t ->. now apply Z.leb_le.
  - intros t ->. now apply Z.leb_le.
Qed.

(** X23.  [get_bookings] writes nothing and returns one page with the
    count of all matches: the page holds [min limit (total - skip)]
    bookings, each stored and each passing the filters given.  A guest
    id or room number of 0 filters nothing, and so does a status other
    than ["active"] and ["completed"].  [count_bookings] with
    [active_only] returns the total [get_bookings] reports for the
    status ["active"]. *)
Theorem get_bookings_contract (skip limit : nat) (guest room : option Z)
  (status : option string) (from_date to_date : option Z) (d : DB) :
  (exists (page : list Booking) (total : nat),
     request (get_bookings skip limit guest room status from_date to_date) d =
       (inr (page, total), d) /\
     List.length page = Nat.min limit (total - skip) /\
     forall b : Booking,
       In b page ->
       In b (bookings d) /\
       (forall g : Z, guest = Some g -> g <> 0 -> guest_id b = g) /\
       (forall r : Z, room = Some r -> r <> 0 -> room_number b = r) /\
       (status = Some "active"%string -> checkout_at b = None) /\
       (status = Some "completed"%string -> checkout_at b <> None) /\
       (forall t : Z, from_date = Some t -> t <= checkin_at b) /\
       (forall t : Z, to_date = Some t -> checkin_at b <= t)) /\
  request (get_bookings skip limit (Some 0) room status from_date to_date) d =
    request (get_bookings skip limit None room status from_date to_date) d /\
  request (get_bookings skip limit guest (Some 0) status from_date to_date) d =
    request (get_bookings skip limit guest None status from_date to_date) d /\
  (forall st : string,
     st <> "active"%string -> st <> "completed"%string ->
     request (get_bookings skip limit guest room (Some st) from_date to_date)
       d =
     request (get_bookings skip limit guest room None from_date to_date) d) /\
  exists (page : list Booking) (total : nat),
    request (count_bookings guest room true) d = (inr total, d) /\
    request
      (get_bookings skip limit guest room (Some "active"%string) None None)
      d = (inr (page, total), d).
Proof.
  split.
  { do 2 eexists. split; [reflexivity|].
    split; [apply length_paginate|].
    intros b Hb. apply In_paginate, filter_In in Hb.
    destruct Hb as [Hin Hm]. split; [exact Hin|].
    now apply booking_matches_sound. }
  split; [reflexivity|]. split; [reflexivity|].
  split.
  { intros st Ha Hc. unfold request, get_bookings, read.
    cbn [pending committed].
    assert (Hext : forall b : Booking,
              booking_matches guest room (Some st) from_date to_date b =
              booking_matches guest room None from_date to_date b).
    { intros b. unfold booking_matches.
      destruct (String.eqb_spec st "active"); [contradiction|].
      destruct (String.eqb_spec st "completed"); [contradiction|].
      reflexivity. }
    now rewrite (filter_ext _ _ Hext). }
  assert (Hext :
            filter (booking_matches guest room (Some "active"%string)
                      None None) (bookings d) =
            filter (fun b : Booking =>
                      booking_matches guest room None None None b
                      && negb (is_set (checkout_at b))) (bookings d)).
  { apply filter_ext. intros b. unfold booking_matches.
    cbn [String.eqb Ascii.eqb Bool.eqb andb].
    now rewrite !andb_true_r. }
  do 2 eexists. split; [reflexivity|].
  unfold request, get_bookings, read. cbn [pending committed].
  now rewrite Hext.
Qed.

(** ** seed_rooms *)

Lemma filter_all_rooms (l : list Room) :
  filter (room_matches None None) l = l.
Proof. induction l as [|r l IH]; cbn; [reflexivity|]. now rewrite IH. Qed.

(** X24.  [seed_rooms] on a database without rooms commits twenty
    rooms, numbered 101 to 120 in that order: ten ["Standard"] at 1000,
    seven ["Premium"] at 1500 and three ["Suite"] at 2500, none occupied
    and none with a guest; it returns [seeded = True] and the count 20,
    and writes no other table.  On a database that has a room it writes
    nothing and returns [seeded = False] with the number of rooms, so
    seeding a second time changes nothing. *)
Theorem seed_rooms_contract (now now' : Z) (d : DB) :
  (rooms d = [] ->
   exists d' : DB,
     request (seed_rooms now) d = (inr (true, 20%nat), d') /\
     map number (rooms d') = map Z.of_nat (seq 101 20) /\
     map room_type (rooms d') =
       repeat "Standard"%string 10 ++ repeat "Premium"%string 7 ++
       repeat "Suite"%string 3 /\
     map rate_per_night (rooms d') =
       repeat (of_Z 1000) 10 ++ repeat (of_Z 1500) 7 ++
       repeat (of_Z 2500) 3 /\
     (forall r : Room,
        In r (rooms d') ->
        occupied r = false /\ current_guest_id r = None /\
        r_created_at r = now /\ r_updated_at r = None) /\
     guests d' = guests d /\ bookings d' = bookings d /\
     line_items d' = line_items d /\ taxes d' = taxes d /\
     discounts d' = discounts d /\
     request (seed_rooms now') d' = (inr (false, 20%nat), d')) /\
  (rooms d <> [] ->
   request (seed_rooms now) d = (inr (false, List.length (rooms d)), d)).
Proof.
  split.
  - intros Hr. destruct d as [g r k l t x]. cbn in Hr. subst r.
    set (d0 := {| guests := g; rooms := []; bookings := k; line_items := l;
                  taxes := t; discounts := x |}).
    exists (snd (request (seed_rooms now) d0)).
    do 4 (split; [cbv; reflexivity|]).
    split.
    { intros r Hin. cbv in Hin.
      repeat (destruct Hin as [<-|Hin]; [now repeat split|]).
      destruct Hin. }
    do 5 (split; [cbv; reflexivity|]). cbv. reflexivity.
  - intros Hr. unfold request, seed_rooms, count_rooms.
    unfold bind, read. cbn [pending committed].
    rewrite filter_all_rooms.
    destruct (rooms d) as [|r l]; [contradiction|]. reflexivity.
Qed.

(** ** get_date_range *)

(** X25.  [get_date_range] lists the start and then one datetime per
    whole day, at the start's time of day: with an end before the start
    the list is empty; otherwise it holds [(end - start).days + 1]
    entries, entry [i] is [start + i] days, every entry lies between
    the start and the end, and the last one is less than a day before
    the end. *)
Theorem get_date_range_contract (start_date end_date : Z) :
  (end_date < start_date -> get_date_range start_date end_date = []) /\
  (start_date <= end_date ->
   let days := (end_date - start_date) / microseconds_per_day in
   List.length (get_date_range start_date end_date) = Z.to_nat (days + 1) /\
   (forall i : nat,
      (i < Z.to_nat (days + 1))%nat ->
      nth_error (get_date_range start_date end_date) i =
      Some (start_date + Z.of_nat i * microseconds_per_day)) /\
   (forall t : Z,
      In t (get_date_range start_date end_date) ->
      start_date <= t <= end_date) /\
   end_date - microseconds_per_day <
     last (get_date_range start_date end_date) start_date <= end_date).
Proof.
  unfold get_date_range, timedelta_days, microseconds_per_day.
  split.
  - intros Hlt.
    assert (Hneg : (end_date - start_date) / 86400000000 < 0)
      by (apply Z.div_lt_upper_bound; lia).
    replace (Z.to_nat ((end_date - start_date) / 86400000000 + 1)) with 0%nat
      by lia.
    reflexivity.
  - intros Hle. cbv zeta.
    set (days := (end_date - start_date) / 86400000000).
    assert (Hd0 : 0 <= days) by (apply Z.div_pos; lia).
    assert (Hlo : 86400000000 * days <= end_date - start_date)
      by (apply Z.mul_div_le; lia).
    assert (Hhi : end_date - start_date < 86400000000 * (days + 1)).
    { pose proof (Z.mod_pos_bound (end_date - start_date) 86400000000).
      pose proof (Z.div_mod (end_date - start_date) 86400000000).
      fold days in H1. lia. }
    split; [now rewrite length_map, length_seq|].
    split.
    { intros i Hi. rewrite nth_error_map, nth_error_seq.
      destruct (Nat.ltb_spec i (Z.to_nat (days + 1))); [|lia].
      reflexivity. }
    split.
    { intros t Ht. apply in_map_iff in Ht. destruct Ht as [i [<- Hi]].
      apply in_seq in Hi. nia. }
    replace (Z.to_nat (days + 1)) with (S (Z.to_nat days)) by lia.
    rewrite seq_S, map_app. cbn [map]. rewrite last_last.
    cbn [Nat.add]. rewrite Z2Nat.id by lia. lia.
Qed.

(** ** What the invoice methods leave alone *)

Section Frame.

Variable d0 : DB.

Lemma same_hotel_write (f : DB -> DB) :
  (forall d, rooms (f d) = rooms d /\ guests (f d) = guests d /\
             map bk_id (bookings (f d)) = map bk_id (bookings d)) ->
  maintains (same_hotel d0) (write f).
Proof.
  intros Hf. apply maintains_write. intros d [Hr [Hg Hk]].
  destruct (Hf d) as [Hr' [Hg' Hk']]. unfold same_hotel.
  now rewrite Hr', Hg', Hk'.
Qed.

Lemma same_hotel_save_booking (b : Booking) :
  maintains (same_hotel d0) (save_booking b).
Proof.
  apply same_hotel_write. intros d. cbn. repeat split. apply tbl_put_keys.
Qed.

Ltac frame :=
  keep;
  try (apply same_hotel_write; intros ?; cbn; now repeat split);
  try apply same_hotel_save_booking.

Lemma same_hotel_get_booking (id : Z) :
  maintains (same_hotel d0) (get_booking id).
Proof. unfold get_booking. frame. Qed.

Lemma same_hotel_recalculate_taxes (s : num) (l : list InvoiceTax) :
  forall acc, maintains (same_hotel d0) (recalculate_taxes s l acc).
Proof.
  induction l as [|t l IH]; intros acc; cbn [recalculate_taxes];
    unfold save_tax; frame. apply IH.
Qed.

Lemma same_hotel_recalculate_discounts (s : num) (l : list InvoiceDiscount) :
  forall acc, maintains (same_hotel d0) (recalculate_discounts s l acc).
Proof.
  induction l as [|x l IH]; intros acc; cbn [recalculate_discounts];
    unfold save_discount; frame. apply IH.
Qed.

Lemma same_hotel_recalculate (now id : Z) :
  maintains (same_hotel d0) (recalculate_booking_totals now id).
Proof.
  unfold recalculate_booking_totals.
  apply maintains_bind; [apply same_hotel_get_booking|]. intros b.
  unfold get_line_items, get_taxes, get_discounts. frame.
  - apply same_hotel_recalculate_taxes.
  - apply same_hotel_recalculate_discounts.
Qed.

Lemma same_hotel_insert_line_item (now id : Z) (description : string)
  (quantity unit_price : num) (item_type : string) :
  maintains (same_hotel d0)
    (insert_line_item now id description quantity unit_price item_type).
Proof. unfold insert_line_item. frame. Qed.

Lemma same_hotel_add_invoice_item (now id : Z)
  (data : InvoiceLineItemCreate) :
  maintains (same_hotel d0) (add_invoice_item now id data).
Proof.
  unfold add_invoice_item.
  apply maintains_bind; [apply same_hotel_insert_line_item|]. intros _.
  apply maintains_bind; [apply same_hotel_recalculate|]. intros _.
  apply same_hotel_get_booking.
Qed.

Lemma same_hotel_remove_invoice_item (now id item_id : Z) :
  maintains (same_hotel d0) (remove_invoice_item now id item_id).
Proof.
  unfold remove_invoice_item, get_line_item.
  apply maintains_bind; [frame|]. intros i.
  apply maintains_bind; [apply same_hotel_get_booking|]. intros b.
  destruct (is_room_item i && negb (is_set (checkout_at b)));
    [apply maintains_raise|].
  apply maintains_bind; [frame|]. intros _.
  apply maintains_bind; [apply maintains_commit|]. intros _.
  apply maintains_bind; [apply same_hotel_recalculate|]. intros _.
  apply same_hotel_get_booking.
Qed.

Lemma same_hotel_add_line_item (now id : Z) (description : string)
  (quantity unit_price : num) (item_type : string) :
  maintains (same_hotel d0)
    (add_line_item now id description quantity unit_price item_type).
Proof.
  unfold add_line_item.
  apply maintains_bind; [apply same_hotel_get_booking|]. intros b.
  apply maintains_bind; [apply same_hotel_insert_line_item|]. intros i.
  apply maintains_bind; [apply same_hotel_recalculate|]. intros _.
  apply maintains_ret.
Qed.

Lemma same_hotel_delete_line_item (now item_id : Z) :
  maintains (same_hotel d0) (delete_line_item now item_id).
Proof.
  unfold delete_line_item, get_line_item.
  apply maintains_bind; [frame|]. intros i.
  apply maintains_bind; [apply same_hotel_get_booking|]. intros b.
  destruct (is_room_item i && negb (is_set (checkout_at b)));
    [apply maintains_raise|].
  apply maintains_bind; [frame|]. intros _.
  apply maintains_bind; [apply maintains_commit|]. intros _.
  apply maintains_bind; [apply same_hotel_recalculate|]. intros _.
  apply maintains_ret.
Qed.

Lemma same_hotel_add_tax (now id : Z) (name : string) (r : num) :
  maintains (same_hotel d0) (add_tax now id name r).
Proof.
  unfold add_tax.
  apply maintains_bind; [apply same_hotel_get_booking|]. intros b.
  apply maintains_bind.
  { destruct (float_falsy (subtotal b));
      [apply same_hotel_recalculate|apply maintains_ret]. }
  intros b'. destruct (subtotal b'); [|apply maintains_raise].
  apply maintains_bind; [apply maintains_read|]. intros k.
  apply maintains_bind; [frame|]. intros _.
  apply maintains_bind; [apply maintains_commit|]. intros _.
  apply maintains_bind; [apply same_hotel_recalculate|]. intros _.
  frame.
Qed.

Lemma same_hotel_remove_tax (now id tid : Z) :
  maintains (same_hotel d0) (remove_tax now id tid).
Proof.
  unfold remove_tax, get_tax.
  apply maintains_bind; [frame|]. intros t.
  apply maintains_bind; [frame|]. intros _.
  apply maintains_bind; [apply maintains_commit|]. intros _.
  apply maintains_bind; [apply same_hotel_recalculate|]. intros _.
  apply same_hotel_get_booking.
Qed.

Lemma same_hotel_delete_tax (now tid : Z) :
  maintains (same_hotel d0) (delete_tax now tid).
Proof.
  unfold delete_tax, get_tax.
  apply maintains_bind; [frame|]. intros t.
  apply maintains_bind; [frame|]. intros _.
  apply maintains_bind; [apply maintains_commit|]. intros _.
  apply maintains_bind; [apply same_hotel_recalculate|]. intros _.
  apply maintains_ret.
Qed.

Lemma same_hotel_add_discount (now id : Z) (name : string)
  (amount pct : option num) :
  maintains (same_hotel d0) (add_discount now id name amount pct).
Proof.
  unfold add_discount.
  destruct (negb (is_set amount) && negb (is_set pct));
    [apply maintains_raise|].
  apply maintains_bind; [apply same_hotel_get_booking|]. intros b.
  apply maintains_bind.
  { destruct (float_falsy (subtotal b));
      [apply same_hotel_recalculate|apply maintains_ret]. }
  intros b'. destruct (subtotal b'); [|apply maintains_raise].
  apply maintains_bind; [apply maintains_read|]. intros k.
  apply maintains_bind; [frame|]. intros _.
  apply maintains_bind; [apply maintains_commit|]. intros _.
  apply maintains_bind; [apply same_hotel_recalculate|]. intros _.
  frame.
Qed.

Lemma same_hotel_remove_discount (now id xid : Z) :
  maintains (same_hotel d0) (remove_discount now id xid).
Proof.
  unfold remove_discount, get_discount.
  apply maintains_bind; [frame|]. intros x.
  apply maintains_bind; [frame|]. intros _.
  apply maintains_bind; [apply maintains_commit|]. intros _.
  apply maintains_bind; [apply same_hotel_recalculate|]. intros _.
  apply same_hotel_get_booking.
Qed.

Lemma same_hotel_delete_discount (now xid : Z) :
  maintains (same_hotel d0) (delete_discount now xid).
Proof.
  unfold delete_discount, get_discount.
  apply maintains_bind; [frame|]. intros x.
  apply maintains_bind; [frame|]. intros _.
  apply maintains_bind; [apply maintains_commit|]. intros _.
  apply maintains_bind; [apply same_hotel_recalculate|]. intros _.
  apply maintains_ret.
Qed.

End Frame.

Lemma same_hotel_refl (d : DB) : same_hotel d d.
Proof. now repeat split. Qed.

(** X26.  No invoice method touches the hotel itself.  Whatever the
    arguments, and whether the call returns or raises, after a request
    to [recalculate_booking_totals], to one of the methods that add,
    remove or delete a line item, a tax or a discount, the rooms and
    the guests are stored as before and the bookings table holds the
    same booking ids: no room is freed or taken, and no booking is
    created or deleted. *)
Theorem invoice_methods_leave_the_hotel (now : Z) (d : DB) :
  (forall id, same_hotel d (snd (request (recalculate_booking_totals now id) d)))
  /\
  (forall id data, same_hotel d (snd (request (add_invoice_item now id data) d)))
  /\
  (forall id item_id,
     same_hotel d (snd (request (remove_invoice_item now id item_id) d))) /\
  (forall id description quantity unit_price item_type,
     same_hotel d
       (snd (request
               (add_line_item now id description quantity unit_price
                  item_type) d))) /\
  (forall item_id, same_hotel d (snd (request (delete_line_item now item_id) d)))
  /\
  (forall id name r, same_hotel d (snd (request (add_tax now id name r) d))) /\
  (forall id tid, same_hotel d (snd (request (remove_tax now id tid) d))) /\
  (forall tid, same_hotel d (snd (request (delete_tax now tid) d))) /\
  (forall id name amount pct,
     same_hotel d (snd (request (add_discount now id name amount pct) d))) /\
  (forall id xid, same_hotel d (snd (request (remove_discount now id xid) d)))
  /\
  (forall xid, same_hotel d (snd (request (delete_discount now xid) d))).
Proof.
  repeat match goal with |- _ /\ _ => split end;
    intros; apply maintains_request; try apply same_hotel_refl.
  - apply same_hotel_recalculate.
  - apply same_hotel_add_invoice_item.
  - apply same_hotel_remove_invoice_item.
  - apply same_hotel_add_line_item.
  - apply same_hotel_delete_line_item.
  - apply same_hotel_add_tax.
  - apply same_hotel_remove_tax.
  - apply same_hotel_delete_tax.
  - apply same_hotel_add_discount.
  - apply same_hotel_remove_discount.
  - apply same_hotel_delete_discount.
Qed.

End EngineFacts.

(** ** Signs of the totals *)

Section Signs.

Context {num : Type} `{Number num} `{Signed num}.

Hypothesis laws : sign_laws num.

Lemma fold_not_negative (l : list num) :
  forall acc : num,
    negative acc = false ->
    (forall a : num, In a l -> negative a = false) ->
    negative (fold_left fadd l acc) = false.
Proof.
  destruct laws as (_ & Hadd & _).
  induction l as [|a l IH]; intros acc Hacc Hl; cbn [fold_left];
    [exact Hacc|].
  apply IH.
  - apply Hadd; [exact Hacc|]. apply Hl. now left.
  - intros a' Ha'. apply Hl. now right.
Qed.

Lemma percent_not_negative (s x : num) :
  negative s = false -> negative x = false ->
  negative (fmul s (fdiv x (of_Z 100))) = false.
Proof.
  destruct laws as (_ & _ & Hmul & Hdiv).
  intros Hs Hx. apply Hmul; [exact Hs|]. now apply Hdiv.
Qed.

(** C5, as the code has it.  In every arithmetic with the sign laws, a
    recalculation of a booking none of whose charges is negative stores
    a [subtotal], a [tax_total] and a [discount_total] that are not
    negative; [grand_total] is [subtotal + tax_total - discount_total]
    of these, and no floor at zero is applied to it. *)
Theorem totals_sign_after_recalculation
  (now id : Z) (d : DB) (b : Booking) :
  tbl_get bk_id id (bookings d) = Some b ->
  charges_not_negative id d ->
  exists (b' : Booking) (d' : DB) (s t x : num),
    request (recalculate_booking_totals now id) d = (inr b', d') /\
    tbl_get bk_id id (bookings d') = Some b' /\
    subtotal b' = Some s /\ tax_total b' = Some t /\
    discount_total b' = Some x /\
    negative s = false /\ negative t = false /\ negative x = false /\
    grand_total b' = Some (fsub (fadd s t) x).
Proof.
  intros Hb (Hitems & Htaxes & Hdiscs).
  pose proof (tbl_get_key _ _ _ _ _ Hb) as Hk. subst id.
  pose proof laws as (Hzero & _).
  set (s := sum_amounts (select_line_items (bk_id b) d)).
  set (t := sum_tax_amounts (map (retax s) (select_taxes (bk_id b) d))).
  set (x := sum_discount_amounts
              (map (rebase_discount s) (select_discounts (bk_id b) d))).
  assert (Hs : negative s = false).
  { unfold s. rewrite sum_amounts_fold.
    apply fold_not_negative; [exact Hzero|].
    intros a Ha. apply in_map_iff in Ha. destruct Ha as [i [<- Hi]].
    apply filter_In in Hi. destruct Hi as [Hin Hown].
    apply Hitems; [exact Hin|]. now apply Z.eqb_eq. }
  assert (Ht : negative t = false).
  { unfold t, sum_tax_amounts, running_total.
    apply fold_not_negative; [exact Hzero|].
    intros a Ha. rewrite map_map in Ha.
    apply in_map_iff in Ha. destruct Ha as [r [<- Hr]].
    apply filter_In in Hr. destruct Hr as [Hin Hown].
    cbn [tax_amount retax tax_set_amount]. unfold percent_of.
    apply percent_not_negative; [exact Hs|].
    apply Htaxes; [exact Hin|]. now apply Z.eqb_eq. }
  assert (Hx : negative x = false).
  { unfold x, sum_discount_amounts, running_total.
    apply fold_not_negative; [exact Hzero|].
    intros a Ha. rewrite map_map in Ha.
    apply in_map_iff in Ha. destruct Ha as [r [<- Hr]].
    apply filter_In in Hr. destruct Hr as [Hin Hown].
    apply Z.eqb_eq in Hown.
    pose proof (Hdiscs r Hin Hown) as Hsign.
    unfold rebase_discount.
    destruct (percentage r) as [p|];
      cbn [disc_amount discount_set_amount].
    - unfold percent_of. now apply percent_not_negative.
    - exact Hsign. }
  exists (recalculated_booking now b d), (recalculated_db now b d), s, t, x.
  split; [eapply request_run; now apply recalculate_run|].
  split; [now apply recalculated_row|].
  repeat split; try reflexivity; assumption.
Qed.

End Signs.

(** The sign laws in exact arithmetic. *)
Lemma Q_sign_laws : sign_laws Q.
Proof.
  assert (Hn : forall a : Q, negative a = false <-> (0 <= a)%Q).
  { intros a. cbn [negative Q_Signed]. rewrite negb_false_iff.
    apply Qle_bool_iff. }
  split; [now apply Hn|].
  split; [|split].
  - intros a b Ha Hb. apply Hn. apply Hn in Ha. apply Hn in Hb.
    cbn [fadd Q_Number]. rewrite <- (Qplus_0_l 0).
    now apply Qplus_le_compat.
  - intros a b Ha Hb. apply Hn. apply Hn in Ha. apply Hn in Hb.
    cbn [fmul Q_Number]. now apply Qmult_le_0_compat.
  - intros a Ha. apply Hn. apply Hn in Ha.
    cbn [fdiv of_Z Q_Number]. unfold Qdiv.
    apply Qmult_le_0_compat; [exact Ha|].
    apply Qinv_le_0_compat. discriminate.
Qed.

(** The sign laws in binary64, from the specification the primitive
    operations are given in [FloatAxioms]. *)
Lemma negative_binary64 (x : PrimFloat.float) :
  negative x = sf_negative (FloatOps.Prim2SF x).
Proof.
  cbn [negative Float_Signed]. rewrite FloatAxioms.ltb_spec.
  change (FloatOps.Prim2SF (float_of_Z 0)) with (SpecFloat.S754_zero false).
  destruct (FloatOps.Prim2SF x) as [[]|[]| |[] m e]; reflexivity.
Qed.

(** Rounding keeps the sign it is given. *)
Lemma binary_round_aux_sign (m e : Z) (l : SpecFloat.location) :
  sf_negative
    (SpecFloat.binary_round_aux FloatOps.prec FloatOps.emax false m e l) =
  false.
Proof.
  unfold SpecFloat.binary_round_aux.
  destruct (SpecFloat.shr_fexp FloatOps.prec FloatOps.emax m e l)
    as [mrs' e'].
  destruct (SpecFloat.shr_fexp FloatOps.prec FloatOps.emax _ e'
              SpecFloat.loc_Exact) as [mrs'' e''].
  destruct (SpecFloat.shr_m mrs''); [reflexivity| |reflexivity].
  now destruct (e'' <=? FloatOps.emax - FloatOps.prec).
Qed.

Lemma binary_round_sign (m : positive) (e : Z) :
  sf_negative (SpecFloat.binary_round FloatOps.prec FloatOps.emax false m e) =
  false.
Proof.
  unfold SpecFloat.binary_round.
  destruct (SpecFloat.shl_align _ _ _) as [mz ez].
  apply binary_round_aux_sign.
Qed.

Lemma SF64add_sign (x y : SpecFloat.spec_float) :
  sf_negative x = false -> sf_negative y = false ->
  sf_negative (FloatAxioms.SF64add x y) = false.
Proof.
  destruct x as [[]|[]| |[] mx ex], y as [[]|[]| |[] my ey];
    cbn; try reflexivity; try discriminate.
  intros _ _. unfold FloatAxioms.SF64add, SpecFloat.SFadd.
  cbn [SpecFloat.cond_Zopp].
  destruct (SpecFloat.shl_align mx ex _) as [a ea].
  destruct (SpecFloat.shl_align my ey _) as [c ec].
  cbn [fst Z.add SpecFloat.binary_normalize]. apply binary_round_sign.
Qed.

Lemma SF64mul_sign (x y : SpecFloat.spec_float) :
  sf_negative x = false -> sf_negative y = false ->
  sf_negative (FloatAxioms.SF64mul x y) = false.
Proof.
  destruct x as [[]|[]| |[] mx ex], y as [[]|[]| |[] my ey];
    cbn; try reflexivity; try discriminate.
  intros _ _. apply binary_round_aux_sign.
Qed.

Lemma SF64div_sign (x : SpecFloat.spec_float) (m : positive) (e : Z) :
  sf_negative x = false ->
  sf_negative (FloatAxioms.SF64div x (SpecFloat.S754_finite false m e)) =
  false.
Proof.
  destruct x as [[]|[]| |[] mx ex]; cbn; try reflexivity; try discriminate.
  intros _. unfold FloatAxioms.SF64div, SpecFloat.SFdiv.
  destruct (SpecFloat.SFdiv_core_binary _ _ _ _ _ _) as [[mz ez] lz].
  apply binary_round_aux_sign.
Qed.

Lemma binary64_sign_laws : sign_laws PrimFloat.float.
Proof.
  split; [vm_compute; reflexivity|].
  split; [|split].
  - intros a b. rewrite !negative_binary64. cbn [fadd Float_Number].
    rewrite FloatAxioms.add_spec. apply SF64add_sign.
  - intros a b. rewrite !negative_binary64. cbn [fmul Float_Number].
    rewrite FloatAxioms.mul_spec. apply SF64mul_sign.
  - intros a. rewrite !negative_binary64. cbn [fdiv of_Z Float_Number].
    rewrite FloatAxioms.div_spec.
    assert (Hh : exists m e,
              FloatOps.Prim2SF (float_of_Z 100) =
              SpecFloat.S754_finite false m e)
      by (do 2 eexists; vm_compute; reflexivity).
    destruct Hh as (m & e & ->). apply SF64div_sign.
Qed.

(** ** checkout_booking *)

Import Sample.

Lemma db1_booking : tbl_get bk_id 1 (bookings db1) = Some booking1.
Proof. reflexivity. Qed.

Lemma db1_room : tbl_get number 101 (rooms db1) = Some room101_taken.
Proof. reflexivity. Qed.

Lemma db1_charge : tbl_get li_id 1 (line_items db1) = Some charge1.
Proof. reflexivity. Qed.

(** C4, as the code has it.  [checkout_booking] on a stored booking
    raises [ConflictError] when [checkout_at] is set, and also when the
    booking is active but its room is vacant already, in both cases
    changing nothing.  When the booking is active, its room occupied and
    [checkin_at <= now], it takes [duration = max(1, whole days from
    checkin_at to now)], vacates the room, rewrites the first line item
    of type ["room"] to [quantity = duration] and
    [amount = unit_price * duration], recalculates the totals and stores
    [checkout_at = now].  Three days in room 101 at 1000 a night with no
    other charge give [subtotal = grand_total = 3000]. *)
Theorem checkout_contract :
  (forall (num : Type) (N : Number num) (now id : Z) (d : DB (num := num))
          (b : Booking),
     tbl_get bk_id id (bookings d) = Some b ->
     (checkout_at b <> None ->
      request (checkout_booking now id) d = (inl ConflictError, d)) /\
     (forall r : Room,
        checkout_at b = None ->
        tbl_get number (room_number b) (rooms d) = Some r ->
        occupied r = false ->
        request (checkout_booking now id) d = (inl ConflictError, d)) /\
     (forall r : Room,
        checkout_at b = None ->
        tbl_get number (room_number b) (rooms d) = Some r ->
        occupied r = true ->
        checkin_at b <= now ->
        exists (b' : Booking) (d' : DB) (r' : Room),
          request (checkout_booking now id) d = (inr b', d') /\
          tbl_get bk_id id (bookings d') = Some b' /\
          checkout_at b' = Some now /\
          tbl_get number (room_number b) (rooms d') = Some r' /\
          occupied r' = false /\
          current_guest_id r' = None /\
          match find is_room_item (select_line_items id d) with
          | Some item =>
              exists item' : InvoiceLineItem,
                tbl_get li_id (li_id item) (line_items d') = Some item' /\
                quantity item' =
                  of_Z (Z.max 1 (timedelta_days now (checkin_at b))) /\
                unit_price item' = unit_price item /\
                li_amount item' =
                  fmul (unit_price item)
                    (of_Z (Z.max 1 (timedelta_days now (checkin_at b))))
          | None => line_items d' = line_items d
          end /\
          subtotal b' = Some (sum_amounts (select_line_items id d')) /\
          exists s t x : num,
            subtotal b' = Some s /\ tax_total b' = Some t /\
            discount_total b' = Some x /\
            grand_total b' = Some (fsub (fadd s t) x))) /\
  (forall now : Z,
     timedelta_days now t0 = 3 ->
     exists (b' : Booking) (d' : DB) (item : InvoiceLineItem),
       request (checkout_booking now 1) db1 = (inr b', d') /\
       tbl_get li_id 1 (line_items d') = Some item /\
       quantity item = 3%Q /\ li_amount item = 3000%Q /\
       subtotal b' = Some 3000%Q /\ tax_total b' = Some 0%Q /\
       discount_total b' = Some 0%Q /\ grand_total b' = Some 3000%Q).
Proof.
  split.
  - intros num N now id d b. apply checkout_booking_spec.
  - intros now Hdays.
    pose proof (checkout_booking_run now 1 db1 booking1 room101_taken
                  db1_booking eq_refl db1_room eq_refl) as Hrun.
    cbv zeta in Hrun. change (checkin_at booking1) with t0 in Hrun.
    rewrite Hdays in Hrun.
    do 3 eexists. split; [exact Hrun|].
    repeat split; vm_compute; reflexivity.
Qed.

(** * The theorems at the sample data *)

Lemma unique_keys_one {Row} (key : Row -> Z) (r : Row) : unique_keys key [r].
Proof. constructor; [intros []|constructor]. Defined.

(** At [hotel_stale] the booking row carries the subtotal 1000 and the
    table holds charges of 1000 and 500: the recalculation stores 1500,
    and with it a tax of 270, a discount of 150 and the grand total
    1620. *)
Lemma recalculation_restores_totals_witness :
  tbl_get bk_id 1 (bookings hotel_stale) <> None /\
  exists (b' : Booking) (d' : DB),
    request (recalculate_booking_totals (t0 + day) 1) hotel_stale =
      (inr b', d') /\
    tbl_get bk_id 1 (bookings d') = Some b' /\
    subtotal b' = Some 1500%Q /\
    exists s t x : Q,
      subtotal b' = Some s /\ tax_total b' = Some t /\
      discount_total b' = Some x /\
      grand_total b' = Some (fsub (fadd s t) x) /\
      (t == 270)%Q /\ (x == 150)%Q /\ (fsub (fadd s t) x == 1620)%Q.
Proof.
  split; [discriminate|].
  destruct (recalculation_restores_totals (t0 + day) 1 hotel_stale _ eq_refl)
    as (b' & d' & Hrun & Hb & Hl & Hs & s & t & x & Hs' & Ht & Hx & Hg).
  exists b', d'. split; [exact Hrun|]. split; [exact Hb|].
  split; [rewrite Hs, Hl; reflexivity|].
  exists s, t, x.
  do 4 (split; [assumption|]).
  pose proof Hrun as Hc. vm_compute in Hc. injection Hc as Eb _.
  subst b'. cbn in Hs', Ht, Hx.
  injection Hs' as <-. injection Ht as <-. injection Hx as <-.
  repeat split; reflexivity.
Defined.

(** At [hotel_stale] the tax row of 18 percent still carries 180 and the
    discount row of 10 percent 100, both computed on 1000: the
    recalculation rewrites them to 270 and 150. *)
Lemma recalculation_rewrites_taxes_and_discounts_witness :
  unique_keys tax_id (taxes hotel_stale) /\
  unique_keys disc_id (discounts hotel_stale) /\
  exists (b' : Booking) (d' : DB) (t' : InvoiceTax) (x' : InvoiceDiscount),
    request (recalculate_booking_totals (t0 + day) 1) hotel_stale =
      (inr b', d') /\
    subtotal b' = Some 1500%Q /\
    taxes d' = [t'] /\ rate t' = 18%Q /\ (tax_amount t' == 270)%Q /\
    discounts d' = [x'] /\ percentage x' = Some 10%Q /\
    (disc_amount x' == 150)%Q /\
    tax_total b' = Some (fadd (of_Z 0) (tax_amount t')) /\
    discount_total b' = Some (fadd (of_Z 0) (disc_amount x')).
Proof.
  assert (Hut : unique_keys tax_id (taxes hotel_stale))
    by apply unique_keys_one.
  assert (Hux : unique_keys disc_id (discounts hotel_stale))
    by apply unique_keys_one.
  split; [exact Hut|]. split; [exact Hux|].
  destruct (recalculation_rewrites_taxes_and_discounts
              (t0 + day) 1 hotel_stale _ eq_refl Hut Hux)
    as (b' & d' & s & Hrun & Hb & Hs & Hsum & Htx & Hdx & Htt & Hxt).
  subst s. rewrite Htx in Htt. rewrite Hdx in Hxt.
  eexists b', d', _, _.
  split; [exact Hrun|]. split; [rewrite Hs; reflexivity|].
  split; [rewrite Htx; reflexivity|].
  split; [reflexivity|]. split; [reflexivity|].
  split; [rewrite Hdx; reflexivity|].
  split; [reflexivity|]. split; [reflexivity|].
  split; [exact Htt|exact Hxt].
Defined.

Lemma create_booking_contract_witness :
  tbl_get g_id 1 (guests db0) = Some asha /\
  tbl_get number 101 (rooms db0) = Some room101 /\
  occupied room101 = false /\
  exists (b : Booking) (d' : DB),
    request (create_booking t0 (book 101 None)) db0 = (inr b, d') /\
    checkin_at b = t0 /\
    price b = Some 1000%Q /\ subtotal b = price b /\ grand_total b = price b.
Proof.
  do 3 (split; [reflexivity|]).
  destruct (create_booking_contract t0 (book 101 None) db0) as (_ & _ & Hok).
  destruct (Hok asha room101 eq_refl eq_refl eq_refl)
    as (b & item & d' & r' & g' & Hrun & _ & _ & _ & _ & Hin & _ & Hp & Hs
        & Hg & _).
  exists b, d'. repeat split; assumption.
Defined.

(** A price of zero is a price that was sent, and the booking is stored
    at the room's rate of 1000. *)
Lemma create_booking_zero_price :
  bc_price (book 101 (Some 0%Q)) = Some 0%Q /\
  exists (b : Booking) (d' : DB) (p : Q),
    request (create_booking t0 (book 101 (Some 0%Q))) db0 = (inr b, d') /\
    price b = Some p /\
    ~ (p == price_if_supplied (bc_price (book 101 (Some 0%Q)))
              (rate_per_night room101))%Q.
Proof.
  split; [reflexivity|].
  do 3 eexists. split; [reflexivity|]. split; [reflexivity|].
  cbn. intros E. discriminate E.
Qed.

Lemma checkout_contract_witness :
  tbl_get bk_id 1 (bookings db1) = Some booking1 /\
  timedelta_days (t0 + 3 * day + 5) t0 = 3 /\
  exists (b' : Booking) (d' : DB),
    request (checkout_booking (t0 + 3 * day + 5) 1) db1 = (inr b', d') /\
    subtotal b' = Some 3000%Q /\ grand_total b' = Some 3000%Q.
Proof.
  split; [reflexivity|]. split; [reflexivity|].
  destruct (proj2 checkout_contract (t0 + 3 * day + 5) eq_refl)
    as (b' & d' & item & Hrun & _ & _ & _ & Hs & _ & _ & Hg).
  exists b', d'. repeat split; assumption.
Defined.

(** An active booking whose room an administrator has freed: checkout
    raises and the booking stays active. *)
Lemma checkout_of_freed_room :
  tbl_get bk_id 1 (bookings db1_freed) = Some booking1 /\
  checkout_at booking1 = None /\
  checkin_at booking1 <= t0 + 3 * day /\
  request (checkout_booking (t0 + 3 * day) 1) db1_freed =
    (inl ConflictError, db1_freed).
Proof. repeat split; try reflexivity. discriminate. Qed.

(** In binary64, at the booking with a tax of 18 percent and a discount
    of 10 percent. *)
Lemma totals_sign_after_recalculation_witness :
  sign_laws PrimFloat.float /\
  tbl_get bk_id 1 (bookings Binary64.hotel_taxed) <> None /\
  charges_not_negative 1 Binary64.hotel_taxed /\
  exists (b' : Booking) (d' : DB) (s t x : PrimFloat.float),
    request (recalculate_booking_totals (t0 + day) 1) Binary64.hotel_taxed =
      (inr b', d') /\
    subtotal b' = Some s /\ tax_total b' = Some t /\
    discount_total b' = Some x /\
    negative s = false /\ negative t = false /\ negative x = false /\
    grand_total b' = Some (fsub (fadd s t) x).
Proof.
  assert (Hc : charges_not_negative 1 Binary64.hotel_taxed).
  { split; [|split]; intros r Hin _; cbn in Hin;
      destruct Hin as [<-|[]]; vm_compute; reflexivity. }
  split; [exact binary64_sign_laws|]. split; [discriminate|].
  split; [exact Hc|].
  destruct (totals_sign_after_recalculation binary64_sign_laws (t0 + day) 1
              Binary64.hotel_taxed _ eq_refl Hc)
    as (b' & d' & s & t & x & Hrun & _ & Hs & Ht & Hx & Hs0 & Ht0 & Hx0
        & Hg).
  exists b', d', s, t, x. repeat split; assumption.
Defined.

(** A fixed discount of 5000 on charges of 1000: the grand total the
    recalculation stores is -4000. *)
Lemma negative_grand_total :
  exists b : Booking,
    tbl_get bk_id 1 (bookings db1_discounted) = Some b /\
    grand_total b = Some (-4000)%Q /\
    ~ totals_nonnegative b.
Proof.
  eexists. split; [reflexivity|]. split; [reflexivity|].
  intros (_ & _ & _ & Hg). apply Hg. reflexivity.
Qed.

Lemma rooms_ok_db1 : rooms_ok db1.
Proof. repeat constructor; discriminate. Defined.

Lemma occupancy_invariant_preserved_witness :
  rooms_ok db1 /\
  rooms_ok (after (vacate_room (t0 + day) 101) db1) /\
  rooms_ok (after (checkout_booking (t0 + day) 1) db1) /\
  rooms_ok (after (update_room (t0 + day) 101 new_rate) db1).
Proof.
  split; [exact rooms_ok_db1|].
  destruct (occupancy_invariant_preserved db1 rooms_ok_db1)
    as (_ & _ & Hv & _ & _ & Hc & _ & Hu).
  split; [apply Hv|]. split; [apply Hc|].
  apply Hu; reflexivity.
Defined.

(** [update_room] with [occupied = false] alone: room 101 is stored
    vacant with guest 1 still its current guest. *)
Lemma update_room_breaks_invariant :
  rooms_ok db1 /\
  exists r : Room,
    request (update_room t0 101 mark_vacant) db1 =
      (inr r, after (update_room t0 101 mark_vacant) db1) /\
    occupied r = false /\ current_guest_id r = Some 1 /\
    ~ rooms_ok (after (update_room t0 101 mark_vacant) db1).
Proof.
  split; [exact rooms_ok_db1|].
  eexists. split; [reflexivity|]. split; [reflexivity|].
  split; [reflexivity|].
  intros Hok. inversion Hok as [|r l Hr _]; subst.
  specialize (Hr eq_refl). discriminate Hr.
Qed.

Lemma create_booking_conflict_changes_nothing_witness :
  tbl_get g_id 1 (guests db1) <> None /\
  tbl_get number 101 (rooms db1) = Some room101_taken /\
  occupied room101_taken = true /\
  request (create_booking (t0 + day) (book 101 None)) db1 =
    (inl ConflictError, db1).
Proof.
  split; [discriminate|]. split; [reflexivity|]. split; [reflexivity|].
  destruct (create_booking_conflict_changes_nothing (t0 + day)
              (book 101 None) db1 _ room101_taken eq_refl eq_refl eq_refl)
    as (d' & Hrun & Hd & _).
  rewrite Hrun, Hd. reflexivity.
Defined.

Lemma room_charge_removal_guard_witness :
  tbl_get li_id 1 (line_items db1) = Some charge1 /\
  li_booking_id charge1 = 1 /\
  tbl_get bk_id 1 (bookings db1) = Some booking1 /\
  item_type charge1 = "room" /\
  checkout_at booking1 = None /\
  request (remove_invoice_item (t0 + day) 1 1) db1 = (inl BadRequestError, db1) /\
  request (delete_line_item (t0 + day) 1) db1 = (inl BadRequestError, db1).
Proof.
  do 5 (split; [reflexivity|]).
  exact (proj1 (room_charge_removal_guard (t0 + day) 1 1 db1 charge1 booking1
                  eq_refl eq_refl eq_refl) eq_refl eq_refl).
Defined.

(** The spa charge of booking 1 removed through booking 2: the row goes,
    booking 2 is recalculated, and booking 1 keeps a subtotal of 1500
    over items that now sum to 1000. *)
Lemma removal_ignores_ownership_witness :
  (1 <> 2) /\
  unique_keys tax_id (taxes db2_spa) /\
  unique_keys disc_id (discounts db2_spa) /\
  exists (b' bo : Booking) (d' : DB),
    tbl_get bk_id 1 (bookings db2_spa) = Some bo /\
    request (remove_invoice_item (t0 + day) 2 3) db2_spa = (inr b', d') /\
    tbl_get li_id 3 (line_items d') = None /\
    tbl_get bk_id 1 (bookings d') = Some bo /\
    subtotal bo <> Some (sum_amounts (select_line_items 1 d')).
Proof.
  split; [discriminate|]. split; [constructor|]. split; [constructor|].
  assert (Hne : 1 <> 2) by discriminate.
  destruct (removal_ignores_ownership (t0 + day) 2 1 db2_spa _ _
              Hne eq_refl eq_refl (NoDup_nil _) (NoDup_nil _))
    as (Hitem & _ & _).
  edestruct (Hitem 3)
    as (b' & d' & Hrun & Hgone & _ & Hbo & _ & _ & Hstale);
    [reflexivity|reflexivity|left; discriminate|].
  eexists b', _, d'. split; [reflexivity|].
  repeat split; try assumption.
  apply Hstale; [|reflexivity].
  intros E.
  assert (Hsum : (sum_amounts (select_line_items 1 d') ==
                  sum_amounts (select_line_items 1 db2_spa))%Q)
    by (rewrite E; reflexivity).
  clear E. revert Hsum.
  replace d' with (after (remove_invoice_item (t0 + day) 2 3) db2_spa)
    by (unfold after; now rewrite Hrun).
  vm_compute. discriminate.
Defined.

(** The room charge of booking 1 removed through booking 2 while
    booking 2 is active: the guard reads booking 2, the call raises and
    the row stays. *)
Lemma removal_refused_for_foreign_room_charge :
  tbl_get li_id 1 (line_items db2) = Some charge1 /\
  li_booking_id charge1 = 1 /\
  1 <> 2 /\
  request (remove_invoice_item (t0 + day) 2 1) db2 = (inl BadRequestError, db2) /\
  tbl_get li_id 1
    (line_items (after (remove_invoice_item (t0 + day) 2 1) db2)) =
    Some charge1.
Proof. repeat split; try reflexivity. discriminate. Qed.

Lemma update_booking_checkout_only_stamps_witness :
  tbl_get bk_id 1 (bookings db1) = Some booking1 /\
  checkout_at booking1 = None /\
  bu_checkout_at (stamp (t0 + day)) = Some (Some (t0 + day)) /\
  exists (b' : Booking) (d' : DB),
    request (update_booking (t0 + day) 1 (stamp (t0 + day))) db1 =
      (inr b', d') /\
    checkout_at b' = Some (t0 + day) /\
    rooms d' = rooms db1 /\
    line_items d' = line_items db1 /\
    grand_total b' = grand_total booking1.
Proof.
  do 3 (split; [reflexivity|]).
  destruct (update_booking_checkout_only_stamps (t0 + day) 1 (t0 + day)
              (stamp (t0 + day)) db1 booking1 eq_refl eq_refl eq_refl)
    as (b' & d' & Hrun & _ & Hco & Hrooms & Hitems & _ & _ & _ & _ & _ & _
        & Hg).
  exists b', d'. repeat split; assumption.
Defined.

(** * The scenarios in binary64 *)

(** Scenario A with Python's own arithmetic: 18 percent tax and a
    10 percent discount on 1000 store 180, 100 and 1080. *)
Example binary64_tax_and_discount :
  exists b : Booking,
    tbl_get bk_id 1 (bookings Binary64.db_loyal) = Some b /\
    subtotal b = Some (of_Z 1000) /\
    tax_total b = Some (of_Z 180) /\
    discount_total b = Some (of_Z 100) /\
    grand_total b = Some (of_Z 1080).
Proof. eexists. repeat split; vm_compute; reflexivity. Qed.

(** Scenario B with Python's own arithmetic. *)
Example binary64_three_nights :
  exists (b : Booking) (d' : DB),
    request (checkout_booking (t0 + 3 * day) 1) Binary64.db1 = (inr b, d') /\
    subtotal b = Some (of_Z 3000) /\
    grand_total b = Some (of_Z 3000).
Proof. do 2 eexists. repeat split; vm_compute; reflexivity. Qed.

(** The fixed discount of 5000 on charges of 1000 with Python's own
    arithmetic: the grand total stored is -4000. *)
Example binary64_negative_grand_total :
  exists (b : Booking) (g : PrimFloat.float),
    tbl_get bk_id 1 (bookings Binary64.db_discounted) = Some b /\
    grand_total b = Some g /\ g = of_Z (-4000) /\ negative g = true.
Proof. do 2 eexists. repeat split; vm_compute; reflexivity. Qed.

(** * The further properties at the sample data *)

Lemma occupy_room_contract_witness :
  tbl_get number 101 (rooms hotel) = Some room101 /\
  occupied room101 = false /\
  exists (r' : Room) (d' : DB),
    request (occupy_room t0 101 1) hotel = (inr r', d') /\
    occupied r' = true /\ current_guest_id r' = Some 1.
Proof.
  do 2 (split; [reflexivity|]).
  destruct (proj2 (proj2 (occupy_room_contract t0 101 1 hotel))
              room101 eq_refl eq_refl)
    as (r' & d' & Hrun & _ & Hocc & Hg & _).
  exists r', d'. repeat split; assumption.
Defined.

Lemma vacate_room_contract_witness :
  tbl_get number 101 (rooms hotel_booked) = Some room101_taken /\
  occupied room101_taken = true /\
  exists (r' : Room) (d' : DB),
    request (vacate_room (t0 + day) 101) hotel_booked = (inr r', d') /\
    occupied r' = false /\ current_guest_id r' = None.
Proof.
  do 2 (split; [reflexivity|]).
  destruct (proj2 (proj2 (vacate_room_contract (t0 + day) 101 hotel_booked))
              room101_taken eq_refl eq_refl)
    as (r' & d' & Hrun & _ & Hocc & Hg & _).
  exists r', d'. repeat split; assumption.
Defined.

Lemma occupy_then_vacate_witness :
  tbl_get number 101 (rooms hotel) = Some room101 /\
  occupied room101 = false /\
  exists (d1 d2 : DB) (r1 r2 : Room),
    request (occupy_room t0 101 1) hotel = (inr r1, d1) /\
    request (vacate_room (t0 + day) 101) d1 = (inr r2, d2) /\
    r2 = room_set_occupancy room101 false None (t0 + day).
Proof.
  do 2 (split; [reflexivity|]).
  destruct (occupy_then_vacate t0 (t0 + day) 101 1 1 hotel room101
              eq_refl eq_refl)
    as (d1 & d2 & r1 & r2 & H1 & _ & H2 & Hr2 & _).
  exists d1, d2, r1, r2. repeat split; assumption.
Defined.

Lemma create_room_contract_witness :
  tbl_get number (rc_number room103) (rooms hotel) = None /\
  exists (r' : Room) (d' : DB),
    request (create_room t0 room103) hotel = (inr r', d') /\
    request (get_room 103) d' = (inr r', d') /\
    occupied r' = false.
Proof.
  split; [reflexivity|].
  destruct (proj2 (create_room_contract t0 room103 hotel) eq_refl)
    as (r' & d' & Hrun & _ & Hget & _ & _ & _ & Hocc & _).
  exists r', d'. repeat split; assumption.
Defined.

Lemma delete_room_contract_witness :
  tbl_get number 102 (rooms hotel_booked) = Some room102 /\
  occupied room102 = false /\
  (forall b : Booking, In b (bookings hotel_booked) -> room_number b <> 102) /\
  (exists d' : DB,
     request (delete_room 102) hotel_booked = (inr tt, d') /\
     request (get_room 102) d' = (inl NotFoundError, d')) /\
  exists (r : Room) (b : Booking),
    tbl_get number 101 (rooms hotel_checked_out) = Some r /\
    occupied r = false /\
    In b (bookings hotel_checked_out) /\ room_number b = 101 /\
    checkout_at b = Some (t0 + 2 * day) /\
    request (delete_room 101) hotel_checked_out =
      (inl IntegrityError, hotel_checked_out).
Proof.
  do 2 (split; [reflexivity|]).
  assert (Hfree : forall b : Booking,
            In b (bookings hotel_booked) -> room_number b <> 102).
  { intros b [<-|[]]. cbn. discriminate. }
  split; [exact Hfree|].
  split.
  - destruct (proj2 (proj2 (proj2 (delete_room_contract 102 hotel_booked)))
                room102 eq_refl eq_refl Hfree)
      as (d' & Hrun & Hget & _).
    exists d'. split; assumption.
  - do 2 eexists. split; [reflexivity|]. split; [reflexivity|].
    split; [left; reflexivity|]. split; [reflexivity|].
    split; [reflexivity|].
    exact (proj1 (proj2 (proj2 (delete_room_contract 101 hotel_checked_out)))
             _ _ eq_refl eq_refl (or_introl eq_refl) eq_refl).
Defined.

Lemma update_room_contract_witness :
  tbl_get number 101 (rooms hotel) = Some room101 /\
  exists (r' : Room) (d' : DB),
    request (update_room t0 101 new_rate) hotel = (inr r', d') /\
    rate_per_night r' = 1200%Q /\ occupied r' = occupied room101.
Proof.
  split; [reflexivity|].
  destruct (proj2 (update_room_contract t0 101 new_rate hotel)
              room101 eq_refl)
    as (r' & d' & Hrun & _ & _ & _ & _ & _ & _ & Hocc & _ & Hrate & _).
  exists r', d'. repeat split; assumption.
Defined.

Lemma checkin_booking_never_succeeds_witness :
  tbl_get bk_id 1 (bookings hotel_booked) = Some booking1 /\
  request (checkin_booking (t0 + day) 1) hotel_booked =
    (inl ConflictError, hotel_booked).
Proof.
  split; [reflexivity|].
  exact (proj1 (checkin_booking_never_succeeds (t0 + day) 1 hotel_booked)
           booking1 eq_refl).
Defined.

Lemma update_booking_writes_one_row_witness :
  tbl_get bk_id 1 (bookings hotel_booked) = Some booking1 /\
  exists (b' : Booking) (d' : DB),
    request (update_booking (t0 + day) 1 (stamp (t0 + day))) hotel_booked =
      (inr b', d') /\
    rooms d' = rooms hotel_booked /\
    line_items d' = line_items hotel_booked.
Proof.
  split; [reflexivity|].
  destruct (proj2 (update_booking_writes_one_row (t0 + day) 1
                     (stamp (t0 + day)) hotel_booked) booking1 eq_refl)
    as (b' & d' & Hrun & _ & Hrooms & _ & Hitems & _).
  exists b', d'. repeat split; assumption.
Defined.

Lemma delete_booking_contract_witness :
  tbl_get bk_id 1 (bookings hotel_booked) = Some booking1 /\
  exists d' : DB,
    request (delete_booking (t0 + day) 1) hotel_booked = (inr tt, d') /\
    request (get_booking 1) d' = (inl NotFoundError, d') /\
    select_line_items 1 d' = [] /\
    rooms d' = rooms_after_release (t0 + day) booking1 hotel_booked.
Proof.
  split; [reflexivity|].
  destruct (proj2 (delete_booking_contract (t0 + day) 1 hotel_booked)
              booking1 eq_refl)
    as (d' & Hrun & Hget & Hitems & _ & _ & Hrooms & _).
  exists d'. repeat split; assumption.
Defined.

Lemma add_invoice_item_contract_witness :
  tbl_get bk_id 1 (bookings hotel_booked) = Some booking1 /\
  exists (b' : Booking) (d' : DB),
    request (add_invoice_item (t0 + day) 1 spa) hotel_booked = (inr b', d') /\
    subtotal b' =
      Some (fadd (sum_amounts (select_line_items 1 hotel_booked))
              (fmul (ic_quantity spa) (ic_unit_price spa))).
Proof.
  split; [reflexivity|].
  destruct (proj1 (add_invoice_item_contract (t0 + day) 1 spa hotel_booked)
              booking1 eq_refl)
    as (b' & d' & Hrun & _ & _ & _ & _ & Hs & _).
  exists b', d'. split; assumption.
Defined.

Lemma add_line_item_contract_witness :
  tbl_get bk_id 7 (bookings hotel_booked) = None /\
  request (add_line_item (t0 + day) 7 (ic_description spa) (ic_quantity spa)
             (ic_unit_price spa) (ic_item_type spa)) hotel_booked =
    (inl NotFoundError, hotel_booked).
Proof.
  split; [reflexivity|].
  exact (proj1 (add_line_item_contract (t0 + day) 7 spa hotel_booked)
           eq_refl).
Defined.

Lemma add_tax_contract_witness :
  tbl_get bk_id 1 (bookings hotel_booked) = Some booking1 /\
  unique_keys tax_id (taxes hotel_booked) /\
  exists (tax : InvoiceTax) (b' : Booking) (d' : DB),
    request (add_tax (t0 + day) 1 "GST" 18%Q) hotel_booked = (inr tax, d') /\
    tax_amount tax =
      fmul (sum_amounts (select_line_items 1 hotel_booked))
        (fdiv 18%Q (of_Z 100)) /\
    tbl_get bk_id 1 (bookings d') = Some b' /\
    tax_total b' = Some (sum_tax_amounts (select_taxes 1 d')).
Proof.
  split; [reflexivity|]. split; [constructor|].
  destruct (proj2 (add_tax_contract (t0 + day) 1 "GST" 18%Q hotel_booked)
              booking1 eq_refl (NoDup_nil _))
    as (b' & d' & Hrun & _ & _ & _ & Hb & _ & Ht & _).
  eexists _, b', d'. split; [exact Hrun|].
  split; [reflexivity|]. split; assumption.
Defined.

Lemma removal_commits_before_it_fails_witness :
  tbl_get bk_id 7 (bookings hotel_taxed) = None /\
  exists d' : DB,
    request (remove_tax (t0 + day) 7 1) hotel_taxed =
      (inl NotFoundError, d') /\
    tbl_get tax_id 1 (taxes d') = None.
Proof.
  split; [reflexivity|].
  destruct (proj1 (removal_commits_before_it_fails (t0 + day) 7 hotel_taxed
                     eq_refl) 1 _ eq_refl)
    as (d' & Hrun & _ & Hgone & _).
  exists d'. split; assumption.
Defined.

Lemma double_booking_refused_witness :
  tbl_get number 101 (rooms hotel) = Some room101 /\
  occupied room101 = false /\
  exists (b : Booking) (d1 : DB),
    request (create_booking t0 (book 101 None)) hotel = (inr b, d1) /\
    request (create_booking (t0 + day) (book 101 (Some 900%Q))) d1 =
      (inl ConflictError, d1).
Proof.
  split; [reflexivity|]. split; [reflexivity|].
  exact (double_booking_refused t0 (t0 + day) (book 101 None)
           (book 101 (Some 900%Q)) hotel asha asha room101
           eq_refl eq_refl eq_refl eq_refl eq_refl).
Defined.

Lemma checkout_then_witness :
  tbl_get bk_id 1 (bookings hotel_booked) = Some booking1 /\
  checkout_at booking1 = None /\
  tbl_get number 101 (rooms hotel_booked) = Some room101_taken /\
  exists (b1 : Booking) (d1 : DB),
    request (checkout_booking (t0 + 2 * day) 1) hotel_booked = (inr b1, d1) /\
    request (checkout_booking (t0 + 3 * day) 1) d1 =
      (inl ConflictError, d1) /\
    exists (b2 : Booking) (d2 : DB),
      request (create_booking (t0 + 4 * day) (book 101 None)) d1 =
        (inr b2, d2) /\
      bk_id b2 <> 1.
Proof.
  split; [reflexivity|]. split; [reflexivity|]. split; [reflexivity|].
  destruct (checkout_then (t0 + 2 * day) (t0 + 3 * day) (t0 + 4 * day) 1
              hotel_booked booking1 room101_taken (guest_touch asha t0) None
              eq_refl eq_refl eq_refl eq_refl eq_refl)
    as (b1 & d1 & Hout & Hagain & b2 & d2 & Hnew & Hid & _).
  exists b1, d1. split; [exact Hout|]. split; [exact Hagain|].
  exists b2, d2. split; assumption.
Defined.

Lemma recalculation_idempotent_witness :
  unique_keys tax_id (taxes hotel_taxed) /\
  unique_keys disc_id (discounts hotel_taxed) /\
  exists (b1 b2 : Booking) (d1 d2 : DB),
    request (recalculate_booking_totals (t0 + day) 1) hotel_taxed =
      (inr b1, d1) /\
    request (recalculate_booking_totals (t0 + 2 * day) 1) d1 = (inr b2, d2) /\
    grand_total b2 = grand_total b1 /\ taxes d2 = taxes d1 /\
    discounts d2 = discounts d1.
Proof.
  assert (Hut : unique_keys tax_id (taxes hotel_taxed))
    by exact (NoDup_cons _ (@in_nil _ _) (NoDup_nil _)).
  assert (Hux : unique_keys disc_id (discounts hotel_taxed))
    by exact (NoDup_cons _ (@in_nil _ _) (NoDup_nil _)).
  split; [exact Hut|]. split; [exact Hux|].
  destruct (recalculation_idempotent (t0 + day) (t0 + 2 * day) 1 hotel_taxed _
              eq_refl Hut Hux)
    as (b1 & b2 & d1 & d2 & H1 & H2 & _ & _ & _ & _ & Hg & _ & Ht & Hx & _).
  exists b1, b2, d1, d2. repeat split; assumption.
Defined.

Lemma add_discount_contract_witness :
  tbl_get bk_id 1 (bookings hotel_booked) = Some booking1 /\
  unique_keys disc_id (discounts hotel_booked) /\
  request (add_discount (t0 + day) 1 "Loyalty" None None) hotel_booked =
    (inl BadRequestError, hotel_booked) /\
  exists (x : InvoiceDiscount) (b' : Booking) (d' : DB),
    request (add_discount (t0 + day) 1 "Loyalty" (Some 50%Q) (Some 10%Q))
      hotel_booked = (inr x, d') /\
    disc_amount x =
      fmul (sum_amounts (select_line_items 1 hotel_booked))
        (fdiv 10%Q (of_Z 100)) /\
    tbl_get bk_id 1 (bookings d') = Some b' /\
    discount_total b' = Some (sum_discount_amounts (select_discounts 1 d')).
Proof.
  split; [reflexivity|]. split; [constructor|].
  split.
  { exact (proj1 (add_discount_contract (t0 + day) 1 "Loyalty" None None
                    hotel_booked) eq_refl eq_refl). }
  destruct (proj2 (proj2 (add_discount_contract (t0 + day) 1 "Loyalty"
                            (Some 50%Q) (Some 10%Q) hotel_booked))
              booking1 eq_refl eq_refl (NoDup_nil _))
    as (b' & d' & Hrun & _ & _ & _ & Hb & _ & Ht).
  eexists _, b', d'. split; [exact Hrun|].
  split; [reflexivity|]. split; assumption.
Defined.

Lemma delete_tax_contract_witness :
  tbl_get tax_id 1 (taxes hotel_taxed) <> None /\
  unique_keys tax_id (taxes hotel_taxed) /\
  exists (b' : Booking) (d' : DB),
    request (delete_tax (t0 + day) 1) hotel_taxed = (inr tt, d') /\
    tbl_get tax_id 1 (taxes d') = None /\
    tbl_get bk_id 1 (bookings d') = Some b' /\
    tax_total b' = Some (sum_tax_amounts (select_taxes 1 d')).
Proof.
  split; [discriminate|].
  assert (Hu : unique_keys tax_id (taxes hotel_taxed))
    by exact (NoDup_cons _ (@in_nil _ _) (NoDup_nil _)).
  split; [exact Hu|].
  destruct (proj2 (delete_tax_contract (t0 + day) 1 hotel_taxed) _ _
              eq_refl eq_refl Hu)
    as (b' & d' & Hrun & Hgone & _ & _ & _ & Hb & _ & Ht & _).
  exists b', d'. repeat split; assumption.
Defined.

Lemma delete_discount_contract_witness :
  tbl_get disc_id 1 (discounts hotel_taxed) <> None /\
  unique_keys disc_id (discounts hotel_taxed) /\
  exists (b' : Booking) (d' : DB),
    request (delete_discount (t0 + day) 1) hotel_taxed = (inr tt, d') /\
    tbl_get disc_id 1 (discounts d') = None /\
    tbl_get bk_id 1 (bookings d') = Some b' /\
    discount_total b' = Some (sum_discount_amounts (select_discounts 1 d')).
Proof.
  split; [discriminate|].
  assert (Hu : unique_keys disc_id (discounts hotel_taxed))
    by exact (NoDup_cons _ (@in_nil _ _) (NoDup_nil _)).
  split; [exact Hu|].
  destruct (proj2 (delete_discount_contract (t0 + day) 1 hotel_taxed) _ _
              eq_refl eq_refl Hu)
    as (b' & d' & Hrun & Hgone & _ & _ & _ & Hb & _ & Ht).
  exists b', d'. repeat split; assumption.
Defined.

Lemma get_rooms_contract_witness :
  exists (page : list Room) (total : nat),
    request (get_rooms 0 10 (Some "Premium"%string) (Some false))
      hotel_booked = (inr page, hotel_booked) /\
    List.length page = Nat.min 10 (total - 0) /\
    forall r : Room,
      In r page -> occupied r = false /\ room_type r = "Premium"%string.
Proof.
  destruct (get_rooms_contract 0 10 (Some "Premium"%string) (Some false)
              hotel_booked)
    as (page & total & Hrun & _ & Hlen & Hall).
  exists page, total. split; [exact Hrun|]. split; [exact Hlen|].
  intros r Hr. destruct (Hall r Hr) as (_ & Ho & Ht).
  split; [exact (Ho false eq_refl)|].
  apply (Ht "Premium"%string eq_refl). discriminate.
Defined.

Lemma available_and_occupied_rooms_witness :
  (List.length (rooms hotel_booked) <= 100)%nat /\
  exists available taken : list Room,
    request (get_available_rooms None) hotel_booked =
      (inr available, hotel_booked) /\
    request (get_occupied_rooms None) hotel_booked =
      (inr taken, hotel_booked) /\
    (In room101_taken available \/ In room101_taken taken) /\
    (In room101_taken available -> In room101_taken taken -> False).
Proof.
  assert (Hsmall : (List.length (rooms hotel_booked) <= 100)%nat)
    by (cbn; lia).
  split; [exact Hsmall|].
  destruct (available_and_occupied_rooms None hotel_booked)
    as (available & taken & Ha & Ht & _ & _ & _ & _ & Hdis & Hall).
  exists available, taken. split; [exact Ha|]. split; [exact Ht|].
  split.
  - apply (Hall Hsmall room101_taken); [left; reflexivity|reflexivity].
  - apply Hdis.
Defined.

Lemma get_bookings_contract_witness :
  exists (page : list Booking) (total : nat),
    request
      (get_bookings 0 10 (Some 1) None (Some "active"%string) (Some t0) None)
      hotel_two_bookings = (inr (page, total), hotel_two_bookings) /\
    List.length page = Nat.min 10 (total - 0) /\
    forall b : Booking,
      In b page ->
      guest_id b = 1 /\ checkout_at b = None /\ t0 <= checkin_at b.
Proof.
  destruct (proj1 (get_bookings_contract 0 10 (Some 1) None
                     (Some "active"%string) (Some t0) None
                     hotel_two_bookings))
    as (page & total & Hrun & Hlen & Hall).
  exists page, total. split; [exact Hrun|]. split; [exact Hlen|].
  intros b Hb. destruct (Hall b Hb) as (_ & Hg & _ & Ha & _ & Hf & _).
  split; [apply (Hg 1 eq_refl); discriminate|].
  split; [exact (Ha eq_refl)|exact (Hf t0 eq_refl)].
Defined.

Lemma seed_rooms_contract_witness :
  rooms (on_rooms (fun _ => []) hotel) = [] /\
  rooms hotel <> [] /\
  (exists d' : DB,
     request (seed_rooms t0) (on_rooms (fun _ => []) hotel) =
       (inr (true, 20%nat), d') /\
     map number (rooms d') = map Z.of_nat (seq 101 20) /\
     request (seed_rooms (t0 + day)) d' = (inr (false, 20%nat), d')) /\
  request (seed_rooms t0) hotel = (inr (false, 2%nat), hotel).
Proof.
  split; [reflexivity|]. split; [discriminate|].
  split.
  - destruct (proj1 (seed_rooms_contract t0 (t0 + day)
                       (on_rooms (fun _ => []) hotel)) eq_refl)
      as (d' & Hrun & Hnum & _ & _ & _ & _ & _ & _ & _ & _ & Hagain).
    exists d'. repeat split; assumption.
  - apply (proj2 (seed_rooms_contract t0 t0 hotel)). discriminate.
Defined.

Lemma get_date_range_contract_witness :
  t0 <= t0 + 3 * day + 5 /\
  List.length (get_date_range t0 (t0 + 3 * day + 5)) = 4%nat /\
  (forall t : Z,
     In t (get_date_range t0 (t0 + 3 * day + 5)) ->
     t0 <= t <= t0 + 3 * day + 5) /\
  (t0 - 1 < t0 -> get_date_range t0 (t0 - 1) = []).
Proof.
  assert (Hle : t0 <= t0 + 3 * day + 5) by (vm_compute; discriminate).
  split; [exact Hle|].
  destruct (proj2 (get_date_range_contract t0 (t0 + 3 * day + 5)) Hle)
    as (Hlen & _ & Hin & _).
  split; [exact Hlen|]. split; [exact Hin|].
  exact (proj1 (get_date_range_contract t0 (t0 - 1))).
Defined.
